(** * Fedora AI Website Generator: generation pipeline

    A shallow embedding of [backend/website_agent.py] (the generation
    client and the content normaliser), of [backend/image_processor.py]
    (the processing of an uploaded image) and of [backend/main.py] (the
    orchestrator: submission, background run, status polling, persistence
    and download), followed by the properties established about them.

    Python [str] values are modelled by [string]; the only case mapping
    that matters to the code is that of the ASCII letters.  Redis and the
    file system are explicit components of a [World] threaded through a
    small state-and-exception monad.  A path is the text the code builds
    for it: two paths are the same file when they are the same text.
    Generation IDs are those the submission handler makes, sixteen
    hexadecimal digits.  The texts of a submission are decoded from a
    form and hold no lone surrogate; the texts of a reply come from the
    JSON decoder, which makes a lone surrogate of an escape such as
    [\udc80]. *)

From Stdlib Require Import String Ascii ZArith List Bool Lia.
From stdpp Require Import gmap strings pretty.

(** ** Python string primitives *)

Module PyStr.

(** The two characters that a string literal cannot spell directly. *)
Definition dq : string := String "034"%char "".
Definition nl : string := String "010"%char "".

(** [c.lower()] on one character: 'A'..'Z' move to 'a'..'z'.  A string
    stands for its UTF-8 encoding; the bytes of the characters outside
    ASCII are left alone, which does not change where the ASCII word that
    the normaliser looks for occurs. *)
Definition lower_ascii (c : ascii) : ascii :=
  let n := nat_of_ascii c in
  if (65 <=? n)%nat && (n <=? 90)%nat then ascii_of_nat (n + 32) else c.

(** [s.lower()] *)
Fixpoint lower (s : string) : string :=
  match s with
  | "" => ""
  | String c s' => String (lower_ascii c) (lower s')
  end.

(** A lone surrogate, which a [str] can hold (the JSON decoder makes one
    from an unpaired escape such as [\ud800]) and UTF-8 cannot encode,
    stands in a string for the three bytes that the encoding scheme
    would give its code point: 0xED, then a byte from 0xA0 to 0xBF, then
    a continuation byte.  No encoding of another character has a byte
    from 0xA0 to 0xBF behind 0xED.  [has_surrogate s] tells whether
    [s.encode('utf-8')] raises [UnicodeEncodeError]. *)
Fixpoint has_surrogate (s : string) : bool :=
  match s with
  | "" => false
  | String a s' =>
      match s' with
      | "" => false
      | String b _ =>
          (Nat.eqb (nat_of_ascii a) 237
           && Nat.leb 160 (nat_of_ascii b) && Nat.leb (nat_of_ascii b) 191)
          || has_surrogate s'
      end
  end.

(** [s.startswith(p)] *)
Fixpoint startswith (p s : string) : bool :=
  match p with
  | "" => true
  | String a p' =>
      match s with
      | "" => false
      | String b s' => Ascii.eqb a b && startswith p' s'
      end
  end.

(** [p in s] *)
Fixpoint contains (p s : string) : bool :=
  startswith p s ||
  match s with
  | "" => false
  | String _ s' => contains p s'
  end.

(** [s[n:]] *)
Fixpoint drop (n : nat) (s : string) : string :=
  match n with
  | O => s
  | S k => match s with "" => "" | String _ s' => drop k s' end
  end.

(** [s.replace(old, new)] for a non-empty [old]: a scan from the left;
    at a position where [old] starts, [new] is emitted and the scan
    resumes after the occurrence ([skip] counts the characters of the
    occurrence still to be passed over), otherwise the character is
    copied. *)
Fixpoint replace_from (old new : string) (skip : nat) (s : string) : string :=
  match s with
  | "" => ""
  | String c s' =>
      match skip with
      | S k => replace_from old new k s'
      | O =>
          if startswith old s
          then new +:+ replace_from old new (String.length old - 1) s'
          else String c (replace_from old new 0 s')
      end
  end.

Definition replace (old new s : string) : string := replace_from old new 0 s.

(** [s.replace(old, new, 1)]: only the leftmost occurrence. *)
Fixpoint replace_first (old new s : string) : string :=
  if startswith old s then new +:+ drop (String.length old) s
  else match s with
       | "" => ""
       | String c s' => String c (replace_first old new s')
       end.

(** [s[:n]] *)
Fixpoint take (n : nat) (s : string) : string :=
  match n with
  | O => ""
  | S k => match s with "" => "" | String c s' => String c (take k s') end
  end.

(** [sep.join(l)] *)
Fixpoint join (sep : string) (l : list string) : string :=
  match l with
  | [] => ""
  | [x] => x
  | x :: rest => x +:+ sep +:+ join sep rest
  end.

(** The text of a triple-quoted literal whose lines are [l]: every line
    is followed by a line break. *)
Fixpoint unlines (l : list string) : string :=
  match l with
  | [] => ""
  | x :: rest => x +:+ nl +:+ unlines rest
  end.

End PyStr.

(** ** Data model, world and effects *)

Module Types.

(** A decoded JSON value, as [json.loads] returns it.  The members of a
    [JDict] have pairwise distinct keys, as in a Python [dict]. *)
#[local] Unset Elimination Schemes.
Inductive json :=
| JNull
| JBool (b : bool)
| JInt (n : Z)
| JFloat (repr : string)
| JStr (s : string)
| JList (items : list json)
| JDict (members : list (string * json)).
#[local] Set Elimination Schemes.

(** [type(v).__name__] *)
Definition type_name (v : json) : string :=
  match v with
  | JNull => "NoneType"
  | JBool _ => "bool"
  | JInt _ => "int"
  | JFloat _ => "float"
  | JStr _ => "str"
  | JList _ => "list"
  | JDict _ => "dict"
  end.

Fixpoint assoc {A : Type} (key : string) (l : list (string * A)) : option A :=
  match l with
  | [] => None
  | (k, v) :: rest => if bool_decide (k = key) then Some v else assoc key rest
  end.

(** website_agent.py, class GenerationRequest *)
Record GenerationRequest := {
  req_site_name : string;
  req_description : string;
  req_style : string;
  req_theme : string;
  req_target_devices : list string;
  req_seo_enabled : bool;
  req_multi_language : bool;
  req_images : list (list (string * json))
}.

(** website_agent.py, class GenerationResult.  [generation_time] is a
    number of seconds. *)
Record GenerationResult := {
  res_status : string;
  res_site_name : string;
  res_generation_id : string;
  html_content : string;
  css_content : string;
  js_content : string;
  seo_meta : list (string * string);
  images_used : list string;
  generation_time : Z;
  error_message : string
}.

(** main.py, class GenerationStatus.  [progress] is the percentage; the
    code only ever stores 0.0, 25.0, 75.0 and 100.0. *)
Record GenerationStatus := {
  generation_id : string;
  status : string;
  progress : Z;
  message : string;
  result_url : option string;
  error : option string
}.

(** An uploaded file, as far as the pipeline looks at it: its content
    type, its file name and the bytes that [read()] returns. *)
Record UploadFile := {
  content_type : string;
  filename : string;
  file_bytes : string
}.

(** One entry of FastAPI's [BackgroundTasks]: the arguments with which
    [process_generation] will be called after the response is sent. *)
Record Task := {
  task_generation_id : string;
  task_request : GenerationRequest;
  task_cache_key : string
}.

(** What the orchestrator stores in Redis.  The JSON text is represented
    by the value it encodes: [status_data.json()] under a status key,
    [json.dumps({"generation_id": .., "result_url": ..})] under a cache
    key. *)
Inductive RedisValue :=
| StatusJson (s : GenerationStatus)
| CacheJson (cached_generation_id cached_result_url : string).

(** The Redis database: every key holds its value together with the
    instant at which it expires.  [setex_log] records the SETEX commands
    in the order they were issued.  The orchestrator is the only writer,
    and a command sent through a connected client is answered. *)
Record Redis := {
  entries : gmap string (Z * RedisValue);
  setex_log : list (string * RedisValue)
}.

Definition redis_get (r : Redis) (now : Z) (key : string) : option RedisValue :=
  match entries r !! key with
  | Some (expiry, v) => if (now <? expiry)%Z then Some v else None
  | None => None
  end.

Definition redis_setex (r : Redis) (now : Z) (key : string) (ttl : Z)
    (v : RedisValue) : Redis :=
  {| entries := <[key := ((now + ttl)%Z, v)]> (entries r);
     setex_log := setex_log r ++ [(key, v)] |}.

(** The content of meta.json, represented by the dictionary it encodes. *)
Record MetaData := {
  meta_generation_id : string;
  meta_site_name : string;
  meta_created_at : Z;
  meta_generation_time : Z;
  meta_seo_meta : list (string * string);
  meta_images_used : list string
}.

(** What a file holds: a text, the text of meta.json, or bytes written in
    binary mode. *)
Inductive FileContent :=
| Text (s : string)
| MetaJson (m : MetaData)
| Bytes (b : string).

(** [content] can be encoded as UTF-8.  The text of meta.json is made
    with [ensure_ascii=False], so that the strings of the metadata are in
    it as they are; its numbers, its time stamp and its generation ID
    are ASCII. *)
Definition encodable (content : FileContent) : bool :=
  match content with
  | Text s => negb (PyStr.has_surrogate s)
  | MetaJson m =>
      negb (PyStr.has_surrogate (meta_site_name m))
      && forallb (fun kv => negb (PyStr.has_surrogate kv.1)
                            && negb (PyStr.has_surrogate kv.2))
           (meta_seo_meta m)
      && forallb (fun url => negb (PyStr.has_surrogate url))
           (meta_images_used m)
  | Bytes _ => true
  end.

(** How the operating system fails the creation of a directory or the
    write of a file, with the message of the [OSError]: before the file
    is opened, so that nothing changes, or after it was opened for
    writing, so that the file holds only what was written by then. *)
Inductive Failure :=
| OpenFails (msg : string)
| WriteFails (msg : string) (written : string).

Definition failure_msg (failure : Failure) : string :=
  match failure with
  | OpenFails msg => msg
  | WriteFails msg _ => msg
  end.

(** The file system.  [fault] is [None] on a healthy disk; otherwise it
    tells for every path whether and how the creation of that directory
    or the write of that file fails. *)
Record FS := {
  dirs : gset string;
  files : gmap string FileContent;
  fault : option (string -> option Failure)
}.

Definition failure_of (f : FS) (path : string) : option Failure :=
  match fault f with
  | Some failing => failing path
  | None => None
  end.

(** [Path(p).exists()] *)
Definition path_exists (f : FS) (p : string) : bool :=
  bool_decide (p ∈ dirs f) || bool_decide (is_Some (files f !! p)).

(** Everything the pipeline reads or changes: [self.redis_client] (absent
    when the connection failed at start-up), the file system, the prompts
    sent to the completion endpoint so far, and the background tasks
    scheduled so far. *)
Record World := {
  redis_client : option Redis;
  fs : FS;
  llm_calls : list (string * string);
  background_tasks : list Task
}.

Definition set_redis (w : World) (r : Redis) : World :=
  {| redis_client := Some r; fs := fs w;
     llm_calls := llm_calls w; background_tasks := background_tasks w |}.

(** The world after one more call of the completion endpoint. *)
Definition log_call (w : World) (system user : string) : World :=
  {| redis_client := redis_client w; fs := fs w;
     llm_calls := llm_calls w ++ [(system, user)];
     background_tasks := background_tasks w |}.

Definition set_fs (w : World) (f : FS) : World :=
  {| redis_client := redis_client w; fs := f;
     llm_calls := llm_calls w; background_tasks := background_tasks w |}.

(** Exceptions: FastAPI's [HTTPException] and every other [Exception],
    the latter identified with its message [str(e)]. *)
Inductive Exn :=
| HTTPException (status_code : Z) (detail : string)
| Exception (msg : string).

(** [str(e)] *)
Definition exn_str (e : Exn) : string :=
  match e with
  | HTTPException c d => pretty c +:+ ": " +:+ d
  | Exception msg => msg
  end.

Inductive Outcome (A : Type) :=
| Ret (a : A)
| Raise (e : Exn).
Arguments Ret {A} a.
Arguments Raise {A} e.

(** A computation over the world that returns or raises. *)
Definition M (A : Type) : Type := World -> Outcome A * World.

#[global] Instance M_ret : MRet M := fun A a w => (Ret a, w).

#[global] Instance M_bind : MBind M := fun A B f m w =>
  match m w with
  | (Ret a, w') => f a w'
  | (Raise e, w') => (Raise e, w')
  end.

Definition raise {A : Type} (e : Exn) : M A := fun w => (Raise e, w).

(** [try: body  except Exception as e: handler e] *)
Definition try_except {A : Type} (body : M A) (handler : Exn -> M A) : M A :=
  fun w =>
    match body w with
    | (Ret a, w') => (Ret a, w')
    | (Raise e, w') => handler e w'
    end.

Definition get_world : M World := fun w => (Ret w, w).
Definition put_world (w' : World) : M unit := fun _ => (Ret tt, w').

Fixpoint mapM {A B : Type} (f : A -> M B) (l : list A) : M (list B) :=
  match l with
  | [] => mret []
  | x :: rest => y ← f x; ys ← mapM f rest; mret (y :: ys)
  end.

(** Library and service behaviour the pipeline relies on but does not
    define: the completion endpoint (the message contents of the choices
    of its reply, or the message of the exception the client raises),
    the JSON decoder (the value, or the message of [JSONDecodeError]),
    [str.strip], pydantic's coercion of a field to [str] and to
    [Dict[str, str]] and the message of its [ValidationError] for a list
    of rejected fields, the two digests in hexadecimal, the text of a
    clock reading inside an f-string, the message of the
    [UnicodeEncodeError] that the UTF-8 encoder raises for a content it
    cannot encode, what Pillow makes of a file (the message of the
    exception that [Image.open], the conversion to RGB or [thumbnail]
    raises, or the bytes that [save(path, 'JPEG', quality=85,
    optimize=True)] writes together with the size of the resized image),
    the last eight characters of [str(hash(name))] in this process, and
    [Path(name).stem]. *)
Class Runtime := {
  chat_completions_create : string -> string -> string + list (option string);
  json_loads : string -> string + json;
  str_strip : string -> string;
  pydantic_str : json -> option string;
  pydantic_dict_str_str : json -> option (list (string * string));
  validation_error : list string -> string;
  sha256_hexdigest : string -> string;
  md5_hexdigest : string -> string;
  float_str : Z -> string;
  unicode_encode_error : FileContent -> string;
  pil_optimize : FileContent -> string + (string * (Z * Z));
  hash_tail : string -> string;
  path_stem : string -> string
}.

End Types.

(** ** Operations on the file system *)

Module Files.
Import Types.

(** [path.mkdir(parents=True, exist_ok=True)] *)
Definition mkdir (path : string) : M unit :=
  fun w =>
    match failure_of (fs w) path with
    | Some failure => (Raise (Exception (failure_msg failure)), w)
    | None =>
        (Ret tt, set_fs w {| dirs := {[path]} ∪ dirs (fs w);
                             files := files (fs w);
                             fault := fault (fs w) |})
    end.

(** The world in which the file at [path] holds [content]. *)
Definition put_file (path : string) (content : FileContent) (w : World) : World :=
  set_fs w {| dirs := dirs (fs w);
              files := <[path := content]> (files (fs w));
              fault := fault (fs w) |}.

(** [open(path, 'wb')] followed by the write of [data]. *)
Definition write_bytes (path data : string) : M unit :=
  fun w =>
    match failure_of (fs w) path with
    | Some (OpenFails msg) => (Raise (Exception msg), w)
    | Some (WriteFails msg written) =>
        (Raise (Exception msg), put_file path (Bytes written) w)
    | None => (Ret tt, put_file path (Bytes data) w)
    end.

(** [path.unlink()] *)
Definition unlink (path : string) : M unit :=
  fun w =>
    match files (fs w) !! path with
    | None =>
        (Raise (Exception ("[Errno 2] No such file or directory: '"
                             +:+ path +:+ "'")), w)
    | Some _ =>
        (Ret tt, set_fs w {| dirs := dirs (fs w);
                             files := delete path (files (fs w));
                             fault := fault (fs w) |})
    end.

Section Text.
Context `{Runtime}.

(** [path.write_text(content, encoding='utf-8')]: the file is opened for
    writing, which empties it; the content is encoded, which raises when
    it holds a lone surrogate; the bytes are written. *)
Definition write_text (path : string) (content : FileContent) : M unit :=
  fun w =>
    match failure_of (fs w) path with
    | Some (OpenFails msg) => (Raise (Exception msg), w)
    | failure =>
        if negb (encodable content)
        then (Raise (Exception (unicode_encode_error content)),
              put_file path (Text "") w)
        else
          match failure with
          | Some (WriteFails msg written) =>
              (Raise (Exception msg), put_file path (Text written) w)
          | _ => (Ret tt, put_file path content w)
          end
    end.

End Text.

End Files.

(** ** image_processor.py *)

Module ImageProcessor.
Import PyStr Types Files.

(** What [_process_image] returns: the URL, the size in pixels, the format
    and the size in bytes of the optimised image. *)
Record ProcessedInfo := {
  info_url : string;
  info_size : Z * Z;
  info_format : string;
  info_file_size : Z
}.

(** [process_upload] as a function of what the part of its [try] block
    behind the test of the content type does: [processing] gives what
    [_process_image] returned, or the message of the exception that the
    write of the temporary file, [_process_image] or the removal of the
    temporary file raised. *)
Definition process_upload (processing : UploadFile -> string + ProcessedInfo)
    (upload_file : UploadFile) : Outcome (list (string * json)) :=
  if negb (startswith "image/" (content_type upload_file))
  then Raise (HTTPException 400 "Файл должен быть изображением")
  else
    match processing upload_file with
    | inr processed_info =>
        Ret [("status", JStr "success");
             ("original_name", JStr (filename upload_file));
             ("processed_url", JStr (info_url processed_info));
             ("size", JList [JInt (info_size processed_info).1;
                             JInt (info_size processed_info).2]);
             ("format", JStr (info_format processed_info));
             ("file_size", JInt (info_file_size processed_info))]
    | inl e =>
        Ret [("status", JStr "error");
             ("error", JStr e);
             ("original_name", JStr (filename upload_file))]
    end.

Section Processor.
Context `{Runtime}.

(** [optimized_name] in [_get_optimized_path] *)
Definition optimized_name (original_name : string) : string :=
  "opt_" +:+ hash_tail original_name +:+ "_" +:+ path_stem original_name
    +:+ ".jpg".

(** [_get_optimized_path] *)
Definition _get_optimized_path (original_name : string) : M string :=
  let uploads_dir := "static/uploads" in
  mkdir uploads_dir;;
  mret (uploads_dir +:+ "/" +:+ optimized_name original_name).

(** [_process_image]: the image is read from [image_path], and the JPEG
    that Pillow makes of it is written to the optimised path, whose last
    component is [optimized_name]. *)
Definition _process_image (image_path original_name : string)
    : M ProcessedInfo :=
  w ← get_world;
  match files (fs w) !! image_path with
  | None =>
      raise (Exception ("[Errno 2] No such file or directory: '"
                          +:+ image_path +:+ "'"))
  | Some content =>
      match pil_optimize content with
      | inl msg => raise (Exception msg)
      | inr (jpeg, size) =>
          optimized_path ← _get_optimized_path original_name;
          write_bytes optimized_path jpeg;;
          let file_size := Z.of_nat (String.length jpeg) in
          mret {| info_url :=
                    "/static/uploads/" +:+ optimized_name original_name;
                  info_size := size;
                  info_format := "JPEG";
                  info_file_size := file_size |}
      end
  end.

(** The part of the [try] block of [process_upload] behind the test of
    the content type. *)
Definition process_upload_body (upload_file : UploadFile) : M ProcessedInfo :=
  let temp_path := "/tmp/" +:+ filename upload_file in
  write_bytes temp_path (file_bytes upload_file);;
  processed_info ← _process_image temp_path (filename upload_file);
  unlink temp_path;;
  mret processed_info.

(** [process_upload] with its effects on the file system. *)
Definition process_upload_io (upload_file : UploadFile)
    : M (list (string * json)) :=
  try_except
    (if negb (startswith "image/" (content_type upload_file))
     then raise (HTTPException 400 "Файл должен быть изображением")
     else
       processed_info ← process_upload_body upload_file;
       mret [("status", JStr "success");
             ("original_name", JStr (filename upload_file));
             ("processed_url", JStr (info_url processed_info));
             ("size", JList [JInt (info_size processed_info).1;
                             JInt (info_size processed_info).2]);
             ("format", JStr (info_format processed_info));
             ("file_size", JInt (info_file_size processed_info))])
    (fun e =>
       match e with
       | HTTPException _ _ => raise e
       | Exception _ =>
           mret [("status", JStr "error");
                 ("error", JStr (exn_str e));
                 ("original_name", JStr (filename upload_file))]
       end).

End Processor.

End ImageProcessor.

(** ** website_agent.py *)

Module WebsiteAgent.
Import PyStr Types.

(** [_load_base_prompt]: the system prompt. *)
Definition base_prompt : string :=
  nl +:+ unlines [
    "        Ты - senior frontend разработчик с 10+ лет опыта. Создавай современные, адаптивные веб-сайты которые идеально работают на всех устройствах.";
    "";
    "        КРИТИЧЕСКИЕ ТРЕБОВАНИЯ:";
    "        1. Mobile-first подход";
    "        2. CSS Grid/Flexbox для адаптивности";
    "        3. Семантические HTML5 теги";
    "        4. Доступность (ARIA attributes)";
    "        5. Оптимизация производительности";
    "        6. SEO-дружественная структура";
    "";
    "        CSS ТРЕБОВАНИЯ:";
    "        - Использовать CSS переменные для цветов";
    "        - Mobile-first media queries";
    "        - Flexbox/Grid для layout";
    "        - Плавные анимации";
    "        - Темная/светлая тема поддержка";
    "        - Modern CSS (grid, custom properties)";
    "";
    "        ОБЯЗАТЕЛЬНЫЕ СЕКЦИИ:";
    "        - Header с навигацией";
    "        - Hero секция с CTA";
    "        - Основной контент";
    "        - Footer с контактами";
    "";
    "        ВЕРНИ ТОЛЬКО JSON С СЛЕДУЮЩЕЙ СТРУКТУРОЙ:";
    "        {";
    "          " +:+ dq +:+ "html" +:+ dq +:+ ": " +:+ dq +:+ "полный HTML код" +:+ dq +:+ ",";
    "          " +:+ dq +:+ "css" +:+ dq +:+ ": " +:+ dq +:+ "полный CSS код" +:+ dq +:+ ",";
    "          " +:+ dq +:+ "js" +:+ dq +:+ ": " +:+ dq +:+ "JavaScript код (опционально)" +:+ dq +:+ ",";
    "          " +:+ dq +:+ "seo" +:+ dq +:+ ": {";
    "            " +:+ dq +:+ "title" +:+ dq +:+ ": " +:+ dq +:+ "заголовок страницы" +:+ dq +:+ ",";
    "            " +:+ dq +:+ "description" +:+ dq +:+ ": " +:+ dq +:+ "meta description" +:+ dq +:+ ", ";
    "            " +:+ dq +:+ "keywords" +:+ dq +:+ ": " +:+ dq +:+ "ключевые слова" +:+ dq;
    "          }";
    "        }";
    "";
    "        Не добавляй никакого пояснительного текста, только чистый JSON."
  ] +:+ "        ".

(** [_build_generation_prompt] *)
Definition _build_generation_prompt (request : GenerationRequest) : string :=
  let devices_text := join ", " (req_target_devices request) in
  nl +:+ unlines [
    "        СОЗДАЙ АДАПТИВНЫЙ ВЕБ-САЙТ:";
    "";
    "        НАЗВАНИЕ САЙТА: " +:+ req_site_name request;
    "        ОПИСАНИЕ: " +:+ req_description request;
    "        СТИЛЬ ДИЗАЙНА: " +:+ req_style request;
    "        ЦВЕТОВАЯ ТЕМА: " +:+ req_theme request;
    "        ЦЕЛЕВЫЕ УСТРОЙСТВА: " +:+ devices_text;
    "        SEO ОПТИМИЗАЦИЯ: " +:+ (if req_seo_enabled request then "ДА" else "НЕТ");
    "        МУЛЬТИЯЗЫЧНОСТЬ: " +:+ (if req_multi_language request then "ДА" else "НЕТ");
    "";
    "        ТЕХНИЧЕСКИЕ ТРЕБОВАНИЯ:";
    "        - Mobile-first responsive design";
    "        - Breakpoints: 320px, 768px, 1024px, 1440px";
    "        - Semantic HTML5 markup";
    "        - CSS Grid/Flexbox layouts";
    "        - Accessible (ARIA labels)";
    "        - Fast loading performance";
    "";
    "        ДИЗАЙН ТРЕБОВАНИЯ:";
    "        - Modern " +:+ req_style request +:+ " style";
    "        - " +:+ req_theme request +:+ " color theme";
    "        - Professional typography";
    "        - Consistent spacing";
    "        - Interactive elements";
    "";
    "        ВКЛЮЧИ СЛЕДУЮЩИЕ СЕКЦИИ:";
    "        1. Header с логотипом и навигацией";
    "        2. Hero секция с основным заголовком";
    "        3. Features/About секция";
    "        4. Contact/form секция";
    "        5. Footer с социальными ссылками";
    "";
    "        ДОПОЛНИТЕЛЬНО:";
    "        - Используй современные CSS техники";
    "        - Добавь плавные переходы";
    "        - Сделай код чистым и комментированным";
    "";
    "        ВЕРНИ JSON С HTML, CSS И SEO МЕТАДАННЫМИ."
  ] +:+ "        ".

Definition viewport_meta : string :=
  "<meta name=" +:+ dq +:+ "viewport" +:+ dq +:+ " content=" +:+ dq
    +:+ "width=device-width, initial-scale=1.0" +:+ dq +:+ ">".

Definition lazy_img : string := "<img loading=" +:+ dq +:+ "lazy" +:+ dq.

Definition _optimize_html (html : string) (target_devices : list string) : string :=
  let html :=
    if negb (contains "viewport" (lower html))
    then replace_first "</head>" (viewport_meta +:+ nl +:+ "</head>") html
    else html in
  let html := replace "<img" lazy_img html in
  let html :=
    if negb (contains "<main>" html)
    then
      let html := replace_first "<body>" ("<body>" +:+ nl +:+ "    <main>") html in
      replace_first "</body>" ("    </main>" +:+ nl +:+ "</body>") html
    else html in
  html.

Definition base_css : string :=
  nl +:+ unlines [
  "        /* Fedora AI Generator - Base Responsive Styles */";
  "        :root {";
  "            --primary-color: #3b6ea5;";
  "            --secondary-color: #77216F;";
  "            --text-color: #2c2c2c;";
  "            --bg-color: #ffffff;";
  "            --mobile: 320px;";
  "            --tablet: 768px;";
  "            --desktop: 1024px;";
  "            --large: 1440px;";
  "        }";
  "        ";
  "        * {";
  "            box-sizing: border-box;";
  "            margin: 0;";
  "            padding: 0;";
  "        }";
  "        ";
  "        html {";
  "            font-size: 16px;";
  "            scroll-behavior: smooth;";
  "        }";
  "        ";
  "        body {";
  "            font-family: -apple-system, BlinkMacSystemFont, 'Segoe UI', Roboto, Oxygen, Ubuntu, Cantarell, sans-serif;";
  "            line-height: 1.6;";
  "            color: var(--text-color);";
  "            background-color: var(--bg-color);";
  "            min-height: 100vh;";
  "        }";
  "        ";
  "        img {";
  "            max-width: 100%;";
  "            height: auto;";
  "        }";
  "        ";
  "        /* Mobile First Media Queries */";
  "        @media (min-width: 768px) {";
  "            html { font-size: 17px; }";
  "        }";
  "        ";
  "        @media (min-width: 1024px) {";
  "            html { font-size: 18px; }";
  "        }";
  "        ";
  "        /* Accessibility */";
  "        @media (prefers-reduced-motion: reduce) {";
  "            * { animation-duration: 0.01ms !important; }";
  "        }"
  ] +:+ "        ".

Definition _optimize_css (css : string) (target_devices : list string) : string :=
  base_css +:+ nl +:+ css.


Section Client.
Context `{Runtime}.

(** [await self.client.chat.completions.create(...)] with the system
    and the user message. *)
Definition create_completion (system user : string) : M (list (option string)) :=
  fun w =>
    let w' := log_call w system user in
    match chat_completions_create system user with
    | inl msg => (Raise (Exception msg), w')
    | inr choices => (Ret choices, w')
    end.

(** [response.choices[0].message.content] *)
Definition first_choice_content (choices : list (option string)) : M (option string) :=
  match choices with
  | [] => raise (Exception "list index out of range")
  | c :: _ => mret c
  end.

(** [_parse_response] *)
Definition _parse_response (content : option string) : M json :=
  match content with
  | None => raise (Exception "'NoneType' object has no attribute 'strip'")
  | Some content =>
      match json_loads (str_strip content) with
      | inr v => mret v
      | inl e => raise (Exception ("Ошибка парсинга JSON ответа: " +:+ e))
      end
  end.

(** [d.get(key, default)] on a decoded value. *)
Definition py_get (d : json) (key : string) (default : json) : M json :=
  match d with
  | JDict members => mret (from_option id default (assoc key members))
  | _ => raise (Exception ("'" +:+ type_name d
                             +:+ "' object has no attribute 'get'"))
  end.

(** The call [self._optimize_html(v, devices)] on a decoded value: the
    first thing the body does with it is [v.lower()]. *)
Definition call_optimize_html (v : json) (target_devices : list string) : M string :=
  match v with
  | JStr html => mret (_optimize_html html target_devices)
  | _ => raise (Exception ("'" +:+ type_name v
                             +:+ "' object has no attribute 'lower'"))
  end.

(** The call [self._optimize_css(v, devices)] on a decoded value: the
    body concatenates it to a [str]. *)
Definition call_optimize_css (v : json) (target_devices : list string) : M string :=
  match v with
  | JStr css => mret (_optimize_css css target_devices)
  | _ => raise (Exception ("can only concatenate str (not " +:+ dq
                             +:+ type_name v +:+ dq +:+ ") to str"))
  end.

(** [img.get("url", "")] on an image descriptor. *)
Definition image_url (img : list (string * json)) : json :=
  from_option id (JStr "") (assoc "url" img).

Fixpoint all_str (l : list json) : option (list string) :=
  match l with
  | [] => Some []
  | v :: rest =>
      match pydantic_str v, all_str rest with
      | Some s, Some ss => Some (s :: ss)
      | _, _ => None
      end
  end.

(** The successful [GenerationResult(status="success", ...)]: pydantic
    validates the three arguments that come from decoded data. *)
Definition success_result (site_name optimized_html optimized_css : string)
    (js seo : json) (images : list json) (generation_time : Z)
    : M GenerationResult :=
  match pydantic_str js, pydantic_dict_str_str seo, all_str images with
  | Some js', Some seo', Some images' =>
      mret {| res_status := "success";
              res_site_name := site_name;
              res_generation_id := "";
              html_content := optimized_html;
              css_content := optimized_css;
              js_content := js';
              seo_meta := seo';
              images_used := images';
              generation_time := generation_time;
              error_message := "" |}
  | js', seo', images' =>
      raise (Exception (validation_error
        ((if js' is None then ["js_content"] else [])
         ++ (if seo' is None then ["seo_meta"] else [])
         ++ (if images' is None then ["images_used"] else []))))
  end.

(** [GenerationResult(status="error", error_message=.., generation_time=..)] *)
Definition error_result (error_message : string) (generation_time : Z)
    : GenerationResult :=
  {| res_status := "error";
     res_site_name := "";
     res_generation_id := "";
     html_content := "";
     css_content := "";
     js_content := "";
     seo_meta := [];
     images_used := [];
     generation_time := generation_time;
     error_message := error_message |}.

(** The body of the [try] block of [generate_website]. *)
Definition generate_website_try (request : GenerationRequest)
    (start_time end_time : Z) : M GenerationResult :=
  let prompt := _build_generation_prompt request in
  response ← create_completion base_prompt prompt;
  content ← first_choice_content response;
  result_data ← _parse_response content;
  html ← py_get result_data "html" (JStr "");
  optimized_html ← call_optimize_html html (req_target_devices request);
  css ← py_get result_data "css" (JStr "");
  optimized_css ← call_optimize_css css (req_target_devices request);
  js_content ← py_get result_data "js" (JStr "");
  let generation_time := (end_time - start_time)%Z in
  seo ← py_get result_data "seo" (JDict []);
  success_result (req_site_name request) optimized_html optimized_css
    js_content seo (map image_url (req_images request)) generation_time.

(** [generate_website]: [start_time] is the clock at entry, [end_time]
    the clock when the elapsed time is taken. *)
Definition generate_website (request : GenerationRequest)
    (start_time end_time : Z) : M GenerationResult :=
  try_except
    (generate_website_try request start_time end_time)
    (fun e =>
       let generation_time := (end_time - start_time)%Z in
       mret (error_result (exn_str e) generation_time)).

End Client.

End WebsiteAgent.

(** ** main.py *)

Module Main.
Import PyStr Types Files.

(** [self.base_dir / ".." / "generated" / "sites" / generation_id],
    relative to the project root. *)
Definition site_dir_of (generation_id : string) : string :=
  "generated/sites/" +:+ generation_id.

(** [f"/sites/{generation_id}/index.html"] *)
Definition site_url (generation_id : string) : string :=
  "/sites/" +:+ generation_id +:+ "/index.html".

(** [update_generation_status], called at the instant [now]. *)
Definition update_generation_status (now : Z) (generation_id status : string)
    (progress : Z) (message : string) (result_url error : option string)
    : M unit :=
  let status_data :=
    {| generation_id := generation_id;
       status := status;
       progress := progress;
       message := message;
       result_url := result_url;
       error := error |} in
  w ← get_world;
  match redis_client w with
  | Some r =>
      let status_key := "status:" +:+ generation_id in
      put_world (set_redis w
        (redis_setex r now status_key 3600 (StatusJson status_data)))
  | None => mret tt
  end.

Section Orchestrator.
Context `{Runtime}.

(** [save_generation_result], called at the instant [now]. *)
Definition save_generation_result (now : Z) (generation_id : string)
    (result : GenerationResult) : M unit :=
  let site_dir := site_dir_of generation_id in
  mkdir site_dir;;
  (if negb (bool_decide (html_content result = ""))
   then write_text (site_dir +:+ "/index.html") (Text (html_content result))
   else mret tt);;
  (if negb (bool_decide (css_content result = ""))
   then write_text (site_dir +:+ "/styles.css") (Text (css_content result))
   else mret tt);;
  (if negb (bool_decide (js_content result = ""))
   then write_text (site_dir +:+ "/script.js") (Text (js_content result))
   else mret tt);;
  let meta_data :=
    {| meta_generation_id := generation_id;
       meta_site_name := res_site_name result;
       meta_created_at := now;
       meta_generation_time := generation_time result;
       meta_seo_meta := seo_meta result;
       meta_images_used := images_used result |} in
  write_text (site_dir +:+ "/meta.json") (MetaJson meta_data).

(** The body of [process_generation] for a given [self.agent]: [agent]
    is its [generate_website], called with the request and the clock
    readings [t0] and [t1]. *)
Definition process_generation_with
    (agent : GenerationRequest -> Z -> Z -> M GenerationResult)
    (t0 t1 : Z) (generation_id : string)
    (request : GenerationRequest) (cache_key : string) : M unit :=
  try_except
    (update_generation_status t0 generation_id "processing" 25
       "Генерация контента..." None None;;
     result ← agent request t0 t1;
     update_generation_status t1 generation_id "processing" 75
       "Оптимизация кода..." None None;;
     save_generation_result t1 generation_id result;;
     w ← get_world;
     match redis_client w with
     | Some r =>
         put_world (set_redis w
           (redis_setex r t1 cache_key 86400
              (CacheJson generation_id (site_url generation_id))))
     | None => mret tt
     end;;
     update_generation_status t1 generation_id "completed" 100
       "Генерация завершена" (Some (site_url generation_id)) None)
    (fun e =>
       update_generation_status t1 generation_id "error" 0
         "Ошибка генерации" None (Some (exn_str e))).

(** [process_generation]: [t0] is the clock when the task starts, [t1]
    the clock when the generation client has returned. *)
Definition process_generation (t0 t1 : Z) (generation_id : string)
    (request : GenerationRequest) (cache_key : string) : M unit :=
  process_generation_with WebsiteAgent.generate_website
    t0 t1 generation_id request cache_key.

(** [background_tasks.add_task(self.process_generation, ...)] *)
Definition add_task (t : Task) : M unit :=
  fun w =>
    (Ret tt, {| redis_client := redis_client w; fs := fs w;
                llm_calls := llm_calls w;
                background_tasks := background_tasks w ++ [t] |}).

(** The body of the loop over the uploaded images. *)
Definition process_image (image : UploadFile) : M (list (string * json)) :=
  if negb (bool_decide
             (content_type image ∈ ["image/jpeg"; "image/png"; "image/webp"]))
  then raise (HTTPException 400
                ("Неподдерживаемый формат изображения: " +:+ content_type image))
  else ImageProcessor.process_upload_io image.

(** The handler of [POST /api/generate], called at the instant [now]. *)
Definition generate_website (now : Z)
    (site_name description style theme : string)
    (target_devices : list string) (seo_enabled multi_language : bool)
    (images : list UploadFile) : M GenerationStatus :=
  try_except
    (if negb (forallb
                (fun device =>
                   bool_decide (device ∈ ["mobile"; "tablet"; "desktop"]))
                target_devices)
     then raise (HTTPException 400 "Некорректные целевые устройства")
     else
       let generation_id :=
         take 16 (sha256_hexdigest
                    (site_name +:+ description +:+ style +:+ float_str now)) in
       let cache_key :=
         "generation:" +:+ md5_hexdigest (site_name +:+ description +:+ style) in
       w ← get_world;
       let cached :=
         match redis_client w with
         | Some r => redis_get r now cache_key
         | None => None
         end in
       match cached with
       | Some cached_data =>
           mret {| generation_id := generation_id;
                   status := "completed";
                   progress := 100;
                   message := "Результат загружен из кэша";
                   result_url := Some (site_url generation_id);
                   error := None |}
       | None =>
           processed_images ← mapM process_image images;
           let request :=
             {| req_site_name := site_name;
                req_description := description;
                req_style := style;
                req_theme := theme;
                req_target_devices := target_devices;
                req_seo_enabled := seo_enabled;
                req_multi_language := multi_language;
                req_images := processed_images |} in
           add_task {| task_generation_id := generation_id;
                       task_request := request;
                       task_cache_key := cache_key |};;
           mret {| generation_id := generation_id;
                   status := "processing";
                   progress := 0;
                   message := "Генерация сайта начата";
                   result_url := None;
                   error := None |}
       end)
    (fun e =>
       match e with
       | HTTPException _ _ => raise e
       | Exception _ =>
           raise (HTTPException 500
                    ("Ошибка при запуске генерации: " +:+ exn_str e))
       end).

(** The handler of [GET /api/generation/{generation_id}], called at the
    instant [now]. *)
Definition get_generation_status (now : Z) (generation_id : string)
    : M GenerationStatus :=
  w ← get_world;
  let status_data :=
    match redis_client w with
    | Some r => redis_get r now ("status:" +:+ generation_id)
    | None => None
    end in
  match status_data with
  | Some (StatusJson s) => mret s
  | Some (CacheJson _ _) =>
      raise (Exception (validation_error ["status"]))
  | None =>
      let site_dir := site_dir_of generation_id in
      if path_exists (fs w) site_dir
         && path_exists (fs w) (site_dir +:+ "/index.html")
      then mret {| generation_id := generation_id;
                   status := "completed";
                   progress := 100;
                   message := "Генерация завершена";
                   result_url := Some (site_url generation_id);
                   error := None |}
      else raise (HTTPException 404 "Генерация не найдена")
  end.

(** The server runs the scheduled tasks once the response is sent. *)
Definition run_task (t0 t1 : Z) (t : Task) : M unit :=
  process_generation t0 t1
    (task_generation_id t) (task_request t) (task_cache_key t).

End Orchestrator.

End Main.

(** ** A test double for the runtime *)

Module Fake.
Import Types.

(** A runtime whose completion endpoint always answers [llm], whose
    decoder always answers [decoded], whose clock always reads
    [clock_text], whose SHA-256 reverses its argument and whose MD5
    returns it; its Pillow copies the bytes it is given unless they begin
    with GIF8, and its file names have a suffix of three letters. *)
Definition runtime (llm : string + list (option string))
    (decoded : string + json) (clock_text : string) : Runtime :=
  {| chat_completions_create := fun _ _ => llm;
     json_loads := fun _ => decoded;
     str_strip := fun s => s;
     pydantic_str := fun v => match v with JStr s => Some s | _ => None end;
     pydantic_dict_str_str := fun v =>
       match v with
       | JDict members =>
           Some (omap (fun kv => match kv.2 with
                                 | JStr s => Some (kv.1, s)
                                 | _ => None
                                 end) members)
       | _ => None
       end;
     validation_error := fun fields => "validation error";
     sha256_hexdigest := fun s => String.rev s;
     md5_hexdigest := fun s => s;
     float_str := fun _ => clock_text;
     unicode_encode_error := fun _ =>
       "'utf-8' codec can't encode character '\udc80' in position 0: "
         +:+ "surrogates not allowed";
     pil_optimize := fun content =>
       match content with
       | Bytes b =>
           if PyStr.startswith "GIF8" b
           then inl "broken data stream when reading image file"
           else inr (b, (640, 480)%Z)
       | _ => inl "cannot identify image file"
       end;
     hash_tail := fun _ => "12345678";
     path_stem := fun name => PyStr.take (String.length name - 4) name |}.

(** The document of the worked example. *)
Definition bakery_html : string := "<body><img src=x></body>".

Definition all_devices : list string := ["mobile"; "tablet"; "desktop"].

(** An endpoint that cannot be reached, and one that answers the reply of
    the worked example. *)
Definition down (clock_text : string) : Runtime :=
  runtime (inl "Connection error.") (inl "no reply") clock_text.

Definition bakery_reply : json :=
  JDict [("html", JStr bakery_html); ("css", JStr ""); ("js", JStr "");
         ("seo", JDict [("title", JStr "Bakery")])].

Definition up (clock_text : string) : Runtime :=
  runtime (inr [Some "{}"]) (inr bakery_reply) clock_text.

Definition bakery_request : GenerationRequest :=
  {| req_site_name := "Bakery";
     req_description := "A cozy neighborhood bakery site";
     req_style := "modern";
     req_theme := "light";
     req_target_devices := all_devices;
     req_seo_enabled := true;
     req_multi_language := false;
     req_images := [] |}.

(** The submission of the worked example at the instant [now]. *)
Definition submit_bakery (rt : Runtime) (now : Z) : M GenerationStatus :=
  @Main.generate_website rt now "Bakery" "A cozy neighborhood bakery site"
    "modern" "light" all_devices true false [].

Definition empty_fs : FS := {| dirs := ∅; files := ∅; fault := None |}.

Definition empty_redis : Redis := {| entries := ∅; setex_log := [] |}.

Definition empty_world : World :=
  {| redis_client := Some empty_redis; fs := empty_fs;
     llm_calls := []; background_tasks := [] |}.

(** The worked example from submission to completion: submitted at the
    instant 1000 to the empty world, run in the background from the
    instant 1001 to the instant 1006. *)
Definition bakery_task : Task :=
  {| task_generation_id := "52.0001nredometi";
     task_request := bakery_request;
     task_cache_key := "generation:BakeryA cozy neighborhood bakery sitemodern" |}.

Definition generated_world : World :=
  (@Main.run_task (up "1000.25") 1001 1006 bakery_task
     (submit_bakery (up "1000.25") 1000 empty_world).2).2.

(** A world whose cache holds, until the instant 87406, the result of an
    earlier generation of the worked example, submitted when the clock
    read 1000.25. *)
Definition cached_world : World :=
  {| redis_client :=
       Some {| entries :=
                 {[ "generation:BakeryA cozy neighborhood bakery sitemodern" :=
                      (87406%Z, CacheJson "52.0001nredometi"
                                  "/sites/52.0001nredometi/index.html") ]};
               setex_log := [] |};
     fs := empty_fs; llm_calls := []; background_tasks := [] |}.

(** A world whose status store holds, until the instant 4000, a status of
    the generation 0123456789abcdef. *)
Definition polled_status : GenerationStatus :=
  {| generation_id := "0123456789abcdef"; status := "processing";
     progress := 25; message := "Генерация контента...";
     result_url := None; error := None |}.

Definition polled_world : World :=
  {| redis_client :=
       Some {| entries :=
                 {[ "status:0123456789abcdef" :=
                      (4000%Z, StatusJson polled_status) ]};
               setex_log := [] |};
     fs := empty_fs; llm_calls := []; background_tasks := [] |}.

(** A world without status entries in which the output of the generation
    0123456789abcdef is on disk. *)
Definition served_world : World :=
  {| redis_client := Some empty_redis;
     fs := {| dirs := {[ "generated/sites/0123456789abcdef" ]};
              files := {[ "generated/sites/0123456789abcdef/index.html" :=
                            Text "<html></html>" ]};
              fault := None |};
     llm_calls := []; background_tasks := [] |}.

End Fake.

(** ** Observations on runs *)

Module Observations.
Import PyStr Types.

(** A computation that leaves the world as it found it. *)
Definition silent {A : Type} (m : M A) : Prop :=
  forall w, (m w).2 = w.

(** Every value the computation returns satisfies [P]. *)
Definition ensures {A : Type} (P : A -> Prop) (m : M A) : Prop :=
  forall w a w', m w = (Ret a, w') -> P a.

(** The SETEX commands issued so far. *)
Definition log_of (w : World) : list (string * RedisValue) :=
  match redis_client w with
  | Some r => setex_log r
  | None => []
  end.

(** What a GET of the status key of [generation_id] answers at [now]. *)
Definition status_entry (w : World) (now : Z) (generation_id : string)
    : option RedisValue :=
  match redis_client w with
  | Some r => redis_get r now ("status:" +:+ generation_id)
  | None => None
  end.

(** What a GET of [key] answers at [now]. *)
Definition cache_entry (w : World) (now : Z) (key : string) : option RedisValue :=
  match redis_client w with
  | Some r => redis_get r now key
  | None => None
  end.

(** The files after a write that is made only when [b] holds. *)
Definition write_if (b : bool) (path : string) (content : FileContent)
    (m : gmap string FileContent) : gmap string FileContent :=
  if b then <[path := content]> m else m.

(** The world after a SETEX of the status [s] under its status key. *)
Definition with_status (w : World) (now : Z) (s : GenerationStatus) : World :=
  match redis_client w with
  | Some r =>
      set_redis w (redis_setex r now ("status:" +:+ generation_id s) 3600
                     (StatusJson s))
  | None => w
  end.

(** The world after a SETEX of the cache entry for [generation_id]. *)
Definition with_cache (w : World) (now : Z) (key generation_id : string) : World :=
  match redis_client w with
  | Some r =>
      set_redis w (redis_setex r now key 86400
                     (CacheJson generation_id (Main.site_url generation_id)))
  | None => w
  end.

(** The four statuses that [process_generation] writes. *)
Definition generating (generation_id : string) : GenerationStatus :=
  {| generation_id := generation_id; status := "processing"; progress := 25;
     message := "Генерация контента..."; result_url := None; error := None |}.

Definition optimizing (generation_id : string) : GenerationStatus :=
  {| generation_id := generation_id; status := "processing"; progress := 75;
     message := "Оптимизация кода..."; result_url := None; error := None |}.

Definition completed (generation_id : string) : GenerationStatus :=
  {| generation_id := generation_id; status := "completed"; progress := 100;
     message := "Генерация завершена";
     result_url := Some (Main.site_url generation_id); error := None |}.

Definition failed (generation_id msg : string) : GenerationStatus :=
  {| generation_id := generation_id; status := "error"; progress := 0;
     message := "Ошибка генерации"; result_url := None; error := Some msg |}.

(** The statuses written under the status key of [generation_id], in the
    order of the writes. *)
Definition status_updates (generation_id : string)
    (log : list (string * RedisValue)) : list GenerationStatus :=
  omap (fun kv =>
          match kv.2 with
          | StatusJson s =>
              if bool_decide (kv.1 = "status:" +:+ generation_id)
              then Some s else None
          | CacheJson _ _ => None
          end) log.

Definition is_terminal (s : GenerationStatus) : bool :=
  bool_decide (status s = "completed") || bool_decide (status s = "error").

(** No number of the list is smaller than the one before it. *)
Fixpoint non_decreasing (l : list Z) : bool :=
  match l with
  | [] => true
  | x :: rest =>
      match rest with
      | [] => true
      | y :: _ => (x <=? y)%Z && non_decreasing rest
      end
  end.

(** The three payloads of [result] and the strings of its metadata can
    be encoded as UTF-8. *)
Definition result_encodable (result : GenerationResult) : bool :=
  encodable (Text (html_content result))
  && encodable (Text (css_content result))
  && encodable (Text (js_content result))
  && encodable (MetaJson {| meta_generation_id := "";
                            meta_site_name := res_site_name result;
                            meta_created_at := 0;
                            meta_generation_time := generation_time result;
                            meta_seo_meta := seo_meta result;
                            meta_images_used := images_used result |}).

(** The paths that the image processor writes to: the temporary files
    and the directory of the optimised images. *)
Definition upload_path (p : string) : bool :=
  startswith "/tmp/" p || startswith "static/uploads" p.

(** [w'] differs from [w] at most in the files at the paths [files_at]
    and in directories at the paths [dirs_at], of which it may have
    more; no directory is gone. *)
Definition differs_within (files_at dirs_at : string -> bool) (w w' : World)
    : Prop :=
  redis_client w' = redis_client w
  /\ llm_calls w' = llm_calls w
  /\ background_tasks w' = background_tasks w
  /\ fault (fs w') = fault (fs w)
  /\ (forall p, files_at p = false -> files (fs w') !! p = files (fs w) !! p)
  /\ (forall p, p ∈ dirs (fs w) -> p ∈ dirs (fs w'))
  /\ (forall p, dirs_at p = false -> p ∈ dirs (fs w') -> p ∈ dirs (fs w)).

(** A computation whose effects are confined to those paths. *)
Definition confined {A : Type} (files_at dirs_at : string -> bool) (m : M A)
    : Prop :=
  forall w, differs_within files_at dirs_at w (m w).2.

(** [w'] differs from [w] at most in what is at the paths of the image
    processor. *)
Definition uploads_only (w w' : World) : Prop :=
  differs_within upload_path upload_path w w'.

(** A computation that reads and changes nothing but the file system:
    its outcome and the file system it leaves are the same in all worlds
    with the same file system. *)
Definition fs_local {A : Type} (m : M A) : Prop :=
  forall w, exists o f', forall v, fs v = fs w -> m v = (o, set_fs v f').

(** A computation that raises no [HTTPException]. *)
Definition plain {A : Type} (m : M A) : Prop :=
  forall w e w', m w = (Raise e, w') -> exists msg, e = Exception msg.

(** The files that [save_generation_result] writes for a generation. *)
Definition site_file (generation_id : string) (p : string) : bool :=
  bool_decide (p = Main.site_dir_of generation_id +:+ "/index.html")
  || bool_decide (p = Main.site_dir_of generation_id +:+ "/styles.css")
  || bool_decide (p = Main.site_dir_of generation_id +:+ "/script.js")
  || bool_decide (p = Main.site_dir_of generation_id +:+ "/meta.json").

End Observations.

(** ** Texts that a replacement leaves alone *)

Module Inert.
Import PyStr.

(** [p] and [s] differ at a position that both have. *)
Fixpoint clash (p s : string) : bool :=
  match p, s with
  | String a p', String b s' => negb (Ascii.eqb a b) || clash p' s'
  | _, _ => false
  end.

(** Every non-empty suffix of [p] clashes with [m]: an occurrence of [p]
    cannot begin before [m] and end inside it. *)
Fixpoint tails_clash (p m : string) : bool :=
  match p with
  | "" => true
  | String _ p' => clash p m && tails_clash p' m
  end.

(** [old] clashes with every non-empty suffix of [m]: an occurrence of
    [old] cannot begin inside [m]. *)
Fixpoint clash_everywhere (old m : string) : bool :=
  match m with
  | "" => true
  | String _ m' => clash old m && clash_everywhere old m'
  end.

Definition inert (old m : string) : bool :=
  tails_clash old m && clash_everywhere old m.

(** The text that [_optimize_html] puts in place of the closing head
    tag. *)
Definition closing_head : string :=
  WebsiteAgent.viewport_meta +:+ nl +:+ "</head>".

End Inert.

(** ** Image tags of a document *)

Module Checks.
Import PyStr.

(** At every position of [s] at which an image tag opens, the tag opens
    with the lazy-loading attribute. *)
Fixpoint every_img_lazy (s : string) : bool :=
  (negb (startswith "<img" s) || startswith WebsiteAgent.lazy_img s)
  && match s with
     | "" => true
     | String _ s' => every_img_lazy s'
     end.

End Checks.

(** ** main.py: the download handler *)

Module Download.
Import PyStr Types.

(** [FileResponse(path, filename=.., media_type=..)] *)
Record FileResponse := {
  response_path : string;
  response_filename : string;
  response_media_type : option string
}.

(** The disk as the download handler sees it: the file system of the
    generated sites and, by path, the archives in generated/zips, each
    archive being the content of its members by member name. *)
Record Disk := {
  disk_fs : FS;
  zip_files : gmap string (gmap string FileContent)
}.

(** [zip_dir / f"{generation_id}.zip"] *)
Definition zip_path_of (generation_id : string) : string :=
  "generated/zips/" +:+ generation_id +:+ ".zip".

(** The members that the loop of [create_zip_archive] writes: every file
    below [site_dir], under its path relative to [site_dir]. *)
Definition archive_of (site_dir : string) (f : FS) : gmap string FileContent :=
  map_fold
    (fun file_path content zipf =>
       if startswith (site_dir +:+ "/") file_path
       then <[drop (String.length (site_dir +:+ "/")) file_path := content]> zipf
       else zipf)
    ∅ (files f).

(** [create_zip_archive].  A failure after the archive was opened for
    writing leaves a file at [zip_path] that holds no member. *)
Definition create_zip_archive (generation_id site_dir zip_path : string)
    (d : Disk) : Outcome unit * Disk :=
  match failure_of (disk_fs d) zip_path with
  | Some (OpenFails msg) => (Raise (Exception msg), d)
  | Some (WriteFails msg _) =>
      (Raise (Exception msg),
       {| disk_fs := disk_fs d;
          zip_files := <[zip_path := ∅]> (zip_files d) |})
  | None =>
      (Ret tt,
       {| disk_fs := disk_fs d;
          zip_files :=
            <[zip_path := archive_of site_dir (disk_fs d)]> (zip_files d) |})
  end.

(** The handler of [GET /api/download/{generation_id}]. *)
Definition download_website (generation_id format : string) (d : Disk)
    : Outcome FileResponse * Disk :=
  let site_dir := Main.site_dir_of generation_id in
  if negb (path_exists (disk_fs d) site_dir)
  then (Raise (HTTPException 404 "Сайт не найден"), d)
  else if bool_decide (format = "zip")
  then
    let zip_path := zip_path_of generation_id in
    let created :=
      if negb (bool_decide (is_Some (zip_files d !! zip_path)))
      then create_zip_archive generation_id site_dir zip_path d
      else (Ret tt, d) in
    match created with
    | (Ret _, d') =>
        (Ret {| response_path := zip_path;
                response_filename := "website_" +:+ generation_id +:+ ".zip";
                response_media_type := Some "application/zip" |}, d')
    | (Raise e, d') => (Raise e, d')
    end
  else
    let index_path := site_dir +:+ "/index.html" in
    (Ret {| response_path := index_path;
            response_filename := "index.html";
            response_media_type := None |}, d).

End Download.

(** ** Inputs of the examples for the later properties *)

Module Scenes.
Import Types.

(** A document that needs no normalisation. *)
Definition complete_html : string :=
  "<head><meta name=viewport></head><body><main>Hi</main></body>".


(** The runtime of the worked example. *)
Definition example_runtime : Runtime := Fake.up "1000.25".

(** An endpoint whose reply decodes to [decoded], one whose reply does
    not decode, one whose reply has no choices and one whose first choice
    has no content. *)
Definition answering (decoded : json) : Runtime :=
  Fake.runtime (inr [Some "{}"]) (inr decoded) "1000.25".

Definition undecodable : Runtime :=
  Fake.runtime (inr [Some "Here is your site!"])
    (inl "Expecting value: line 1 column 1 (char 0)") "1000.25".

Definition no_choices : Runtime :=
  Fake.runtime (inr []) (inl "no reply") "1000.25".

Definition no_content : Runtime :=
  Fake.runtime (inr [None]) (inl "no reply") "1000.25".

(** What the generation client returns for the worked example after five
    seconds. *)
Definition bakery_result : GenerationResult :=
  {| res_status := "success";
     res_site_name := "Bakery";
     res_generation_id := "";
     html_content :=
       WebsiteAgent._optimize_html Fake.bakery_html Fake.all_devices;
     css_content := WebsiteAgent._optimize_css "" Fake.all_devices;
     js_content := "";
     seo_meta := [("title", "Bakery")];
     images_used := [];
     generation_time := 5;
     error_message := "" |}.

(** A world whose disk runs full while styles.css is written: the file
    is opened and the write fails.  A world in which the directory of
    no generation can be created. *)
Definition full_disk_world : World :=
  {| redis_client := Some Fake.empty_redis;
     fs := {| dirs := ∅; files := ∅;
              fault :=
                Some (fun path =>
                        if PyStr.contains "styles.css" path
                        then Some (WriteFails
                                     "[Errno 28] No space left on device" "")
                        else None) |};
     llm_calls := []; background_tasks := [] |}.

Definition read_only_world : World :=
  {| redis_client := Some Fake.empty_redis;
     fs := {| dirs := ∅; files := ∅;
              fault :=
                Some (fun _ =>
                        Some (OpenFails "[Errno 30] Read-only file system")) |};
     llm_calls := []; background_tasks := [] |}.

(** The reply of the worked example with a lone surrogate, the decoding
    of the escape [\udc80], behind the image tag of its document, and the
    endpoint that answers it. *)
Definition surrogate : string :=
  String "237"%char (String "178"%char (String "128"%char "")).

Definition surrogate_html : string :=
  "<body><img src=x>" +:+ surrogate +:+ "</body>".

Definition surrogate_reply : json :=
  JDict [("html", JStr surrogate_html); ("css", JStr ""); ("js", JStr "");
         ("seo", JDict [("title", JStr "Bakery")])].

Definition surrogate_up : Runtime := answering surrogate_reply.

(** What the generation client returns for that reply after five
    seconds. *)
Definition surrogate_result : GenerationResult :=
  {| res_status := "success";
     res_site_name := "Bakery";
     res_generation_id := "";
     html_content :=
       WebsiteAgent._optimize_html surrogate_html Fake.all_devices;
     css_content := WebsiteAgent._optimize_css "" Fake.all_devices;
     js_content := "";
     seo_meta := [("title", "Bakery")];
     images_used := [];
     generation_time := 5;
     error_message := "" |}.

Definition no_redis_world : World :=
  {| redis_client := None; fs := Fake.empty_fs;
     llm_calls := []; background_tasks := [] |}.

(** Three uploads, and an image processing that succeeds on the first
    of them only. *)
Definition logo_png : UploadFile :=
  {| content_type := "image/png"; filename := "logo.png";
     file_bytes := "PNG bytes of the logo" |}.

Definition banner_gif : UploadFile :=
  {| content_type := "image/gif"; filename := "banner.gif";
     file_bytes := "GIF89a bytes of the banner" |}.


Definition menu_pdf : UploadFile :=
  {| content_type := "application/pdf"; filename := "menu.pdf";
     file_bytes := "%PDF-1.7 bytes of the menu" |}.

Definition processing (upload_file : UploadFile)
    : string + ImageProcessor.ProcessedInfo :=
  if bool_decide (filename upload_file = "logo.png")
  then inr {| ImageProcessor.info_url := "/uploads/optimized/logo_1a2b3c4d.webp";
              ImageProcessor.info_size := (640, 480)%Z;
              ImageProcessor.info_format := "WEBP";
              ImageProcessor.info_file_size := 20480 |}
  else inl "cannot identify image file".

(** The disk of [Fake.served_world] before any archive was built, and its
    site files after the document was edited. *)
Definition served_disk : Download.Disk :=
  {| Download.disk_fs := fs Fake.served_world; Download.zip_files := ∅ |}.

Definition edited_fs : FS :=
  {| dirs := {[ "generated/sites/0123456789abcdef" ]};
     files := {[ "generated/sites/0123456789abcdef/index.html" :=
                   Text "<html><body>edited</body></html>" ]};
     fault :=
       Some (fun _ => Some (OpenFails "[Errno 30] Read-only file system")) |}.

End Scenes.

(* ================================================================== *)
(** * Properties *)

(** ** Facts about the string primitives *)

Section StringFacts.
Import PyStr Inert.

Lemma append_nil (b : string) : "" +:+ b = b.
Proof. reflexivity. Qed.

Lemma append_cons (x : ascii) (a b : string) :
  String x a +:+ b = String x (a +:+ b).
Proof. reflexivity. Qed.

Lemma append_assoc (a b c : string) : (a +:+ b) +:+ c = a +:+ (b +:+ c).
Proof.
  induction a as [|x a IH]; [reflexivity|].
  rewrite !append_cons. now rewrite IH.
Qed.

Lemma append_empty_r (a : string) : a +:+ "" = a.
Proof.
  induction a as [|x a IH]; [reflexivity|].
  rewrite append_cons. now rewrite IH.
Qed.

Lemma length_append (a b : string) :
  String.length (a +:+ b) = (String.length a + String.length b)%nat.
Proof.
  induction a as [|x a IH]; [reflexivity|].
  rewrite append_cons. simpl. now rewrite IH.
Qed.

Lemma replace_first_eq (old new s : string) :
  replace_first old new s =
    if startswith old s then new +:+ drop (String.length old) s
    else match s with
         | "" => ""
         | String c s' => String c (replace_first old new s')
         end.
Proof. destruct s; reflexivity. Qed.

Lemma startswith_app (p x y : string) :
  startswith p x = true -> startswith p (x +:+ y) = true.
Proof.
  revert x. induction p as [|a p IH]; intros x Hx; [reflexivity|].
  destruct x as [|b x]; [discriminate|].
  rewrite append_cons. simpl in *.
  apply andb_true_iff in Hx as [Hab Hp].
  rewrite Hab. simpl. now apply IH.
Qed.

Lemma startswith_app_inv (p x y : string) :
  startswith p (x +:+ y) = true ->
  (String.length p <= String.length x)%nat ->
  startswith p x = true.
Proof.
  revert x. induction p as [|a p IH]; intros x Hx Hlen; [reflexivity|].
  destruct x as [|b x]; [simpl in Hlen; lia|].
  rewrite append_cons in Hx. simpl in *.
  apply andb_true_iff in Hx as [Hab Hp].
  rewrite Hab. simpl. apply IH; [exact Hp | lia].
Qed.

Lemma startswith_split (p s : string) :
  startswith p s = true -> s = p +:+ drop (String.length p) s.
Proof.
  revert s. induction p as [|a p IH]; intros s Hs; [reflexivity|].
  destruct s as [|b s]; [discriminate|].
  simpl in Hs. apply andb_true_iff in Hs as [Hab Hp].
  apply Ascii.eqb_eq in Hab. subst b.
  rewrite append_cons. simpl. f_equal. now apply IH.
Qed.

Lemma drop_app (n : nat) (x y : string) :
  (n <= String.length x)%nat -> drop n (x +:+ y) = drop n x +:+ y.
Proof.
  revert x. induction n as [|n IH]; intros x Hn; [reflexivity|].
  destruct x as [|c x]; [simpl in Hn; lia|].
  rewrite append_cons. simpl. apply IH. simpl in Hn. lia.
Qed.

(** A clash decides the test whatever follows. *)
Lemma clash_startswith (p s b : string) :
  clash p s = true -> startswith p (s +:+ b) = false.
Proof.
  revert s. induction p as [|x p IH]; intros s Hc; [discriminate|].
  destruct s as [|y s]; [discriminate|].
  rewrite append_cons. simpl in *.
  destruct (Ascii.eqb x y); [|reflexivity].
  simpl in *. now apply IH.
Qed.

(** No occurrence of [old] starts in [a] and runs into [m]. *)
Lemma startswith_cross (old m a b : string) :
  tails_clash old m = true ->
  (String.length a < String.length old)%nat ->
  startswith old (a +:+ m +:+ b) = false.
Proof.
  revert old. induction a as [|c a IH]; intros old Ht Hlen.
  - destruct old as [|x old]; [simpl in Hlen; lia|].
    rewrite append_nil. apply clash_startswith.
    simpl in Ht. now apply andb_true_iff in Ht as [Hc _].
  - destruct old as [|x old]; [simpl in Hlen; lia|].
    rewrite append_cons. simpl.
    rewrite (IH old); [apply andb_false_r| |simpl in Hlen; lia].
    simpl in Ht. now apply andb_true_iff in Ht as [_ Ht'].
Qed.

Lemma replace_first_inert (old new m b : string) :
  clash_everywhere old m = true ->
  replace_first old new (m +:+ b) = m +:+ replace_first old new b.
Proof.
  induction m as [|c m IH]; intros Hm; [reflexivity|].
  simpl in Hm. apply andb_true_iff in Hm as [Hc Hm].
  rewrite replace_first_eq, (clash_startswith _ _ b Hc).
  rewrite !append_cons. f_equal. now apply IH.
Qed.

Lemma replace_from_inert (old new m b : string) :
  clash_everywhere old m = true ->
  replace_from old new 0 (m +:+ b) = m +:+ replace_from old new 0 b.
Proof.
  induction m as [|c m IH]; intros Hm; [reflexivity|].
  simpl in Hm. apply andb_true_iff in Hm as [Hc Hm].
  rewrite !append_cons.
  change (replace_from old new 0 (String c (m +:+ b)))
    with (if startswith old (String c (m +:+ b))
          then new +:+ replace_from old new (String.length old - 1) (m +:+ b)
          else String c (replace_from old new 0 (m +:+ b))).
  rewrite <- append_cons, (clash_startswith _ _ b Hc).
  f_equal. now apply IH.
Qed.

(** [s.replace(old, new, 1)] keeps an inert text in place. *)
Lemma replace_first_keeps (old new m a b : string) :
  inert old m = true ->
  exists a' b', replace_first old new (a +:+ m +:+ b) = a' +:+ m +:+ b'.
Proof.
  intros Hin. apply andb_true_iff in Hin as [Ht He].
  induction a as [|c a IH].
  - exists "", (replace_first old new b).
    rewrite !append_nil. now apply replace_first_inert.
  - rewrite replace_first_eq.
    destruct (startswith old (String c a +:+ m +:+ b)) eqn:Hs.
    + assert (Hlen : (String.length old <= String.length (String c a))%nat).
      { destruct (le_lt_dec (String.length old) (String.length (String c a)))
          as [Hle|Hlt]; [exact Hle|].
        rewrite (startswith_cross old m _ b Ht Hlt) in Hs. discriminate. }
      exists (new +:+ drop (String.length old) (String c a)), b.
      rewrite (drop_app _ _ _ Hlen). now rewrite append_assoc.
    + destruct IH as (a' & b' & IH).
      exists (String c a'), b'.
      rewrite !append_cons. now rewrite IH.
Qed.

(** [s.replace(old, new)] keeps an inert text in place. *)
Lemma replace_from_keeps (old new m b a : string) (k : nat) :
  inert old m = true ->
  (k <= String.length a)%nat ->
  replace_from old new k (a +:+ m +:+ b) =
    replace_from old new k a +:+ m +:+ replace_from old new 0 b.
Proof.
  intros Hin. apply andb_true_iff in Hin as [Ht He].
  revert k. induction a as [|c a IH]; intros k Hk.
  - simpl in Hk. assert (k = 0%nat) as -> by lia.
    rewrite !append_nil. now apply replace_from_inert.
  - rewrite append_cons. destruct k as [|k].
    + change (replace_from old new 0 (String c (a +:+ m +:+ b)))
        with (if startswith old (String c (a +:+ m +:+ b))
              then new +:+ replace_from old new (String.length old - 1)
                             (a +:+ m +:+ b)
              else String c (replace_from old new 0 (a +:+ m +:+ b))).
      change (replace_from old new 0 (String c a))
        with (if startswith old (String c a)
              then new +:+ replace_from old new (String.length old - 1) a
              else String c (replace_from old new 0 a)).
      rewrite <- append_cons.
      destruct (startswith old (String c a +:+ m +:+ b)) eqn:Hs.
      * assert (Hlen : (String.length old <= String.length (String c a))%nat).
        { destruct (le_lt_dec (String.length old) (String.length (String c a)))
            as [Hle|Hlt]; [exact Hle|].
          rewrite (startswith_cross old m _ b Ht Hlt) in Hs. discriminate. }
        rewrite (startswith_app_inv _ _ _ Hs Hlen).
        rewrite IH; [now rewrite append_assoc | simpl in Hlen; lia].
      * destruct (startswith old (String c a)) eqn:Hs'.
        { rewrite (startswith_app _ _ (m +:+ b) Hs') in Hs. discriminate. }
        rewrite append_cons. f_equal. apply IH. lia.
    + simpl. apply IH. simpl in Hk. lia.
Qed.

(** The leftmost occurrence is the one replaced. *)
Lemma replace_first_split (p r s : string) :
  contains p s = true ->
  exists a b, s = a +:+ p +:+ b /\ replace_first p r s = a +:+ r +:+ b.
Proof.
  induction s as [|c s IH]; intros Hc.
  - simpl in Hc. rewrite orb_false_r in Hc.
    exists "", "". destruct p; [|discriminate]. now rewrite replace_first_eq.
  - rewrite replace_first_eq.
    destruct (startswith p (String c s)) eqn:Hs.
    + exists "", (drop (String.length p) (String c s)).
      rewrite !append_nil. split; [now apply startswith_split | reflexivity].
    + simpl in Hc. simpl in Hs. rewrite Hs in Hc. simpl in Hc.
      destruct (IH Hc) as (a & b & -> & Hr).
      exists (String c a), b. rewrite !append_cons.
      split; [reflexivity | now rewrite Hr].
Qed.

Lemma lower_app (a b : string) : lower (a +:+ b) = lower a +:+ lower b.
Proof.
  induction a as [|c a IH]; [reflexivity|].
  rewrite append_cons. simpl. rewrite append_cons. now rewrite IH.
Qed.

Lemma contains_app_l (p s b : string) :
  contains p s = true -> contains p (s +:+ b) = true.
Proof.
  induction s as [|c s IH]; intros Hc.
  - simpl in Hc. rewrite orb_false_r in Hc.
    destruct p; [|discriminate]. destruct b; reflexivity.
  - simpl in Hc. apply orb_true_iff in Hc as [Hs|Hc].
    + rewrite append_cons.
      change (startswith p (String c (s +:+ b)) || contains p (s +:+ b) = true).
      rewrite <- append_cons, (startswith_app _ _ b Hs). reflexivity.
    + rewrite append_cons.
      change (startswith p (String c (s +:+ b)) || contains p (s +:+ b) = true).
      rewrite (IH Hc). apply orb_true_r.
Qed.

Lemma contains_app_r (p a s : string) :
  contains p s = true -> contains p (a +:+ s) = true.
Proof.
  intros Hc. induction a as [|c a IH]; [exact Hc|].
  rewrite append_cons.
  change (startswith p (String c (a +:+ s)) || contains p (a +:+ s) = true).
  rewrite IH. apply orb_true_r.
Qed.

End StringFacts.

(** ** The content normaliser *)

Section NormalizerFacts.
Import PyStr Inert WebsiteAgent.



Lemma closing_head_inert :
  inert "<img" closing_head = true
  /\ inert "<body>" closing_head = true
  /\ inert "</body>" closing_head = true.
Proof. repeat split; vm_compute; reflexivity. Qed.

Lemma optimize_html_keeps_inserted_tag (h : string) (devs : list string) :
  contains "viewport" (lower h) = false ->
  contains "</head>" h = true ->
  exists a b, _optimize_html h devs = a +:+ closing_head +:+ b.
Proof.
  intros Hv Hh. unfold _optimize_html. rewrite Hv. simpl negb. cbv iota.
  fold closing_head.
  destruct closing_head_inert as (Himg & Hbody & Hbody').
  destruct (replace_first_split "</head>" closing_head h Hh)
    as (a & b & _ & ->).
  unfold replace.
  rewrite (replace_from_keeps _ _ _ _ _ 0 Himg); [|lia].
  set (a1 := replace_from "<img" lazy_img 0 a).
  set (b1 := replace_from "<img" lazy_img 0 b).
  destruct (negb (contains "<main>" (a1 +:+ closing_head +:+ b1))).
  - destruct (replace_first_keeps "<body>" ("<body>" +:+ nl +:+ "    <main>")
                closing_head a1 b1 Hbody) as (a2 & b2 & ->).
    destruct (replace_first_keeps "</body>" ("    </main>" +:+ nl +:+ "</body>")
                closing_head a2 b2 Hbody') as (a3 & b3 & ->).
    now exists a3, b3.
  - now exists a1, b1.
Qed.

(** Once the first pass has put the viewport tag in, the test of the
    second pass finds it and puts no other one in. *)
Lemma optimize_html_viewport_found_after_insertion (h : string)
    (devs : list string) :
  contains "viewport" (lower h) = false ->
  contains "</head>" h = true ->
  contains "viewport" (lower (_optimize_html h devs)) = true.
Proof.
  intros Hv Hh.
  destruct (optimize_html_keeps_inserted_tag h devs Hv Hh) as (a & b & ->).
  rewrite !lower_app. apply contains_app_r, contains_app_l.
  vm_compute. reflexivity.
Qed.

End NormalizerFacts.

Section NormalizerClaims.
Import PyStr Inert WebsiteAgent Fake.

(** C3.  A second pass of [_optimize_html] over its own output is not the
    identity.  On the document [<body><img src=x></body>] the first pass
    yields one lazy-load attribute on the image tag and the second pass
    yields two.  On a document whose opening body tag has an attribute the
    first pass puts one closing main tag in front of the closing body tag
    and the second pass puts another. *)
Theorem C3_second_pass_repeats_lazy_attribute :
  _optimize_html bakery_html all_devices =
    "<body>" +:+ nl +:+ "    <main><img loading=" +:+ dq +:+ "lazy" +:+ dq
      +:+ " src=x>    </main>" +:+ nl +:+ "</body>"
  /\ _optimize_html (_optimize_html bakery_html all_devices) all_devices =
    "<body>" +:+ nl +:+ "    <main><img loading=" +:+ dq +:+ "lazy" +:+ dq
      +:+ " loading=" +:+ dq +:+ "lazy" +:+ dq
      +:+ " src=x>    </main>" +:+ nl +:+ "</body>"
  /\ _optimize_html (_optimize_html bakery_html all_devices) all_devices
     <> _optimize_html bakery_html all_devices
  /\ _optimize_html "<body class=x>Hi</body>" all_devices =
    "<body class=x>Hi    </main>" +:+ nl +:+ "</body>"
  /\ _optimize_html (_optimize_html "<body class=x>Hi</body>" all_devices)
       all_devices =
    "<body class=x>Hi    </main>" +:+ nl +:+ "    </main>" +:+ nl +:+ "</body>".
Proof.
  split; [vm_compute; reflexivity|].
  split; [vm_compute; reflexivity|].
  split; [vm_compute; discriminate|].
  split; vm_compute; reflexivity.
Qed.

(** C4, counterexample.  On the empty stylesheet two passes of
    [_optimize_css] do not give what one pass gives. *)
Lemma C4_css_twice_differs_on_empty :
  _optimize_css (_optimize_css "" all_devices) all_devices
  <> _optimize_css "" all_devices.
Proof.
  intros Heq. apply (f_equal String.length) in Heq.
  vm_compute in Heq. discriminate.
Qed.

(** C4, as amended.  [_optimize_css] puts the base stylesheet and a line
    break in front of its argument whatever the argument is; a second
    pass therefore puts a second copy of the base stylesheet in front,
    and its output never equals that of the first pass. *)
Theorem C4_css_prepends_unconditionally (css : string) (d1 d2 : list string) :
  _optimize_css css d1 = base_css +:+ nl +:+ css
  /\ _optimize_css (_optimize_css css d1) d2 =
       base_css +:+ nl +:+ base_css +:+ nl +:+ css
  /\ _optimize_css (_optimize_css css d1) d2 <> _optimize_css css d1.
Proof.
  unfold _optimize_css. repeat split.
  intros Heq. apply (f_equal String.length) in Heq.
  rewrite !length_append in Heq.
  assert (String.length nl = 1%nat) as Hnl by reflexivity.
  rewrite Hnl in Heq. lia.
Qed.

End NormalizerClaims.

(** ** The effect monad *)

Section MonadFacts.
Import Types Observations.

Lemma bind_unfold {A B : Type} (m : M A) (f : A -> M B) (w : World) :
  (m ≫= f) w =
    match m w with
    | (Ret a, w') => f a w'
    | (Raise e, w') => (Raise e, w')
    end.
Proof. reflexivity. Qed.

Lemma silent_ret {A : Type} (a : A) : silent (mret a : M A).
Proof. intros w. reflexivity. Qed.

Lemma silent_raise {A : Type} (e : Exn) : silent (raise e : M A).
Proof. intros w. reflexivity. Qed.

Lemma silent_bind {A B : Type} (m : M A) (f : A -> M B) :
  silent m -> (forall a, silent (f a)) -> silent (m ≫= f).
Proof.
  intros Hm Hf w. rewrite bind_unfold. specialize (Hm w).
  destruct (m w) as [[a|e] w']; simpl in Hm; subst w'; [apply Hf | reflexivity].
Qed.

Lemma ensures_bind {A B : Type} (P : B -> Prop) (m : M A) (f : A -> M B) :
  (forall a, ensures P (f a)) -> ensures P (m ≫= f).
Proof.
  intros Hf w b w'. rewrite bind_unfold.
  destruct (m w) as [[a|e] w1]; [apply Hf | discriminate].
Qed.

Lemma ensures_raise {A : Type} (P : A -> Prop) (e : Exn) : ensures P (raise e).
Proof. intros w a w'. discriminate. Qed.

End MonadFacts.

(** ** The generation client *)

Section AgentFacts.
Import PyStr Types Observations WebsiteAgent.
Context `{Runtime}.

Lemma silent_first_choice_content (choices : list (option string)) :
  silent (first_choice_content choices).
Proof. destruct choices; [apply silent_raise | apply silent_ret]. Qed.

Lemma silent_parse_response (content : option string) :
  silent (_parse_response content).
Proof.
  destruct content as [content|]; [|apply silent_raise].
  unfold _parse_response. destruct (json_loads (str_strip content));
    [apply silent_raise | apply silent_ret].
Qed.

Lemma silent_py_get (d : json) (key : string) (default : json) :
  silent (py_get d key default).
Proof. destruct d; first [apply silent_ret | apply silent_raise]. Qed.

Lemma silent_call_optimize_html (v : json) (devs : list string) :
  silent (call_optimize_html v devs).
Proof. destruct v; first [apply silent_ret | apply silent_raise]. Qed.

Lemma silent_call_optimize_css (v : json) (devs : list string) :
  silent (call_optimize_css v devs).
Proof. destruct v; first [apply silent_ret | apply silent_raise]. Qed.

Lemma silent_success_result (site_name html css : string) (js seo : json)
    (images : list json) (t : Z) :
  silent (success_result site_name html css js seo images t).
Proof.
  unfold success_result.
  destruct (pydantic_str js), (pydantic_dict_str_str seo), (all_str images);
    first [apply silent_ret | apply silent_raise].
Qed.

Lemma success_result_status (site_name html css : string) (js seo : json)
    (images : list json) (t : Z) :
  ensures (fun r => res_status r = "success")
    (success_result site_name html css js seo images t).
Proof.
  unfold success_result.
  destruct (pydantic_str js), (pydantic_dict_str_str seo), (all_str images);
    try apply ensures_raise.
  intros w a w' Heq. injection Heq as <- _. reflexivity.
Qed.

(** The call of the endpoint is the only effect of the [try] block. *)
Lemma generate_website_try_world (request : GenerationRequest) (t0 t1 : Z)
    (w : World) :
  (generate_website_try request t0 t1 w).2 =
    log_call w base_prompt (_build_generation_prompt request).
Proof.
  unfold generate_website_try. cbv zeta. rewrite bind_unfold.
  unfold create_completion at 1.
  destruct (chat_completions_create _ _) as [msg|choices]; [reflexivity|].
  apply silent_bind; [apply silent_first_choice_content | intros content].
  apply silent_bind; [apply silent_parse_response | intros result_data].
  apply silent_bind; [apply silent_py_get | intros html].
  apply silent_bind; [apply silent_call_optimize_html | intros optimized_html].
  apply silent_bind; [apply silent_py_get | intros css].
  apply silent_bind; [apply silent_call_optimize_css | intros optimized_css].
  apply silent_bind; [apply silent_py_get | intros js].
  apply silent_bind; [apply silent_py_get | intros seo].
  apply silent_success_result.
Qed.

Lemma generate_website_try_status (request : GenerationRequest) (t0 t1 : Z) :
  ensures (fun r => res_status r = "success")
    (generate_website_try request t0 t1).
Proof.
  unfold generate_website_try. cbv zeta.
  do 9 (apply ensures_bind; intros ?).
  apply success_result_status.
Qed.

(** A failure of the endpoint comes back as an error result. *)
Lemma generate_website_endpoint_failure (request : GenerationRequest)
    (t0 t1 : Z) (w : World) (msg : string) :
  chat_completions_create base_prompt (_build_generation_prompt request)
    = inl msg ->
  generate_website request t0 t1 w =
    (Ret (error_result msg (t1 - t0)),
     log_call w base_prompt (_build_generation_prompt request)).
Proof.
  intros Hllm. unfold generate_website, try_except, generate_website_try.
  cbv zeta. rewrite bind_unfold. unfold create_completion at 1.
  rewrite Hllm. reflexivity.
Qed.

(** X23.  A reply that does not decode comes back as an error result:
    [generate_website] returns normally, the message of the result is the
    message of the decoder behind the prefix that [_parse_response] puts
    before it, the payloads are empty and the elapsed time is set. *)
Lemma generate_website_decode_failure (request : GenerationRequest)
    (t0 t1 : Z) (w : World) (content : string) (rest : list (option string))
    (e : string) :
  chat_completions_create base_prompt (_build_generation_prompt request)
    = inr (Some content :: rest) ->
  json_loads (str_strip content) = inl e ->
  generate_website request t0 t1 w =
    (Ret (error_result ("Ошибка парсинга JSON ответа: " +:+ e) (t1 - t0)),
     log_call w base_prompt (_build_generation_prompt request)).
Proof.
  intros Hllm Hjson. unfold generate_website, try_except, generate_website_try.
  cbv zeta. rewrite bind_unfold. unfold create_completion at 1.
  rewrite Hllm. rewrite bind_unfold. unfold first_choice_content, mret, M_ret.
  rewrite bind_unfold. unfold _parse_response. rewrite Hjson. reflexivity.
Qed.

(** The client returns, and its only effect is the call of the endpoint. *)
Lemma generate_website_returns (request : GenerationRequest)
    (t0 t1 : Z) (w : World) :
  exists r,
    generate_website request t0 t1 w =
      (Ret r, log_call w base_prompt (_build_generation_prompt request)).
Proof.
  pose proof (generate_website_try_world request t0 t1 w) as Hw.
  unfold generate_website, try_except.
  destruct (generate_website_try request t0 t1 w) as [[r|e] w']; simpl in Hw;
    subst w'; eauto.
Qed.

(** C10.  [generate_website] of the generation client returns a result
    on every request, in every world and for every behaviour of the
    endpoint, the decoder and the validators; it never raises.  When the
    [try] block returns, that result is returned and its status is
    success; when the [try] block raises [e], the result has the status
    error, the message of [e] as its error message and the elapsed time
    as its generation time. *)
Theorem C10_generate_website_never_raises (request : GenerationRequest)
    (t0 t1 : Z) (w : World) :
  exists r,
    generate_website request t0 t1 w =
      (Ret r, log_call w base_prompt (_build_generation_prompt request))
    /\ (res_status r = "success" \/ res_status r = "error")
    /\ match (generate_website_try request t0 t1 w).1 with
       | Ret r' => r = r' /\ res_status r = "success"
       | Raise e =>
           res_status r = "error"
           /\ error_message r = exn_str e
           /\ generation_time r = (t1 - t0)%Z
       end.
Proof.
  pose proof (generate_website_try_world request t0 t1 w) as Hw.
  pose proof (generate_website_try_status request t0 t1 w) as Hs.
  unfold generate_website, try_except.
  destruct (generate_website_try request t0 t1 w) as [[r|e] w']; simpl in Hw;
    subst w'.
  - exists r. specialize (Hs r _ eq_refl). simpl in Hs. simpl. auto.
  - exists (error_result (exn_str e) (t1 - t0)). simpl. auto.
Qed.

End AgentFacts.

(** ** The orchestrator *)


Section FileFacts.
Import PyStr Types Files Observations.
Context `{Runtime}.

Lemma failure_of_healthy (f : FS) (path : string) :
  fault f = None -> failure_of f path = None.
Proof. intros Hf. unfold failure_of. now rewrite Hf. Qed.

Lemma set_fs_same (v : World) : set_fs v (fs v) = v.
Proof. now destruct v. Qed.

Lemma differs_within_refl (fa da : string -> bool) (w : World) :
  differs_within fa da w w.
Proof. unfold differs_within. repeat split; auto. Qed.

Lemma differs_within_trans (fa da : string -> bool) (w1 w2 w3 : World) :
  differs_within fa da w1 w2 -> differs_within fa da w2 w3 ->
  differs_within fa da w1 w3.
Proof.
  intros (Hr & Hl & Hb & Hf & Hfiles & Hup & Hdown)
         (Hr' & Hl' & Hb' & Hf' & Hfiles' & Hup' & Hdown').
  unfold differs_within. repeat split; try congruence.
  - intros p Hp. now rewrite Hfiles', Hfiles.
  - auto.
  - auto.
Qed.

Lemma differs_within_put_file (fa da : string -> bool) (path : string)
    (content : FileContent) (w : World) :
  fa path = true -> differs_within fa da w (put_file path content w).
Proof.
  intros Hpath. unfold differs_within, put_file. simpl.
  repeat split; auto.
  intros p Hp. apply lookup_insert_ne. congruence.
Qed.

Lemma confined_ret {A : Type} (fa da : string -> bool) (a : A) :
  confined fa da (mret a : M A).
Proof. intros w. apply differs_within_refl. Qed.

Lemma confined_raise {A : Type} (fa da : string -> bool) (e : Exn) :
  confined fa da (raise e : M A).
Proof. intros w. apply differs_within_refl. Qed.

Lemma confined_get_world (fa da : string -> bool) : confined fa da get_world.
Proof. intros w. apply differs_within_refl. Qed.

Lemma confined_bind {A B : Type} (fa da : string -> bool) (m : M A)
    (f : A -> M B) :
  confined fa da m -> (forall a, confined fa da (f a)) ->
  confined fa da (m ≫= f).
Proof.
  intros Hm Hf w. rewrite bind_unfold. specialize (Hm w).
  destruct (m w) as [[a|e] w1]; simpl in *; [|exact Hm].
  eapply differs_within_trans; [exact Hm | apply Hf].
Qed.

Lemma confined_bind_ensures {A B : Type} (fa da : string -> bool)
    (P : A -> Prop) (m : M A) (f : A -> M B) :
  confined fa da m -> ensures P m -> (forall a, P a -> confined fa da (f a)) ->
  confined fa da (m ≫= f).
Proof.
  intros Hm HP Hf w. rewrite bind_unfold. specialize (Hm w).
  destruct (m w) as [[a|e] w1] eqn:Hmw; simpl in *; [|exact Hm].
  eapply differs_within_trans; [exact Hm | apply Hf, (HP w a w1 Hmw)].
Qed.

Lemma confined_try_except {A : Type} (fa da : string -> bool) (m : M A)
    (handler : Exn -> M A) :
  confined fa da m -> (forall e, confined fa da (handler e)) ->
  confined fa da (try_except m handler).
Proof.
  intros Hm Hh w. unfold try_except. specialize (Hm w).
  destruct (m w) as [[a|e] w1]; simpl in *; [exact Hm|].
  eapply differs_within_trans; [exact Hm | apply Hh].
Qed.

Lemma confined_mkdir (fa da : string -> bool) (path : string) :
  da path = true -> confined fa da (mkdir path).
Proof.
  intros Hpath w. unfold mkdir.
  destruct (failure_of (fs w) path); [apply differs_within_refl|].
  unfold differs_within. simpl. repeat split; auto.
  - intros p Hp. apply elem_of_union_r. exact Hp.
  - intros p Hp Hin. apply elem_of_union in Hin as [Hin|Hin]; [|exact Hin].
    apply elem_of_singleton in Hin. congruence.
Qed.

Lemma confined_write_bytes (fa da : string -> bool) (path data : string) :
  fa path = true -> confined fa da (write_bytes path data).
Proof.
  intros Hpath w. unfold write_bytes.
  destruct (failure_of (fs w) path) as [[msg|msg written]|];
    first [apply differs_within_refl | now apply differs_within_put_file].
Qed.

Lemma confined_write_text (fa da : string -> bool) (path : string)
    (content : FileContent) :
  fa path = true -> confined fa da (write_text path content).
Proof.
  intros Hpath w. unfold write_text.
  destruct (failure_of (fs w) path) as [[msg|msg written]|],
    (negb (encodable content));
    first [apply differs_within_refl | now apply differs_within_put_file].
Qed.

Lemma confined_unlink (fa da : string -> bool) (path : string) :
  fa path = true -> confined fa da (unlink path).
Proof.
  intros Hpath w. unfold unlink.
  destruct (files (fs w) !! path); [|apply differs_within_refl].
  unfold differs_within. simpl. repeat split; auto.
  intros p Hp. apply lookup_delete_ne. congruence.
Qed.

Lemma fs_local_ret {A : Type} (a : A) : fs_local (mret a : M A).
Proof.
  intros w. exists (Ret a), (fs w). intros v Hv.
  rewrite <- Hv, set_fs_same. reflexivity.
Qed.

Lemma fs_local_bind {A B : Type} (m : M A) (f : A -> M B) :
  fs_local m -> (forall a, fs_local (f a)) -> fs_local (m ≫= f).
Proof.
  intros Hm Hf w. destruct (Hm w) as ([a|e] & f1 & H1).
  - destruct (Hf a (set_fs w f1)) as (o2 & f2 & H2).
    exists o2, f2. intros v Hv. rewrite bind_unfold, (H1 v Hv).
    now rewrite (H2 (set_fs v f1)) by reflexivity.
  - exists (Raise e), f1. intros v Hv. now rewrite bind_unfold, (H1 v Hv).
Qed.

Lemma fs_local_mkdir (path : string) : fs_local (mkdir path).
Proof.
  intros w. unfold mkdir.
  destruct (failure_of (fs w) path) as [failure|] eqn:Hfail.
  - exists (Raise (Exception (failure_msg failure))), (fs w). intros v Hv.
    rewrite Hv, Hfail, <- Hv, set_fs_same. reflexivity.
  - eexists (Ret tt), _. intros v Hv. rewrite Hv, Hfail. reflexivity.
Qed.

Lemma fs_local_write_text (path : string) (content : FileContent) :
  fs_local (write_text path content).
Proof.
  intros w. unfold write_text, put_file.
  destruct (failure_of (fs w) path) as [[msg|msg written]|] eqn:Hfail.
  - exists (Raise (Exception msg)), (fs w). intros v Hv.
    rewrite Hv, Hfail, <- Hv, set_fs_same. reflexivity.
  - destruct (negb (encodable content)); eexists _, _; intros v Hv;
      rewrite Hv, Hfail; reflexivity.
  - destruct (negb (encodable content)); eexists _, _; intros v Hv;
      rewrite Hv, Hfail; reflexivity.
Qed.

Lemma fs_local_when (b : bool) (m : M unit) :
  fs_local m -> fs_local (if b then m else mret tt).
Proof. intros Hm. destruct b; [exact Hm | apply fs_local_ret]. Qed.

Lemma plain_ret {A : Type} (a : A) : plain (mret a : M A).
Proof. intros w e w' Heq. discriminate. Qed.

Lemma plain_raise {A : Type} (msg : string) : plain (raise (Exception msg) : M A).
Proof. intros w e w' Heq. injection Heq as <- _. eauto. Qed.

Lemma plain_bind {A B : Type} (m : M A) (f : A -> M B) :
  plain m -> (forall a, plain (f a)) -> plain (m ≫= f).
Proof.
  intros Hm Hf w e w'. rewrite bind_unfold.
  destruct (m w) as [[a|e1] w1] eqn:Hmw.
  - apply Hf.
  - intros Heq. injection Heq as <- _. exact (Hm w e1 w1 Hmw).
Qed.

Lemma plain_mkdir (path : string) : plain (mkdir path).
Proof.
  intros w e w'. unfold mkdir.
  destruct (failure_of (fs w) path); intros Heq; [|discriminate].
  injection Heq as <- _. eauto.
Qed.

Lemma plain_write_bytes (path data : string) : plain (write_bytes path data).
Proof.
  intros w e w'. unfold write_bytes.
  destruct (failure_of (fs w) path) as [[msg|msg written]|]; intros Heq;
    [| |discriminate]; injection Heq as <- _; eauto.
Qed.

Lemma plain_unlink (path : string) : plain (unlink path).
Proof.
  intros w e w'. unfold unlink.
  destruct (files (fs w) !! path); intros Heq; [discriminate|].
  injection Heq as <- _. eauto.
Qed.

Lemma upload_path_tmp (name : string) : upload_path ("/tmp/" +:+ name) = true.
Proof.
  unfold upload_path.
  now rewrite (startswith_app "/tmp/" "/tmp/" name) by reflexivity.
Qed.

Lemma upload_path_uploads (rest : string) :
  upload_path ("static/uploads" +:+ rest) = true.
Proof.
  unfold upload_path.
  rewrite (startswith_app "static/uploads" "static/uploads" rest)
    by reflexivity.
  apply orb_true_r.
Qed.




End FileFacts.

(** ** The image processor in the world *)

Section ProcessorFacts.
Import PyStr Types Files Observations ImageProcessor.
Context `{Runtime}.

Lemma confined_get_optimized_path (original_name : string) :
  confined upload_path upload_path (_get_optimized_path original_name).
Proof.
  unfold _get_optimized_path. cbv zeta.
  apply confined_bind; [now apply confined_mkdir | intros _].
  apply confined_ret.
Qed.

Lemma optimized_path_is_upload_path (original_name : string) :
  ensures (fun p => upload_path p = true) (_get_optimized_path original_name).
Proof.
  intros w p w'. unfold _get_optimized_path. cbv zeta. rewrite bind_unfold.
  destruct (mkdir "static/uploads" w) as [[[]|e] w1]; [|discriminate].
  intros Heq. injection Heq as <- _. apply upload_path_uploads.
Qed.

Lemma confined_process_image (image_path original_name : string) :
  confined upload_path upload_path (_process_image image_path original_name).
Proof.
  unfold _process_image.
  apply confined_bind; [apply confined_get_world | intros w].
  destruct (files (fs w) !! image_path) as [content|]; [|apply confined_raise].
  destruct (pil_optimize content) as [msg|[jpeg size]]; [apply confined_raise|].
  apply (confined_bind_ensures _ _ (fun p => upload_path p = true));
    [apply confined_get_optimized_path
    |apply optimized_path_is_upload_path
    |intros optimized_path Hpath].
  apply confined_bind; [now apply confined_write_bytes | intros _].
  apply confined_ret.
Qed.

Lemma confined_process_upload_body (upload_file : UploadFile) :
  confined upload_path upload_path (process_upload_body upload_file).
Proof.
  unfold process_upload_body. cbv zeta.
  apply confined_bind;
    [apply confined_write_bytes, upload_path_tmp | intros _].
  apply confined_bind; [apply confined_process_image | intros info].
  apply confined_bind; [apply confined_unlink, upload_path_tmp | intros _].
  apply confined_ret.
Qed.

(** The image processor changes nothing outside /tmp and static/uploads. *)
Lemma confined_process_upload_io (upload_file : UploadFile) :
  confined upload_path upload_path (process_upload_io upload_file).
Proof.
  unfold process_upload_io. apply confined_try_except.
  - destruct (negb _); [apply confined_raise|].
    apply confined_bind; [apply confined_process_upload_body | intros info].
    apply confined_ret.
  - intros [code detail|msg]; [apply confined_raise | apply confined_ret].
Qed.

Lemma plain_process_image (image_path original_name : string) :
  plain (_process_image image_path original_name).
Proof.
  unfold _process_image.
  apply plain_bind; [intros w e w' Heq; discriminate | intros w].
  destruct (files (fs w) !! image_path) as [content|]; [|apply plain_raise].
  destruct (pil_optimize content) as [msg|[jpeg size]]; [apply plain_raise|].
  apply plain_bind.
  { unfold _get_optimized_path. cbv zeta.
    apply plain_bind; [apply plain_mkdir | intros _; apply plain_ret]. }
  intros optimized_path.
  apply plain_bind; [apply plain_write_bytes | intros _; apply plain_ret].
Qed.

Lemma plain_process_upload_body (upload_file : UploadFile) :
  plain (process_upload_body upload_file).
Proof.
  unfold process_upload_body. cbv zeta.
  apply plain_bind; [apply plain_write_bytes | intros _].
  apply plain_bind; [apply plain_process_image | intros info].
  apply plain_bind; [apply plain_unlink | intros _; apply plain_ret].
Qed.

(** [process_upload_io] returns what [process_upload] returns for what
    the body of the [try] block does in the world. *)
Lemma process_upload_io_outcome (upload_file : UploadFile) (w : World) :
  (process_upload_io upload_file w).1 =
    process_upload
      (fun f => match (process_upload_body f w).1 with
                | Ret info => inr info
                | Raise e => inl (exn_str e)
                end)
      upload_file.
Proof.
  unfold process_upload_io, process_upload, try_except.
  destruct (negb (startswith "image/" (content_type upload_file)));
    [reflexivity|].
  rewrite bind_unfold.
  pose proof (plain_process_upload_body upload_file w) as Hplain.
  destruct (process_upload_body upload_file w) as [[info|e] w1];
    [reflexivity|].
  destruct (Hplain e w1 eq_refl) as [msg ->]. reflexivity.
Qed.

Lemma accepted_is_image (image : UploadFile) :
  bool_decide (content_type image ∈ ["image/jpeg"; "image/png"; "image/webp"])
    = true ->
  startswith "image/" (content_type image) = true.
Proof.
  intros Hacc. apply bool_decide_eq_true_1 in Hacc.
  repeat (apply elem_of_cons in Hacc as [->|Hacc]; [reflexivity|]).
  now apply elem_of_nil in Hacc.
Qed.

Lemma process_upload_io_returns (upload_file : UploadFile) (w : World) :
  startswith "image/" (content_type upload_file) = true ->
  exists descriptor, (process_upload_io upload_file w).1 = Ret descriptor.
Proof.
  intros Himage. rewrite process_upload_io_outcome.
  unfold process_upload. rewrite Himage. simpl.
  destruct (process_upload_body upload_file w).1; eauto.
Qed.

End ProcessorFacts.

(** ** The orchestrator *)

Section OrchestratorFacts.
Import PyStr Types Files Observations Main.
Context `{Runtime}.

Lemma update_generation_status_run (now : Z) (gid st : string) (p : Z)
    (msg : string) (url err : option string) (w : World) :
  update_generation_status now gid st p msg url err w =
    (Ret tt,
     with_status w now
       {| generation_id := gid; status := st; progress := p; message := msg;
          result_url := url; error := err |}).
Proof.
  unfold update_generation_status, with_status. cbv zeta.
  rewrite bind_unfold. unfold get_world.
  destruct (redis_client w); reflexivity.
Qed.

Lemma redis_get_setex (r : Redis) (now : Z) (key : string) (ttl : Z)
    (v : RedisValue) :
  (0 < ttl)%Z -> redis_get (redis_setex r now key ttl v) now key = Some v.
Proof.
  intros Httl. unfold redis_get, redis_setex. simpl.
  rewrite lookup_insert_eq.
  destruct (Z.ltb_spec now (now + ttl)); [reflexivity | lia].
Qed.

Lemma mkdir_run (path : string) (w : World) :
  fault (fs w) = None ->
  mkdir path w =
    (Ret tt, set_fs w {| dirs := {[path]} ∪ dirs (fs w);
                         files := files (fs w);
                         fault := None |}).
Proof.
  intros Hf. unfold mkdir. rewrite (failure_of_healthy _ _ Hf).
  now rewrite Hf.
Qed.

Lemma write_text_run (path : string) (content : FileContent) (w : World) :
  fault (fs w) = None ->
  encodable content = true ->
  write_text path content w =
    (Ret tt, set_fs w {| dirs := dirs (fs w);
                         files := <[path := content]> (files (fs w));
                         fault := None |}).
Proof.
  intros Hf Henc. unfold write_text, put_file.
  rewrite (failure_of_healthy _ _ Hf), Henc, Hf. reflexivity.
Qed.

(** A content that cannot be encoded leaves an empty file behind. *)
Lemma write_text_unencodable (path : string) (content : FileContent)
    (w : World) :
  fault (fs w) = None ->
  encodable content = false ->
  write_text path content w =
    (Raise (Exception (unicode_encode_error content)),
     set_fs w {| dirs := dirs (fs w);
                 files := <[path := Text ""]> (files (fs w));
                 fault := None |}).
Proof.
  intros Hf Henc. unfold write_text, put_file.
  rewrite (failure_of_healthy _ _ Hf), Henc, Hf. reflexivity.
Qed.

Lemma write_text_if_run (b : bool) (path : string) (content : FileContent)
    (w : World) :
  fault (fs w) = None ->
  encodable content = true ->
  (if b then write_text path content else mret tt) w =
    (Ret tt, set_fs w {| dirs := dirs (fs w);
                         files := if b then <[path := content]> (files (fs w))
                                  else files (fs w);
                         fault := None |}).
Proof.
  intros Hf Henc. destruct b; [now apply write_text_run|].
  unfold mret, M_ret, set_fs. destruct w as [rc [d f fl] lc bt]; simpl in *.
  now subst fl.
Qed.

Lemma site_path_ne (dir a b : string) : a <> b -> dir +:+ a <> dir +:+ b.
Proof. intros Hne Heq. apply (String.app_inj dir) in Heq. contradiction. Qed.

Lemma result_encodable_parts (result : GenerationResult) (gid : string)
    (now : Z) :
  result_encodable result = true ->
  encodable (Text (html_content result)) = true
  /\ encodable (Text (css_content result)) = true
  /\ encodable (Text (js_content result)) = true
  /\ encodable (MetaJson {| meta_generation_id := gid;
                            meta_site_name := res_site_name result;
                            meta_created_at := now;
                            meta_generation_time := generation_time result;
                            meta_seo_meta := seo_meta result;
                            meta_images_used := images_used result |}) = true.
Proof.
  unfold result_encodable. intros Henc.
  apply andb_true_iff in Henc as [Henc Hmeta].
  apply andb_true_iff in Henc as [Henc Hjs].
  apply andb_true_iff in Henc as [Hhtml Hcss].
  auto.
Qed.

(** What [save_generation_result] leaves on a healthy file system when
    the result can be encoded. *)
Lemma save_generation_result_run (now : Z) (gid : string)
    (result : GenerationResult) (w : World) :
  fault (fs w) = None ->
  result_encodable result = true ->
  save_generation_result now gid result w =
    (Ret tt,
     set_fs w
       {| dirs := {[site_dir_of gid]} ∪ dirs (fs w);
          files :=
            <[site_dir_of gid +:+ "/meta.json" :=
                MetaJson
                  {| meta_generation_id := gid;
                     meta_site_name := res_site_name result;
                     meta_created_at := now;
                     meta_generation_time := generation_time result;
                     meta_seo_meta := seo_meta result;
                     meta_images_used := images_used result |}]>
              (write_if (negb (bool_decide (js_content result = "")))
                 (site_dir_of gid +:+ "/script.js") (Text (js_content result))
                 (write_if (negb (bool_decide (css_content result = "")))
                    (site_dir_of gid +:+ "/styles.css")
                    (Text (css_content result))
                    (write_if (negb (bool_decide (html_content result = "")))
                       (site_dir_of gid +:+ "/index.html")
                       (Text (html_content result))
                       (files (fs w)))));
          fault := None |}).
Proof.
  intros Hf Henc.
  destruct (result_encodable_parts result gid now Henc)
    as (Hhtml & Hcss & Hjs & Hmeta).
  unfold save_generation_result. cbv zeta.
  rewrite bind_unfold, mkdir_run by exact Hf.
  rewrite bind_unfold, write_text_if_run by (reflexivity || assumption).
  rewrite bind_unfold, write_text_if_run by (reflexivity || assumption).
  rewrite bind_unfold, write_text_if_run by (reflexivity || assumption).
  rewrite write_text_run by (reflexivity || assumption). simpl.
  destruct (negb (bool_decide (html_content result = ""))),
    (negb (bool_decide (css_content result = ""))),
    (negb (bool_decide (js_content result = ""))); reflexivity.
Qed.

Lemma site_file_intro (gid p : string) :
  p = site_dir_of gid +:+ "/index.html"
  \/ p = site_dir_of gid +:+ "/styles.css"
  \/ p = site_dir_of gid +:+ "/script.js"
  \/ p = site_dir_of gid +:+ "/meta.json" ->
  site_file gid p = true.
Proof.
  intros Hp. unfold site_file.
  destruct Hp as [-> | [-> | [-> | ->]]];
    rewrite ?orb_true_iff, ?bool_decide_eq_true; auto.
Qed.

Lemma site_file_other (gid p : string) :
  p <> site_dir_of gid +:+ "/index.html" ->
  p <> site_dir_of gid +:+ "/styles.css" ->
  p <> site_dir_of gid +:+ "/script.js" ->
  p <> site_dir_of gid +:+ "/meta.json" ->
  site_file gid p = false.
Proof.
  intros H1 H2 H3 H4. unfold site_file.
  now rewrite !bool_decide_eq_false_2 by assumption.
Qed.

(** The writes of [save_generation_result] behind the creation of the
    directory touch the four files of the generation and nothing else,
    whether they succeed or fail. *)
Lemma save_generation_result_confined (now : Z) (gid : string)
    (result : GenerationResult) :
  confined (site_file gid) (fun p => bool_decide (p = site_dir_of gid))
    (save_generation_result now gid result).
Proof.
  unfold save_generation_result. cbv zeta.
  apply confined_bind;
    [apply confined_mkdir, bool_decide_eq_true_2; reflexivity | intros _].
  apply confined_bind.
  { destruct (negb _); [|apply confined_ret].
    apply confined_write_text, site_file_intro. auto. }
  intros _. apply confined_bind.
  { destruct (negb _); [|apply confined_ret].
    apply confined_write_text, site_file_intro. auto. }
  intros _. apply confined_bind.
  { destruct (negb _); [|apply confined_ret].
    apply confined_write_text, site_file_intro. auto. }
  intros _. apply confined_write_text, site_file_intro. auto.
Qed.

(** [save_generation_result] looks at the file system only. *)
Lemma save_generation_result_local (now : Z) (gid : string)
    (result : GenerationResult) :
  fs_local (save_generation_result now gid result).
Proof.
  unfold save_generation_result. cbv zeta.
  apply fs_local_bind; [apply fs_local_mkdir | intros _].
  apply fs_local_bind; [apply fs_local_when, fs_local_write_text | intros _].
  apply fs_local_bind; [apply fs_local_when, fs_local_write_text | intros _].
  apply fs_local_bind; [apply fs_local_when, fs_local_write_text | intros _].
  apply fs_local_write_text.
Qed.

Lemma save_generation_result_transport (now : Z) (gid : string)
    (result : GenerationResult) (w v : World) :
  fs v = fs w ->
  (save_generation_result now gid result v).1 =
    (save_generation_result now gid result w).1
  /\ fs (save_generation_result now gid result v).2 =
       fs (save_generation_result now gid result w).2
  /\ (save_generation_result now gid result v).2 =
       set_fs v (fs (save_generation_result now gid result w).2).
Proof.
  intros Hv.
  destruct (save_generation_result_local now gid result w) as (o & f' & Hsave).
  rewrite (Hsave v Hv), (Hsave w eq_refl). auto.
Qed.

Lemma fs_with_status (w : World) (now : Z) (s : GenerationStatus) :
  fs (with_status w now s) = fs w.
Proof. unfold with_status. destruct (redis_client w); reflexivity. Qed.

Lemma cache_step_run (t1 : Z) (key gid : string) (w : World) :
  match redis_client w with
  | Some r =>
      put_world (set_redis w
        (redis_setex r t1 key 86400 (CacheJson gid (site_url gid))))
  | None => mret tt
  end w = (Ret tt, with_cache w t1 key gid).
Proof. unfold with_cache. destruct (redis_client w); reflexivity. Qed.

(** One background run, step by step: the two checkpoints, the call of
    the generation client between them, the save, and then the cache
    entry and the completed status when the save returned, the error
    status when it raised. *)
Lemma process_generation_run (t0 t1 : Z) (gid : string)
    (request : GenerationRequest) (key : string) (w : World) :
  let w1 := with_status w t0 (generating gid) in
  let w2 := log_call w1 WebsiteAgent.base_prompt
              (WebsiteAgent._build_generation_prompt request) in
  let w3 := with_status w2 t1 (optimizing gid) in
  exists result o f',
    WebsiteAgent.generate_website request t0 t1 w1 = (Ret result, w2)
    /\ fs w3 = fs w
    /\ save_generation_result t1 gid result w3 = (o, set_fs w3 f')
    /\ process_generation t0 t1 gid request key w =
         (Ret tt,
          match o with
          | Ret _ =>
              with_status (with_cache (set_fs w3 f') t1 key gid) t1
                (completed gid)
          | Raise e => with_status (set_fs w3 f') t1 (failed gid (exn_str e))
          end).
Proof.
  intros w1 w2 w3.
  destruct (generate_website_returns request t0 t1 w1) as (result & Hagent).
  destruct (save_generation_result_local t1 gid result w3) as (o & f' & Hsave).
  specialize (Hsave w3 eq_refl).
  exists result, o, f'. split; [exact Hagent|].
  split.
  { unfold w3. rewrite fs_with_status. unfold w2. simpl.
    unfold w1. apply fs_with_status. }
  split; [exact Hsave|].
  unfold process_generation, process_generation_with, try_except.
  rewrite bind_unfold, update_generation_status_run.
  fold (generating gid). fold w1.
  rewrite bind_unfold, Hagent.
  rewrite bind_unfold, update_generation_status_run.
  fold (optimizing gid). fold w2. fold w3.
  rewrite bind_unfold, Hsave.
  destruct o as [u|e].
  - rewrite bind_unfold. unfold get_world.
    rewrite bind_unfold, cache_step_run.
    rewrite update_generation_status_run. reflexivity.
  - rewrite update_generation_status_run. reflexivity.
Qed.

Lemma with_status_some (w : World) (r : Redis) (now : Z) (s : GenerationStatus) :
  redis_client w = Some r ->
  with_status w now s =
    set_redis w (redis_setex r now ("status:" +:+ generation_id s) 3600
                   (StatusJson s)).
Proof. intros Hr. unfold with_status. now rewrite Hr. Qed.

Lemma with_status_none (w : World) (now : Z) (s : GenerationStatus) :
  redis_client w = None -> with_status w now s = w.
Proof. intros Hr. unfold with_status. now rewrite Hr. Qed.

Lemma with_cache_some (w : World) (r : Redis) (now : Z) (key gid : string) :
  redis_client w = Some r ->
  with_cache w now key gid =
    set_redis w (redis_setex r now key 86400 (CacheJson gid (site_url gid))).
Proof. intros Hr. unfold with_cache. now rewrite Hr. Qed.

Lemma with_cache_none (w : World) (now : Z) (key gid : string) :
  redis_client w = None -> with_cache w now key gid = w.
Proof. intros Hr. unfold with_cache. now rewrite Hr. Qed.

Lemma status_updates_app (gid : string) (l1 l2 : list (string * RedisValue)) :
  status_updates gid (l1 ++ l2) = status_updates gid l1 ++ status_updates gid l2.
Proof. unfold status_updates. apply omap_app. Qed.

Lemma status_updates_status (gid : string) (s : GenerationStatus) :
  status_updates gid [("status:" +:+ gid, StatusJson s)] = [s].
Proof.
  unfold status_updates. simpl.
  now rewrite bool_decide_eq_true_2 by reflexivity.
Qed.

Lemma status_updates_cache (gid key g u : string) :
  status_updates gid [(key, CacheJson g u)] = [].
Proof. reflexivity. Qed.

(** An exception that escapes the generation client is turned into an
    error status by the handler of [process_generation]. *)
Lemma process_generation_with_raising_agent
    (agent : GenerationRequest -> Z -> Z -> M GenerationResult)
    (t0 t1 : Z) (gid : string) (request : GenerationRequest) (key : string)
    (w w2 : World) (e : Exn) :
  agent request t0 t1 (with_status w t0 (generating gid)) = (Raise e, w2) ->
  process_generation_with agent t0 t1 gid request key w =
    (Ret tt, with_status w2 t1 (failed gid (exn_str e))).
Proof.
  intros Hagent. unfold process_generation_with, try_except.
  rewrite bind_unfold, update_generation_status_run.
  fold (generating gid). rewrite bind_unfold, Hagent.
  now rewrite update_generation_status_run.
Qed.

Lemma save_generation_result_mkdir_fails (now : Z) (gid : string)
    (result : GenerationResult) (w : World) (failure : Failure) :
  failure_of (fs w) (site_dir_of gid) = Some failure ->
  save_generation_result now gid result w =
    (Raise (Exception (failure_msg failure)), w).
Proof.
  intros Hf. unfold save_generation_result. cbv zeta.
  rewrite bind_unfold. unfold mkdir. now rewrite Hf.
Qed.

(** So is an exception of the file system while the result is saved,
    here one that the creation of the directory raises. *)
Lemma process_generation_archiver_failure (t0 t1 : Z) (gid : string)
    (request : GenerationRequest) (key : string) (w : World) (r : Redis)
    (failure : Failure) :
  redis_client w = Some r ->
  failure_of (fs w) (site_dir_of gid) = Some failure ->
  (process_generation t0 t1 gid request key w).1 = Ret tt
  /\ status_entry (process_generation t0 t1 gid request key w).2 t1 gid =
       Some (StatusJson (failed gid (failure_msg failure))).
Proof.
  intros Hr Hf.
  destruct (process_generation_run t0 t1 gid request key w)
    as (result & o & f' & _ & Hfs & Hsave & Hrun).
  rewrite (save_generation_result_mkdir_fails t1 gid result _ failure)
    in Hsave by (now rewrite Hfs).
  injection Hsave as <- Hw3. rewrite Hrun. split; [reflexivity|]. simpl.
  rewrite (with_status_some w r) by exact Hr.
  erewrite (with_status_some (log_call _ _ _)) by reflexivity.
  erewrite with_status_some by reflexivity.
  unfold status_entry. simpl. now rewrite redis_get_setex.
Qed.

(** The writes of one background run, in order. *)
Lemma process_generation_log (t0 t1 : Z) (gid : string)
    (request : GenerationRequest) (key : string) (w : World) :
  exists new,
    log_of (process_generation t0 t1 gid request key w).2 = log_of w ++ new
    /\ match redis_client w with
       | None => new = []
       | Some _ =>
           head new = Some ("status:" +:+ gid, StatusJson (generating gid))
           /\ exists terminal,
                status_updates gid new =
                  [generating gid; optimizing gid; terminal]
                /\ (terminal = completed gid
                    \/ exists msg, terminal = failed gid msg)
       end.
Proof.
  destruct (process_generation_run t0 t1 gid request key w)
    as (result & o & f' & _ & _ & _ & Hrun).
  destruct (redis_client w) as [r|] eqn:Hr.
  - destruct o as [u|e].
    + exists [("status:" +:+ gid, StatusJson (generating gid));
              ("status:" +:+ gid, StatusJson (optimizing gid));
              (key, CacheJson gid (site_url gid));
              ("status:" +:+ gid, StatusJson (completed gid))].
      split; [|split; [reflexivity|]].
      * rewrite Hrun. simpl.
        rewrite (with_status_some w r) by exact Hr.
        erewrite (with_status_some (log_call _ _ _)) by reflexivity.
        erewrite (with_cache_some (set_fs _ _)) by reflexivity.
        erewrite with_status_some by reflexivity.
        unfold log_of. rewrite Hr. simpl. now rewrite <- !app_assoc.
      * exists (completed gid). split; [|now left].
        change (status_updates gid
                  ([("status:" +:+ gid, StatusJson (generating gid))]
                   ++ [("status:" +:+ gid, StatusJson (optimizing gid))]
                   ++ [(key, CacheJson gid (site_url gid))]
                   ++ [("status:" +:+ gid, StatusJson (completed gid))])
                = [generating gid; optimizing gid; completed gid]).
        now rewrite !status_updates_app, !status_updates_status,
          status_updates_cache.
    + exists [("status:" +:+ gid, StatusJson (generating gid));
              ("status:" +:+ gid, StatusJson (optimizing gid));
              ("status:" +:+ gid, StatusJson (failed gid (exn_str e)))].
      split; [|split; [reflexivity|]].
      * rewrite Hrun. simpl.
        rewrite (with_status_some w r) by exact Hr.
        erewrite (with_status_some (log_call _ _ _)) by reflexivity.
        erewrite (with_status_some (set_fs _ _)) by reflexivity.
        unfold log_of. rewrite Hr. simpl. now rewrite <- !app_assoc.
      * exists (failed gid (exn_str e)). split; [|right; eauto].
        change (status_updates gid
                  ([("status:" +:+ gid, StatusJson (generating gid))]
                   ++ [("status:" +:+ gid, StatusJson (optimizing gid))]
                   ++ [("status:" +:+ gid, StatusJson (failed gid (exn_str e)))])
                = [generating gid; optimizing gid; failed gid (exn_str e)]).
        now rewrite !status_updates_app, !status_updates_status.
  - exists []. split; [|reflexivity]. rewrite app_nil_r.
    rewrite Hrun. simpl.
    assert (Hr3 : forall f,
      redis_client
        (set_fs (with_status
                   (log_call (with_status w t0 (generating gid))
                      WebsiteAgent.base_prompt
                      (WebsiteAgent._build_generation_prompt request))
                   t1 (optimizing gid)) f) = None).
    { intros f. simpl. rewrite (with_status_none w) by exact Hr.
      now rewrite with_status_none. }
    unfold log_of.
    destruct o as [u|e].
    + rewrite with_cache_none by apply Hr3.
      rewrite with_status_none by apply Hr3. now rewrite Hr3, Hr.
    + rewrite with_status_none by apply Hr3. now rewrite Hr3, Hr.
Qed.

Lemma confined_image_loop_body (image : UploadFile) :
  confined upload_path upload_path (process_image image).
Proof.
  unfold process_image.
  destruct (negb _); [apply confined_raise | apply confined_process_upload_io].
Qed.

Lemma confined_mapM {A B : Type} (fa da : string -> bool) (f : A -> M B)
    (l : list A) :
  (forall a, confined fa da (f a)) -> confined fa da (mapM f l).
Proof.
  intros Hf. induction l as [|x l IH]; [apply confined_ret|].
  simpl. apply confined_bind; [apply Hf | intros y].
  apply confined_bind; [exact IH | intros ys]. apply confined_ret.
Qed.

(** Uploads of accepted types are all processed: the loop returns one
    descriptor for each, and changes nothing outside /tmp and
    static/uploads. *)
Lemma mapM_process_image_accepted (images : list UploadFile) (w : World) :
  forallb (fun image =>
             bool_decide (content_type image ∈
                            ["image/jpeg"; "image/png"; "image/webp"]))
          images = true ->
  exists processed w',
    mapM process_image images w = (Ret processed, w')
    /\ uploads_only w w'
    /\ length processed = length images.
Proof.
  revert w. induction images as [|image images IH]; intros w Hall.
  - exists [], w. split; [reflexivity|].
    split; [apply differs_within_refl | reflexivity].
  - simpl in Hall. apply andb_true_iff in Hall as [Himage Hall].
    simpl. rewrite bind_unfold. unfold process_image at 1. rewrite Himage.
    change (negb true) with false. cbv iota.
    pose proof (confined_process_upload_io image w) as Hconf.
    destruct (process_upload_io_returns image w
                (accepted_is_image image Himage)) as [d Hd].
    destruct (ImageProcessor.process_upload_io image w) as [o w1].
    simpl in Hd, Hconf. subst o.
    destruct (IH w1 Hall) as (ds & w2 & Hrest & Hconf2 & Hlen).
    rewrite bind_unfold, Hrest. exists (d :: ds), w2.
    split; [reflexivity|]. split; [|simpl; now rewrite Hlen].
    eapply differs_within_trans; eassumption.
Qed.

(** A submission touches neither Redis nor the record of endpoint calls;
    on disk it changes only what the processing of its images changes,
    and it schedules at most one task. *)
Lemma generate_website_world (now : Z)
    (site_name description style theme : string) (target_devices : list string)
    (seo_enabled multi_language : bool) (images : list UploadFile) (w : World) :
  let submitted :=
    generate_website now site_name description style theme target_devices
      seo_enabled multi_language images w in
  exists w1,
    uploads_only w w1
    /\ (images = [] -> w1 = w)
    /\ redis_client submitted.2 = redis_client w1
    /\ fs submitted.2 = fs w1
    /\ llm_calls submitted.2 = llm_calls w1
    /\ (background_tasks submitted.2 = background_tasks w1
        \/ exists st t,
             submitted.1 = Ret st /\ status st = "processing"
             /\ progress st = 0%Z
             /\ task_generation_id t = generation_id st
             /\ background_tasks submitted.2 = background_tasks w1 ++ [t]).
Proof.
  intros submitted. unfold submitted, generate_website, try_except.
  destruct (negb (forallb _ target_devices)).
  { exists w. simpl. split; [apply differs_within_refl|]. auto 10. }
  cbv zeta. rewrite bind_unfold. unfold get_world.
  destruct (match redis_client w with
            | Some r => redis_get r now _
            | None => None
            end).
  { exists w. simpl. split; [apply differs_within_refl|]. auto 10. }
  rewrite bind_unfold.
  pose proof (confined_mapM upload_path upload_path process_image images
                confined_image_loop_body w) as Hconf.
  assert (Hnone : images = [] -> (mapM process_image images w).2 = w)
    by (intros ->; reflexivity).
  destruct (mapM process_image images w) as [[processed|e] w1];
    simpl in Hconf, Hnone; exists w1;
    (split; [exact Hconf|]); (split; [exact Hnone|]).
  - rewrite bind_unfold. simpl.
    split; [reflexivity|]. split; [reflexivity|]. split; [reflexivity|].
    right. do 2 eexists. split; [reflexivity|]. split; [reflexivity|].
    split; [reflexivity|]. split; [|reflexivity]. reflexivity.
  - destruct e; simpl; auto 10.
Qed.

Lemma get_generation_status_stored (now : Z) (gid : string) (w : World)
    (s : GenerationStatus) :
  status_entry w now gid = Some (StatusJson s) ->
  get_generation_status now gid w = (Ret s, w).
Proof.
  intros Hs. unfold get_generation_status. rewrite bind_unfold.
  unfold get_world. cbv zeta. unfold status_entry in Hs. now rewrite Hs.
Qed.

Lemma get_generation_status_file (now : Z) (gid : string) (w : World) :
  status_entry w now gid = None ->
  path_exists (fs w) (site_dir_of gid) = true ->
  path_exists (fs w) (site_dir_of gid +:+ "/index.html") = true ->
  get_generation_status now gid w = (Ret (completed gid), w).
Proof.
  intros Hs Hdir Hfile. unfold get_generation_status. rewrite bind_unfold.
  unfold get_world. cbv zeta. unfold status_entry in Hs.
  now rewrite Hs, Hdir, Hfile.
Qed.

Lemma get_generation_status_missing (now : Z) (gid : string) (w : World) :
  status_entry w now gid = None ->
  path_exists (fs w) (site_dir_of gid +:+ "/index.html") = false ->
  get_generation_status now gid w =
    (Raise (HTTPException 404 "Генерация не найдена"), w).
Proof.
  intros Hs Hfile. unfold get_generation_status. rewrite bind_unfold.
  unfold get_world. cbv zeta. unfold status_entry in Hs.
  now rewrite Hs, Hfile, andb_false_r.
Qed.



End OrchestratorFacts.

(** ** The claims about the orchestrator *)

Section OrchestratorClaims.
Import PyStr Types Files Observations Main.
Context `{Runtime}.

(** C8.  A poll for a generation ID returns the entry of the status store
    when a live one is present.  Otherwise, when the index.html of that ID
    is on disk in its directory, it returns a completed status at 100 %
    with the result URL of that ID.  Otherwise it raises the 404 error. *)
Theorem C8_get_status_store_then_disk_then_404 (now : Z) (gid : string)
    (w : World) :
  (forall s,
      status_entry w now gid = Some (StatusJson s) ->
      get_generation_status now gid w = (Ret s, w))
  /\ (status_entry w now gid = None ->
      path_exists (fs w) (site_dir_of gid) = true ->
      path_exists (fs w) (site_dir_of gid +:+ "/index.html") = true ->
      get_generation_status now gid w =
        (Ret {| generation_id := gid; status := "completed"; progress := 100;
                message := "Генерация завершена";
                result_url := Some ("/sites/" +:+ gid +:+ "/index.html");
                error := None |}, w))
  /\ (status_entry w now gid = None ->
      path_exists (fs w) (site_dir_of gid +:+ "/index.html") = false ->
      get_generation_status now gid w =
        (Raise (HTTPException 404 "Генерация не найдена"), w)).
Proof.
  split; [|split].
  - intros s. apply get_generation_status_stored.
  - apply get_generation_status_file.
  - apply get_generation_status_missing.
Qed.


(** C1.  When the completion endpoint raises, one background run on a
    present Redis and a healthy file system returns normally, and the
    status it leaves in the status store is completed at 100 % with a
    result URL and no error; the index.html that this URL names is not
    written.  The failure message reaches only the result of the
    generation client, which [process_generation] does not inspect. *)
Theorem C1_endpoint_failure_ends_completed (t0 t1 : Z) (gid : string)
    (request : GenerationRequest) (key : string) (w : World) (r : Redis)
    (msg : string) :
  redis_client w = Some r ->
  fault (fs w) = None ->
  chat_completions_create WebsiteAgent.base_prompt
    (WebsiteAgent._build_generation_prompt request) = inl msg ->
  (process_generation t0 t1 gid request key w).1 = Ret tt
  /\ status_entry (process_generation t0 t1 gid request key w).2 t1 gid =
       Some (StatusJson
               {| generation_id := gid; status := "completed"; progress := 100;
                  message := "Генерация завершена";
                  result_url := Some ("/sites/" +:+ gid +:+ "/index.html");
                  error := None |})
  /\ files (fs (process_generation t0 t1 gid request key w).2)
       !! (site_dir_of gid +:+ "/index.html")
     = files (fs w) !! (site_dir_of gid +:+ "/index.html").
Proof.
  intros Hr Hf Hllm.
  destruct (process_generation_run t0 t1 gid request key w)
    as (result & o & f' & Hagent & Hfs & Hsave & Hrun).
  rewrite (generate_website_endpoint_failure _ _ _ _ msg Hllm)
    in Hagent.
  injection Hagent as <-.
  rewrite save_generation_result_run in Hsave
    by (first [now rewrite Hfs | reflexivity]).
  injection Hsave as <- <-. rewrite Hrun.
  split; [reflexivity|]. simpl. split.
  - rewrite (with_status_some w r) by exact Hr.
    erewrite (with_status_some (log_call _ _ _)) by reflexivity.
    erewrite (with_cache_some (set_fs _ _)) by reflexivity.
    erewrite with_status_some by reflexivity.
    unfold status_entry. simpl. now rewrite redis_get_setex.
  - rewrite fs_with_status.
    rewrite (with_status_some w r) in * by exact Hr.
    erewrite (with_status_some (log_call _ _ _)) in * by reflexivity.
    erewrite (with_cache_some (set_fs _ _)) by reflexivity.
    simpl.
    now rewrite lookup_insert_ne by (apply site_path_ne; discriminate).
Qed.

(** C2.  On a submission with valid devices whose cache key holds a live
    entry, the handler returns a completed status at 100 % and leaves the
    world as it was: no task is scheduled and the completion endpoint is
    not called.  The key is computed from the site name, the description
    and the style only.  The generation ID and the result URL of the
    status are those of the ID allocated for this submission; the entry
    that was found is not consulted. *)
Theorem C2_cache_hit_answers_with_fresh_id (now : Z)
    (site_name description style theme : string) (target_devices : list string)
    (seo_enabled multi_language : bool) (images : list UploadFile)
    (w : World) (cached : RedisValue) :
  forallb (fun device => bool_decide (device ∈ ["mobile"; "tablet"; "desktop"]))
    target_devices = true ->
  cache_entry w now
    ("generation:" +:+ md5_hexdigest (site_name +:+ description +:+ style))
    = Some cached ->
  generate_website now site_name description style theme target_devices
    seo_enabled multi_language images w =
    (Ret {| generation_id :=
              take 16 (sha256_hexdigest
                         (site_name +:+ description +:+ style +:+ float_str now));
            status := "completed";
            progress := 100;
            message := "Результат загружен из кэша";
            result_url :=
              Some ("/sites/"
                      +:+ take 16 (sha256_hexdigest
                                     (site_name +:+ description +:+ style
                                        +:+ float_str now))
                      +:+ "/index.html");
            error := None |}, w).
Proof.
  intros Hdev Hhit. unfold generate_website, try_except.
  rewrite Hdev. change (negb true) with false. cbv iota zeta.
  rewrite bind_unfold. unfold get_world.
  unfold cache_entry in Hhit. rewrite Hhit. reflexivity.
Qed.

(** C6, as amended.  A submission issues no SETEX at all.  One background
    run on a present Redis writes three statuses under the status key of
    its generation ID and nothing after them: processing at 25 %,
    processing at 75 %, and one terminal status.  When the terminal
    status is completed the progress values are 25, 75, 100 and do not
    decrease; when it is error they are 25, 75, 0: the terminal write
    carries less than the write before it.  Without Redis nothing is
    written. *)
Theorem C6_progress_steps_then_terminal (now : Z)
    (site_name description style theme : string) (target_devices : list string)
    (seo_enabled multi_language : bool) (images : list UploadFile)
    (w0 : World) (t0 t1 : Z) (gid : string) (request : GenerationRequest)
    (key : string) (w : World) :
  log_of (generate_website now site_name description style theme
            target_devices seo_enabled multi_language images w0).2 = log_of w0
  /\ exists new,
       log_of (process_generation t0 t1 gid request key w).2 = log_of w ++ new
       /\ match redis_client w with
          | None => new = []
          | Some _ =>
              exists terminal,
                status_updates gid new =
                  [generating gid; optimizing gid; terminal]
                /\ is_terminal terminal = true
                /\ (status terminal = "completed"
                    /\ map progress (status_updates gid new) = [25; 75; 100]%Z
                    /\ non_decreasing (map progress (status_updates gid new))
                       = true
                    \/ status terminal = "error"
                       /\ map progress (status_updates gid new) = [25; 75; 0]%Z
                       /\ non_decreasing (map progress (status_updates gid new))
                          = false)
          end.
Proof.
  split.
  - destruct (generate_website_world now site_name description style theme
                target_devices seo_enabled multi_language images w0)
      as (w1 & Hup & _ & Hr & _).
    unfold log_of. rewrite Hr. destruct Hup as (-> & _). reflexivity.
  - destruct (process_generation_log t0 t1 gid request key w)
      as (new & Hlog & Hshape).
    exists new. split; [exact Hlog|].
    destruct (redis_client w); [|exact Hshape].
    destruct Hshape as (_ & terminal & Hnew & Hterminal).
    exists terminal. split; [exact Hnew|]. rewrite Hnew.
    destruct Hterminal as [->|[msg ->]].
    + split; [reflexivity|]. left. repeat split; reflexivity.
    + split; [reflexivity|]. right. repeat split; reflexivity.
Qed.


End OrchestratorClaims.

(** ** The claims at concrete inputs *)



(** C8 at a world with a live status entry, at a world with the output on
    disk only, and at an empty world. *)
Lemma C8_get_status_store_then_disk_then_404_witness :
  (Observations.status_entry Fake.polled_world 1000 "0123456789abcdef"
     = Some (Types.StatusJson Fake.polled_status)
   /\ @Main.get_generation_status (Fake.up "1000.25") 1000 "0123456789abcdef"
        Fake.polled_world
      = (Types.Ret Fake.polled_status, Fake.polled_world))
  /\ (Observations.status_entry Fake.served_world 9000 "0123456789abcdef" = None
      /\ Types.path_exists (Types.fs Fake.served_world)
           (Main.site_dir_of "0123456789abcdef") = true
      /\ Types.path_exists (Types.fs Fake.served_world)
           (Main.site_dir_of "0123456789abcdef" +:+ "/index.html") = true
      /\ @Main.get_generation_status (Fake.up "1000.25") 9000 "0123456789abcdef"
           Fake.served_world
         = (Types.Ret
              {| Types.generation_id := "0123456789abcdef";
                 Types.status := "completed"; Types.progress := 100;
                 Types.message := "Генерация завершена";
                 Types.result_url :=
                   Some ("/sites/" +:+ "0123456789abcdef" +:+ "/index.html");
                 Types.error := None |}, Fake.served_world))
  /\ (Observations.status_entry Fake.empty_world 1000 "0123456789abcdef" = None
      /\ Types.path_exists (Types.fs Fake.empty_world)
           (Main.site_dir_of "0123456789abcdef" +:+ "/index.html") = false
      /\ @Main.get_generation_status (Fake.up "1000.25") 1000 "0123456789abcdef"
           Fake.empty_world
         = (Types.Raise (Types.HTTPException 404 "Генерация не найдена"),
            Fake.empty_world)).
Proof.
  pose proof (@C8_get_status_store_then_disk_then_404 (Fake.up "1000.25") 1000
                "0123456789abcdef" Fake.polled_world) as (Hstored & _ & _).
  pose proof (@C8_get_status_store_then_disk_then_404 (Fake.up "1000.25") 9000
                "0123456789abcdef" Fake.served_world) as (_ & Hfile & _).
  pose proof (@C8_get_status_store_then_disk_then_404 (Fake.up "1000.25") 1000
                "0123456789abcdef" Fake.empty_world) as (_ & _ & Hmissing).
  split; [|split].
  - split; [reflexivity|]. apply Hstored. reflexivity.
  - split; [reflexivity|]. split; [reflexivity|]. split; [reflexivity|].
    apply Hfile; reflexivity.
  - split; [reflexivity|]. split; [reflexivity|].
    apply Hmissing; reflexivity.
Defined.

(** C1 at the worked example with an unreachable endpoint. *)
Lemma C1_endpoint_failure_ends_completed_witness :
  Types.redis_client Fake.empty_world = Some Fake.empty_redis
  /\ Types.fault (Types.fs Fake.empty_world) = None
  /\ @Types.chat_completions_create (Fake.down "1000.25")
       WebsiteAgent.base_prompt
       (WebsiteAgent._build_generation_prompt Fake.bakery_request)
     = inl "Connection error."
  /\ (@Main.process_generation (Fake.down "1000.25") 1001 1006
        "52.0001nredometi" Fake.bakery_request
        "generation:BakeryA cozy neighborhood bakery sitemodern"
        Fake.empty_world).1 = Types.Ret tt
  /\ Observations.status_entry
       (@Main.process_generation (Fake.down "1000.25") 1001 1006
          "52.0001nredometi" Fake.bakery_request
          "generation:BakeryA cozy neighborhood bakery sitemodern"
          Fake.empty_world).2 1006 "52.0001nredometi"
     = Some (Types.StatusJson
               {| Types.generation_id := "52.0001nredometi";
                  Types.status := "completed"; Types.progress := 100;
                  Types.message := "Генерация завершена";
                  Types.result_url :=
                    Some ("/sites/" +:+ "52.0001nredometi" +:+ "/index.html");
                  Types.error := None |})
  /\ Types.files
       (Types.fs
          (@Main.process_generation (Fake.down "1000.25") 1001 1006
             "52.0001nredometi" Fake.bakery_request
             "generation:BakeryA cozy neighborhood bakery sitemodern"
             Fake.empty_world).2)
       !! (Main.site_dir_of "52.0001nredometi" +:+ "/index.html")
     = Types.files (Types.fs Fake.empty_world)
         !! (Main.site_dir_of "52.0001nredometi" +:+ "/index.html").
Proof.
  split; [reflexivity|]. split; [reflexivity|]. split; [reflexivity|].
  apply (@C1_endpoint_failure_ends_completed (Fake.down "1000.25") 1001 1006
           "52.0001nredometi" Fake.bakery_request
           "generation:BakeryA cozy neighborhood bakery sitemodern"
           Fake.empty_world Fake.empty_redis "Connection error.");
    reflexivity.
Defined.

(** C2 at a second submission of the worked example: the entry found names
    the generation 52.0001nredometi, the answer names 5.0002nredometis. *)
Lemma C2_cache_hit_answers_with_fresh_id_witness :
  forallb (fun device => bool_decide (device ∈ ["mobile"; "tablet"; "desktop"]))
    Fake.all_devices = true
  /\ Observations.cache_entry Fake.cached_world 2000
       ("generation:"
          +:+ @Types.md5_hexdigest (Fake.up "2000.5")
                ("Bakery" +:+ "A cozy neighborhood bakery site" +:+ "modern"))
     = Some (Types.CacheJson "52.0001nredometi"
               "/sites/52.0001nredometi/index.html")
  /\ Fake.submit_bakery (Fake.up "2000.5") 2000 Fake.cached_world
     = (Types.Ret
          {| Types.generation_id := "5.0002nredometis";
             Types.status := "completed"; Types.progress := 100;
             Types.message := "Результат загружен из кэша";
             Types.result_url := Some "/sites/5.0002nredometis/index.html";
             Types.error := None |}, Fake.cached_world).
Proof.
  split; [reflexivity|]. split; [reflexivity|].
  apply (@C2_cache_hit_answers_with_fresh_id (Fake.up "2000.5") 2000
           "Bakery" "A cozy neighborhood bakery site" "modern" "light"
           Fake.all_devices true false [] Fake.cached_world
           (Types.CacheJson "52.0001nredometi"
              "/sites/52.0001nredometi/index.html"));
    reflexivity.
Defined.


(** C6, counterexample.  The worked example runs on a disk that becomes
    full while styles.css is written: the statuses written for its ID
    carry 25, 75 and then, with the error status, 0. *)
Lemma C6_error_status_resets_progress :
  map Types.progress
    (Observations.status_updates "52.0001nredometi"
       (Observations.log_of
          (@Main.process_generation (Fake.up "1000.25") 1001 1006
             "52.0001nredometi" Fake.bakery_request
             "generation:BakeryA cozy neighborhood bakery sitemodern"
             Scenes.full_disk_world).2))
    = [25; 75; 0]%Z
  /\ map Types.status
       (Observations.status_updates "52.0001nredometi"
          (Observations.log_of
             (@Main.process_generation (Fake.up "1000.25") 1001 1006
                "52.0001nredometi" Fake.bakery_request
                "generation:BakeryA cozy neighborhood bakery sitemodern"
                Scenes.full_disk_world).2))
     = ["processing"; "processing"; "error"]
  /\ Observations.non_decreasing
       (map Types.progress
          (Observations.status_updates "52.0001nredometi"
             (Observations.log_of
                (@Main.process_generation (Fake.up "1000.25") 1001 1006
                   "52.0001nredometi" Fake.bakery_request
                   "generation:BakeryA cozy neighborhood bakery sitemodern"
                   Scenes.full_disk_world).2)))
     = false.
Proof. repeat split; vm_compute; reflexivity. Qed.

Section ClaimsAtInputs.
Import PyStr Types Files Observations Main.
#[local] Existing Instance Scenes.example_runtime.


End ClaimsAtInputs.


(** ** The worked example, end to end *)

(** With an endpoint that answers the reply of the worked example, the
    submission followed by its background run calls the endpoint once,
    leaves the normalised document and stylesheet on disk, no script
    (the reply's script is empty), a completed status in the status store
    and the cache entry that a later submission will find. *)
Example bakery_generation_end_to_end :
  length (Types.llm_calls Fake.generated_world) = 1%nat
  /\ Types.files (Types.fs Fake.generated_world)
       !! "generated/sites/52.0001nredometi/index.html"
     = Some (Types.Text
               (WebsiteAgent._optimize_html Fake.bakery_html Fake.all_devices))
  /\ Types.files (Types.fs Fake.generated_world)
       !! "generated/sites/52.0001nredometi/styles.css"
     = Some (Types.Text (WebsiteAgent.base_css +:+ PyStr.nl))
  /\ Types.files (Types.fs Fake.generated_world)
       !! "generated/sites/52.0001nredometi/script.js" = None
  /\ Observations.status_entry Fake.generated_world 1006 "52.0001nredometi"
     = Some (Types.StatusJson (Observations.completed "52.0001nredometi"))
  /\ Observations.cache_entry Fake.generated_world 1006
       "generation:BakeryA cozy neighborhood bakery sitemodern"
     = Observations.cache_entry Fake.cached_world 1006
         "generation:BakeryA cozy neighborhood bakery sitemodern".
Proof. repeat split; vm_compute; reflexivity. Qed.

(** ** More on the content normaliser *)


Section NormalizerMore.
Import PyStr Inert Checks WebsiteAgent.

Lemma replace_from_0_cons (old new : string) (c : ascii) (s : string) :
  replace_from old new 0 (String c s) =
    if startswith old (String c s)
    then new +:+ replace_from old new (String.length old - 1) s
    else String c (replace_from old new 0 s).
Proof. reflexivity. Qed.

Lemma contains_cons (p : string) (c : ascii) (s : string) :
  contains p (String c s) = startswith p (String c s) || contains p s.
Proof. reflexivity. Qed.

Lemma replace_absent (old new s : string) :
  contains old s = false -> replace old new s = s.
Proof.
  unfold replace. induction s as [|c s IH]; intros Hc; [reflexivity|].
  rewrite contains_cons in Hc. apply orb_false_iff in Hc as [Hs Hc].
  rewrite replace_from_0_cons, Hs. now rewrite IH.
Qed.

Lemma replace_first_absent (old new s : string) :
  contains old s = false -> replace_first old new s = s.
Proof.
  induction s as [|c s IH]; intros Hc.
  - rewrite replace_first_eq. simpl in Hc. rewrite orb_false_r in Hc.
    now rewrite Hc.
  - rewrite contains_cons in Hc. apply orb_false_iff in Hc as [Hs Hc].
    rewrite replace_first_eq, Hs. now rewrite IH.
Qed.

Lemma startswith_refl (p x : string) : startswith p (p +:+ x) = true.
Proof.
  induction p as [|a p IH]; [reflexivity|].
  rewrite append_cons. simpl. now rewrite Ascii.eqb_refl.
Qed.

Lemma contains_middle (p a b : string) : contains p (a +:+ p +:+ b) = true.
Proof.
  apply contains_app_r. destruct (p +:+ b) eqn:E.
  - destruct p; [reflexivity | discriminate].
  - rewrite contains_cons, <- E, startswith_refl. reflexivity.
Qed.

(** A replacement of the leftmost occurrence keeps an inert text that the
    document contains. *)
Lemma contains_replace_first (old new m s : string) :
  inert old m = true ->
  contains m s = true ->
  contains m (replace_first old new s) = true.
Proof.
  intros Hin Hc.
  destruct (replace_first_split m m s Hc) as (a & b & -> & _).
  destruct (replace_first_keeps old new m a b Hin) as (a' & b' & ->).
  apply contains_middle.
Qed.

Lemma contains_replace (old new m s : string) :
  inert old m = true ->
  contains m s = true ->
  contains m (replace old new s) = true.
Proof.
  intros Hin Hc.
  destruct (replace_first_split m m s Hc) as (a & b & -> & _).
  unfold replace. rewrite (replace_from_keeps old new m b a 0 Hin) by lia.
  apply contains_middle.
Qed.

(** X1.  A document in which the word viewport occurs, which has no image
    tag and which has a main element needs nothing: [_optimize_html]
    returns it as it is. *)
Theorem optimize_html_complete_document_unchanged (h : string)
    (devs : list string) :
  contains "viewport" (lower h) = true ->
  contains "<img" h = false ->
  contains "<main>" h = true ->
  _optimize_html h devs = h.
Proof.
  intros Hv Himg Hmain. unfold _optimize_html. rewrite Hv.
  change (negb true) with false. cbv iota.
  rewrite (replace_absent _ _ _ Himg), Hmain. reflexivity.
Qed.

(** X2.  A document with a literal opening body tag comes out with an
    opening main tag, whatever else it contains. *)
Theorem optimize_html_body_gets_main (h : string) (devs : list string) :
  contains "<body>" h = true ->
  contains "<main>" (_optimize_html h devs) = true.
Proof.
  intros Hb. unfold _optimize_html.
  set (h1 := if negb (contains "viewport" (lower h))
             then replace_first "</head>" (viewport_meta +:+ nl +:+ "</head>") h
             else h).
  assert (H1 : contains "<body>" h1 = true).
  { unfold h1. destruct (negb _); [|exact Hb].
    apply contains_replace_first; [vm_compute; reflexivity | exact Hb]. }
  assert (H2 : contains "<body>" (replace "<img" lazy_img h1) = true).
  { apply contains_replace; [vm_compute; reflexivity | exact H1]. }
  destruct (contains "<main>" (replace "<img" lazy_img h1)) eqn:Hm;
    [exact Hm|].
  change (negb false) with true. cbv iota.
  apply contains_replace_first; [vm_compute; reflexivity|].
  destruct (replace_first_split "<body>" ("<body>" +:+ nl +:+ "    <main>")
              _ H2) as (a & b & _ & ->).
  apply contains_app_r, contains_app_l. vm_compute. reflexivity.
Qed.

Lemma startswith_short (q o x : string) :
  (String.length q <= String.length o)%nat ->
  startswith q (o +:+ x) = startswith q o.
Proof.
  revert o. induction q as [|a q IH]; intros o Hlen; [reflexivity|].
  destruct o as [|b o]; [simpl in Hlen; lia|].
  rewrite append_cons. simpl. rewrite IH; [reflexivity | simpl in Hlen; lia].
Qed.

(** When the replacement text begins with the text it replaces, the
    first characters of a document, as many as that text has, are not
    changed by [replace]. *)
Lemma startswith_replace (old extra q s : string) :
  (String.length q <= String.length old)%nat ->
  startswith q (replace old (old +:+ extra) s) = startswith q s.
Proof.
  unfold replace. revert q. induction s as [|c s IH]; intros q Hlen;
    [reflexivity|].
  rewrite replace_from_0_cons.
  destruct (startswith old (String c s)) eqn:Hs.
  - rewrite append_assoc, (startswith_short q old) by exact Hlen.
    rewrite (startswith_split old (String c s) Hs) at 1.
    now rewrite startswith_short.
  - destruct q as [|a q]; [reflexivity|].
    simpl. rewrite IH; [reflexivity | simpl in Hlen; lia].
Qed.

Lemma every_img_lazy_cons (c : ascii) (s : string) :
  every_img_lazy (String c s) =
    (negb (startswith "<img" (String c s)) || startswith lazy_img (String c s))
    && every_img_lazy s.
Proof. reflexivity. Qed.

Lemma every_img_lazy_suffix (x y : string) :
  every_img_lazy (x +:+ y) = true -> every_img_lazy y = true.
Proof.
  induction x as [|c x IH]; intros Hxy; [exact Hxy|].
  rewrite append_cons, every_img_lazy_cons in Hxy.
  apply andb_true_iff in Hxy as [_ Hxy]. now apply IH.
Qed.

Lemma clash_everywhere_cons (old : string) (c : ascii) (m : string) :
  clash_everywhere old (String c m) =
    clash old (String c m) && clash_everywhere old m.
Proof. reflexivity. Qed.

(** A text inside which no image tag opens can be put in front. *)
Lemma every_img_lazy_prepend (m x : string) :
  clash_everywhere "<img" m = true ->
  every_img_lazy x = true ->
  every_img_lazy (m +:+ x) = true.
Proof.
  intros Hm Hx. induction m as [|c m IH]; [exact Hx|].
  rewrite clash_everywhere_cons in Hm. apply andb_true_iff in Hm as [Hc Hm].
  rewrite append_cons, every_img_lazy_cons, <- append_cons.
  rewrite (clash_startswith _ _ x Hc). simpl. now apply IH.
Qed.

Lemma every_img_lazy_prepend_tag (x : string) :
  every_img_lazy x = true -> every_img_lazy (lazy_img +:+ x) = true.
Proof.
  intros Hx.
  assert (Htag : lazy_img = String "<"%char (drop 1 lazy_img)) by reflexivity.
  rewrite Htag at 1. rewrite append_cons, every_img_lazy_cons, <- append_cons.
  rewrite <- Htag, startswith_refl, orb_true_r. simpl.
  apply every_img_lazy_prepend; [vm_compute; reflexivity | exact Hx].
Qed.

Lemma every_img_lazy_replace_from (k : nat) (s : string) :
  every_img_lazy (replace_from "<img" lazy_img k s) = true.
Proof.
  revert k. induction s as [|c s IH]; intros k; [destruct k; reflexivity|].
  destruct k as [|k]; [|apply IH].
  pose proof (startswith_replace "<img" (drop 4 lazy_img) "<img" (String c s))
    as Hhead.
  change ("<img" +:+ drop 4 lazy_img) with lazy_img in Hhead.
  unfold replace in Hhead. rewrite replace_from_0_cons in *.
  destruct (startswith "<img" (String c s)) eqn:Hs.
  - apply every_img_lazy_prepend_tag, IH.
  - rewrite every_img_lazy_cons, Hhead by (simpl; lia). simpl. apply IH.
Qed.

(** A replacement of the leftmost occurrence of [old] by [new] keeps the
    image tags lazy when no image tag opens inside [new] or runs into it
    and no lazy image tag runs into [old]. *)
Lemma every_img_lazy_replace_first (old new s : string) :
  clash_everywhere "<img" new = true ->
  tails_clash "<img" new = true ->
  tails_clash lazy_img old = true ->
  every_img_lazy s = true ->
  every_img_lazy (replace_first old new s) = true.
Proof.
  intros Hin Hcross Hlazy Hs.
  destruct (contains old s) eqn:Hc; [|now rewrite replace_first_absent].
  destruct (replace_first_split old new s Hc) as (a & b & -> & ->).
  induction a as [|c a IH].
  - rewrite append_nil in *.
    apply every_img_lazy_prepend; [exact Hin|].
    now apply every_img_lazy_suffix in Hs.
  - rewrite append_cons, every_img_lazy_cons in Hs.
    apply andb_true_iff in Hs as [Hhead Htail].
    rewrite append_cons, every_img_lazy_cons.
    rewrite IH by (try exact Htail;
                   apply contains_middle).
    rewrite andb_true_r, <- !append_cons in *.
    destruct (startswith "<img" (String c a +:+ new +:+ b)) eqn:Himg;
      [|reflexivity].
    change (negb true) with false. rewrite orb_false_l.
    assert (Hlen : (String.length "<img" <= String.length (String c a))%nat).
    { destruct (le_lt_dec (String.length "<img") (String.length (String c a)))
        as [Hle|Hlt]; [exact Hle|].
      rewrite (startswith_cross "<img" new _ b Hcross Hlt) in Himg.
      discriminate. }
    pose proof (startswith_app_inv _ _ _ Himg Hlen) as Himg'.
    rewrite (startswith_app _ _ (old +:+ b) Himg') in Hhead.
    change (negb true) with false in Hhead. rewrite orb_false_l in Hhead.
    assert (Hlen' :
      (String.length lazy_img <= String.length (String c a))%nat).
    { destruct (le_lt_dec (String.length lazy_img)
                  (String.length (String c a))) as [Hle|Hlt]; [exact Hle|].
      rewrite (startswith_cross lazy_img old _ b Hlazy Hlt) in Hhead.
      discriminate. }
    apply startswith_app, (startswith_app_inv _ _ _ Hhead Hlen').
Qed.

(** X3.  In the document that [_optimize_html] returns, every image tag
    opens with the lazy-loading attribute: at every position at which
    [<img] stands, [<img loading="lazy"] stands. *)
Theorem optimize_html_every_img_lazy (h : string) (devs : list string) :
  every_img_lazy (_optimize_html h devs) = true.
Proof.
  unfold _optimize_html.
  set (h1 := if negb (contains "viewport" (lower h))
             then replace_first "</head>" (viewport_meta +:+ nl +:+ "</head>") h
             else h).
  pose proof (every_img_lazy_replace_from 0 h1) as H2.
  fold (replace "<img" lazy_img h1) in H2.
  destruct (negb (contains "<main>" (replace "<img" lazy_img h1)));
    [|exact H2].
  apply every_img_lazy_replace_first; try (vm_compute; reflexivity).
  apply every_img_lazy_replace_first; try (vm_compute; reflexivity).
  exact H2.
Qed.

End NormalizerMore.

(** ** More on the generation client *)

Section AgentMore.
Import PyStr Types Observations WebsiteAgent.
Context `{Runtime}.

(** X4.  When the endpoint answers with a text that decodes to an object
    whose html and css members, where present, are strings and whose js
    and seo members pass validation, [generate_website] returns a success
    result for the requested site: the html and css normalised, a missing
    member taken as empty, the elapsed time set and the error message
    empty. *)
Theorem generate_website_wellformed_reply (request : GenerationRequest)
    (t0 t1 : Z) (w : World) (content : string) (rest : list (option string))
    (members : list (string * json)) (html css js : string)
    (seo : list (string * string)) (images : list string) :
  chat_completions_create base_prompt (_build_generation_prompt request)
    = inr (Some content :: rest) ->
  json_loads (str_strip content) = inr (JDict members) ->
  from_option id (JStr "") (assoc "html" members) = JStr html ->
  from_option id (JStr "") (assoc "css" members) = JStr css ->
  pydantic_str (from_option id (JStr "") (assoc "js" members)) = Some js ->
  pydantic_dict_str_str (from_option id (JDict []) (assoc "seo" members))
    = Some seo ->
  all_str (map image_url (req_images request)) = Some images ->
  generate_website request t0 t1 w =
    (Ret {| res_status := "success";
            res_site_name := req_site_name request;
            res_generation_id := "";
            html_content := _optimize_html html (req_target_devices request);
            css_content := _optimize_css css (req_target_devices request);
            js_content := js;
            seo_meta := seo;
            images_used := images;
            generation_time := (t1 - t0)%Z;
            error_message := "" |},
     log_call w base_prompt (_build_generation_prompt request)).
Proof.
  intros Hllm Hjson Hhtml Hcss Hjs Hseo Himages.
  unfold generate_website, try_except, generate_website_try. cbv zeta.
  rewrite bind_unfold. unfold create_completion at 1. rewrite Hllm.
  rewrite bind_unfold. unfold first_choice_content, mret at 1, M_ret at 1.
  rewrite bind_unfold. unfold _parse_response. rewrite Hjson.
  unfold mret at 1, M_ret at 1.
  rewrite bind_unfold. unfold py_get at 1, mret at 1, M_ret at 1. rewrite Hhtml.
  rewrite bind_unfold. unfold call_optimize_html, mret at 1, M_ret at 1.
  rewrite bind_unfold. unfold py_get at 1, mret at 1, M_ret at 1. rewrite Hcss.
  rewrite bind_unfold. unfold call_optimize_css, mret at 1, M_ret at 1.
  rewrite bind_unfold. unfold py_get at 1, mret at 1, M_ret at 1.
  rewrite bind_unfold. unfold py_get at 1, mret at 1, M_ret at 1.
  unfold success_result. rewrite Hjs, Hseo, Himages. reflexivity.
Qed.

(** X5.  A reply that decodes to the empty object is not an error: with
    validators that accept the empty string and the empty object, the
    result is a success whose document is empty and whose stylesheet is
    the base stylesheet followed by a line break. *)
Theorem generate_website_empty_object_reply (request : GenerationRequest)
    (t0 t1 : Z) (w : World) (content : string) (rest : list (option string))
    (images : list string) :
  chat_completions_create base_prompt (_build_generation_prompt request)
    = inr (Some content :: rest) ->
  json_loads (str_strip content) = inr (JDict []) ->
  pydantic_str (JStr "") = Some "" ->
  pydantic_dict_str_str (JDict []) = Some [] ->
  all_str (map image_url (req_images request)) = Some images ->
  generate_website request t0 t1 w =
    (Ret {| res_status := "success";
            res_site_name := req_site_name request;
            res_generation_id := "";
            html_content := "";
            css_content := base_css +:+ nl;
            js_content := "";
            seo_meta := [];
            images_used := images;
            generation_time := (t1 - t0)%Z;
            error_message := "" |},
     log_call w base_prompt (_build_generation_prompt request)).
Proof.
  intros Hllm Hjson Hstr Hdict Himages.
  unfold generate_website, try_except, generate_website_try. cbv zeta.
  rewrite bind_unfold. unfold create_completion at 1. rewrite Hllm.
  rewrite bind_unfold. unfold first_choice_content, mret at 1, M_ret at 1.
  rewrite bind_unfold. unfold _parse_response. rewrite Hjson.
  unfold mret at 1, M_ret at 1.
  rewrite bind_unfold. unfold py_get at 1, mret at 1, M_ret at 1.
  rewrite bind_unfold. unfold call_optimize_html at 1.
  change (from_option id (JStr "") (assoc "html" [])) with (JStr "").
  cbv iota. unfold mret at 1, M_ret at 1.
  rewrite bind_unfold. unfold py_get at 1, mret at 1, M_ret at 1.
  rewrite bind_unfold. unfold call_optimize_css at 1.
  change (from_option id (JStr "") (assoc "css" [])) with (JStr "").
  cbv iota. unfold mret at 1, M_ret at 1.
  rewrite bind_unfold. unfold py_get at 1, mret at 1, M_ret at 1.
  rewrite bind_unfold. unfold py_get at 1, mret at 1, M_ret at 1.
  unfold success_result.
  change (from_option id (JStr "") (assoc "js" [])) with (JStr "").
  change (from_option id (JDict []) (assoc "seo" [])) with (JDict []).
  rewrite Hstr, Hdict, Himages.
  unfold _optimize_css. rewrite append_empty_r. reflexivity.
Qed.

(** X6.  A reply that decodes to something that is not an object, or to
    an object whose html member is not a string, or whose html member is
    a string and whose css member is not, comes back as an error result
    that carries the message of the Python error and the elapsed time. *)
Theorem generate_website_misshapen_reply (request : GenerationRequest)
    (t0 t1 : Z) (w : World) (content : string) (rest : list (option string))
    (v : json) :
  chat_completions_create base_prompt (_build_generation_prompt request)
    = inr (Some content :: rest) ->
  json_loads (str_strip content) = inr v ->
  ((forall members, v <> JDict members) ->
   generate_website request t0 t1 w =
     (Ret (error_result
             ("'" +:+ type_name v +:+ "' object has no attribute 'get'")
             (t1 - t0)),
      log_call w base_prompt (_build_generation_prompt request)))
  /\ (forall members x,
        v = JDict members ->
        from_option id (JStr "") (assoc "html" members) = x ->
        (forall s, x <> JStr s) ->
        generate_website request t0 t1 w =
          (Ret (error_result
                  ("'" +:+ type_name x +:+ "' object has no attribute 'lower'")
                  (t1 - t0)),
           log_call w base_prompt (_build_generation_prompt request)))
  /\ (forall members html x,
        v = JDict members ->
        from_option id (JStr "") (assoc "html" members) = JStr html ->
        from_option id (JStr "") (assoc "css" members) = x ->
        (forall s, x <> JStr s) ->
        generate_website request t0 t1 w =
          (Ret (error_result
                  ("can only concatenate str (not " +:+ dq +:+ type_name x
                     +:+ dq +:+ ") to str")
                  (t1 - t0)),
           log_call w base_prompt (_build_generation_prompt request))).
Proof.
  intros Hllm Hjson.
  split; [|split].
  - intros Hv.
    unfold generate_website, try_except, generate_website_try. cbv zeta.
    rewrite bind_unfold. unfold create_completion at 1. rewrite Hllm.
    rewrite bind_unfold. unfold first_choice_content, mret at 1, M_ret at 1.
    rewrite bind_unfold. unfold _parse_response. rewrite Hjson.
    unfold mret at 1, M_ret at 1. rewrite bind_unfold.
    destruct v; try reflexivity. now destruct (Hv members).
  - intros members x -> Hx Hns.
    unfold generate_website, try_except, generate_website_try. cbv zeta.
    rewrite bind_unfold. unfold create_completion at 1. rewrite Hllm.
    rewrite bind_unfold. unfold first_choice_content, mret at 1, M_ret at 1.
    rewrite bind_unfold. unfold _parse_response. rewrite Hjson.
    unfold mret at 1, M_ret at 1.
    rewrite bind_unfold. unfold py_get at 1, mret at 1, M_ret at 1. rewrite Hx.
    rewrite bind_unfold.
    destruct x; try reflexivity. now destruct (Hns s).
  - intros members html x -> Hhtml Hx Hns.
    unfold generate_website, try_except, generate_website_try. cbv zeta.
    rewrite bind_unfold. unfold create_completion at 1. rewrite Hllm.
    rewrite bind_unfold. unfold first_choice_content, mret at 1, M_ret at 1.
    rewrite bind_unfold. unfold _parse_response. rewrite Hjson.
    unfold mret at 1, M_ret at 1.
    rewrite bind_unfold. unfold py_get at 1, mret at 1, M_ret at 1.
    rewrite Hhtml.
    rewrite bind_unfold. unfold call_optimize_html, mret at 1, M_ret at 1.
    rewrite bind_unfold. unfold py_get at 1, mret at 1, M_ret at 1. rewrite Hx.
    rewrite bind_unfold.
    destruct x; try reflexivity. now destruct (Hns s).
Qed.

(** X7.  A reply without text comes back as an error result: when the
    reply has no choices the message is that of the index error, when the
    content of its first choice is absent the message is that of the
    attribute error on [None]. *)
Theorem generate_website_reply_without_text (request : GenerationRequest)
    (t0 t1 : Z) (w : World) :
  (chat_completions_create base_prompt (_build_generation_prompt request)
     = inr [] ->
   generate_website request t0 t1 w =
     (Ret (error_result "list index out of range" (t1 - t0)),
      log_call w base_prompt (_build_generation_prompt request)))
  /\ (forall rest,
        chat_completions_create base_prompt (_build_generation_prompt request)
          = inr (None :: rest) ->
        generate_website request t0 t1 w =
          (Ret (error_result "'NoneType' object has no attribute 'strip'"
                  (t1 - t0)),
           log_call w base_prompt (_build_generation_prompt request))).
Proof.
  split.
  - intros Hllm.
    unfold generate_website, try_except, generate_website_try. cbv zeta.
    rewrite bind_unfold. unfold create_completion at 1. rewrite Hllm.
    reflexivity.
  - intros rest Hllm.
    unfold generate_website, try_except, generate_website_try. cbv zeta.
    rewrite bind_unfold. unfold create_completion at 1. rewrite Hllm.
    reflexivity.
Qed.

End AgentMore.

(** ** More on the orchestrator *)


(** ** Where the viewport tag is put *)

Section ViewportClaim.
Import PyStr Inert Checks WebsiteAgent Fake.









End ViewportClaim.

Section OrchestratorMore.
Import PyStr Types Files Observations Main.
Context `{Runtime}.

Lemma cache_key_ne_status_key (h g : string) :
  "generation:" +:+ h <> "status:" +:+ g.
Proof. intros Heq. rewrite !append_cons in Heq. discriminate. Qed.

Lemma status_key_ne (g g' : string) :
  g <> g' -> "status:" +:+ g <> "status:" +:+ g'.
Proof. apply site_path_ne. Qed.

Lemma redis_get_setex_at (r : Redis) (now now' : Z) (key : string) (ttl : Z)
    (v : RedisValue) :
  redis_get (redis_setex r now key ttl v) now' key =
    if (now' <? now + ttl)%Z then Some v else None.
Proof. unfold redis_get, redis_setex. simpl. now rewrite lookup_insert_eq. Qed.

Lemma redis_get_setex_other (r : Redis) (now now' : Z) (key key' : string)
    (ttl : Z) (v : RedisValue) :
  key <> key' ->
  redis_get (redis_setex r now key ttl v) now' key' = redis_get r now' key'.
Proof.
  intros Hne. unfold redis_get, redis_setex. simpl.
  now rewrite lookup_insert_ne.
Qed.

Lemma cache_entry_with_status_other (w : World) (t : Z) (s : GenerationStatus)
    (now : Z) (k : string) :
  "status:" +:+ generation_id s <> k ->
  cache_entry (with_status w t s) now k = cache_entry w now k.
Proof.
  intros Hne. unfold cache_entry, with_status.
  destruct (redis_client w) eqn:Hr; [|now rewrite Hr].
  simpl. now apply redis_get_setex_other.
Qed.

Lemma cache_entry_with_status_same (w : World) (r : Redis) (t : Z)
    (s : GenerationStatus) (now : Z) :
  redis_client w = Some r ->
  cache_entry (with_status w t s) now ("status:" +:+ generation_id s) =
    if (now <? t + 3600)%Z then Some (StatusJson s) else None.
Proof.
  intros Hr. unfold cache_entry, with_status. rewrite Hr. simpl.
  apply redis_get_setex_at.
Qed.

Lemma cache_entry_with_cache_other (w : World) (t : Z) (key gid : string)
    (now : Z) (k : string) :
  key <> k ->
  cache_entry (with_cache w t key gid) now k = cache_entry w now k.
Proof.
  intros Hne. unfold cache_entry, with_cache.
  destruct (redis_client w) eqn:Hr; [|now rewrite Hr].
  simpl. now apply redis_get_setex_other.
Qed.

Lemma cache_entry_with_cache_same (w : World) (r : Redis) (t : Z)
    (key gid : string) (now : Z) :
  redis_client w = Some r ->
  cache_entry (with_cache w t key gid) now key =
    if (now <? t + 86400)%Z then Some (CacheJson gid (site_url gid)) else None.
Proof.
  intros Hr. unfold cache_entry, with_cache. rewrite Hr. simpl.
  apply redis_get_setex_at.
Qed.

Lemma redis_present_with_status (w : World) (t : Z) (s : GenerationStatus) :
  is_Some (redis_client w) -> is_Some (redis_client (with_status w t s)).
Proof. intros [r Hr]. unfold with_status. rewrite Hr. simpl. eauto. Qed.

Lemma redis_present_with_cache (w : World) (t : Z) (key gid : string) :
  is_Some (redis_client w) -> is_Some (redis_client (with_cache w t key gid)).
Proof. intros [r Hr]. unfold with_cache. rewrite Hr. simpl. eauto. Qed.

Lemma fs_with_cache (w : World) (t : Z) (key gid : string) :
  fs (with_cache w t key gid) = fs w.
Proof. unfold with_cache. destruct (redis_client w); reflexivity. Qed.

Lemma oblivious_bind {A B : Type} (m : M A) (f : A -> M B) :
  (forall w w', (m w).1 = (m w').1) ->
  (forall a w w', (f a w).1 = (f a w').1) ->
  forall w w', ((m ≫= f) w).1 = ((m ≫= f) w').1.
Proof.
  intros Hm Hf w w'. rewrite !bind_unfold. specialize (Hm w w').
  destruct (m w) as [[a|e] w1], (m w') as [[a'|e'] w1']; simpl in *;
    try discriminate; injection Hm as <-; [apply Hf | reflexivity].
Qed.

(** What the generation client returns depends on the request, the clock
    and the runtime, not on the world. *)
Lemma generate_website_outcome_fixed (request : GenerationRequest)
    (t0 t1 : Z) (w w' : World) :
  (WebsiteAgent.generate_website request t0 t1 w).1 =
    (WebsiteAgent.generate_website request t0 t1 w').1.
Proof.
  unfold WebsiteAgent.generate_website, try_except.
  assert (Hbody :
    (WebsiteAgent.generate_website_try request t0 t1 w).1 =
      (WebsiteAgent.generate_website_try request t0 t1 w').1).
  { unfold WebsiteAgent.generate_website_try. cbv zeta.
    apply oblivious_bind.
    { intros v v'. unfold WebsiteAgent.create_completion.
      destruct (chat_completions_create _ _); reflexivity. }
    intros response. apply oblivious_bind.
    { intros v v'. destruct response; reflexivity. }
    intros content. apply oblivious_bind.
    { intros v v'. unfold WebsiteAgent._parse_response.
      destruct content as [content|]; [|reflexivity].
      destruct (json_loads (str_strip content)); reflexivity. }
    intros result_data. apply oblivious_bind.
    { intros v v'. destruct result_data; reflexivity. }
    intros html. apply oblivious_bind.
    { intros v v'. destruct html; reflexivity. }
    intros optimized_html. apply oblivious_bind.
    { intros v v'. destruct result_data; reflexivity. }
    intros css. apply oblivious_bind.
    { intros v v'. destruct css; reflexivity. }
    intros optimized_css. apply oblivious_bind.
    { intros v v'. destruct result_data; reflexivity. }
    intros js. apply oblivious_bind.
    { intros v v'. destruct result_data; reflexivity. }
    intros seo v v'. unfold WebsiteAgent.success_result.
    destruct (pydantic_str js), (pydantic_dict_str_str seo),
      (WebsiteAgent.all_str _); reflexivity. }
  destruct (WebsiteAgent.generate_website_try request t0 t1 w) as [[a|e] w1],
    (WebsiteAgent.generate_website_try request t0 t1 w') as [[a'|e'] w1'];
    simpl in *; try discriminate; injection Hbody as <-; reflexivity.
Qed.

(** The world that a background run leaves on a healthy file system, for
    the result that the client returns, when that result can be
    encoded. *)
Lemma process_generation_finished (t0 t1 : Z) (gid : string)
    (request : GenerationRequest) (key : string) (w : World)
    (result : GenerationResult) :
  fault (fs w) = None ->
  (WebsiteAgent.generate_website request t0 t1 w).1 = Ret result ->
  result_encodable result = true ->
  let w3 :=
    with_status
      (log_call (with_status w t0 (generating gid)) WebsiteAgent.base_prompt
         (WebsiteAgent._build_generation_prompt request))
      t1 (optimizing gid) in
  exists f',
    fs w3 = fs w
    /\ save_generation_result t1 gid result w3 = (Ret tt, set_fs w3 f')
    /\ process_generation t0 t1 gid request key w =
         (Ret tt,
          with_status (with_cache (set_fs w3 f') t1 key gid) t1 (completed gid)).
Proof.
  intros Hf Hres Henc w3.
  destruct (process_generation_run t0 t1 gid request key w)
    as (result' & o & f' & Hagent & Hfs & Hsave & Hrun).
  rewrite (generate_website_outcome_fixed request t0 t1 w
             (with_status w t0 (generating gid))), Hagent in Hres.
  injection Hres as ->.
  fold w3 in Hfs, Hsave, Hrun.
  assert (Hf3 : fault (fs w3) = None) by (now rewrite Hfs).
  pose proof (save_generation_result_run t1 gid result w3 Hf3 Henc) as Hsave'.
  rewrite Hsave' in Hsave. injection Hsave as <- <-.
  eexists. split; [exact Hfs|]. split; [exact Hsave'|]. exact Hrun.
Qed.

(** The world that a background run leaves when the save of the result
    that the client returns raises. *)
Lemma process_generation_failed (t0 t1 : Z) (gid : string)
    (request : GenerationRequest) (key : string) (w : World)
    (result : GenerationResult) (e : Exn) :
  (WebsiteAgent.generate_website request t0 t1 w).1 = Ret result ->
  (save_generation_result t1 gid result w).1 = Raise e ->
  let w3 :=
    with_status
      (log_call (with_status w t0 (generating gid)) WebsiteAgent.base_prompt
         (WebsiteAgent._build_generation_prompt request))
      t1 (optimizing gid) in
  process_generation t0 t1 gid request key w =
    (Ret tt,
     with_status (set_fs w3 (fs (save_generation_result t1 gid result w).2))
       t1 (failed gid (exn_str e))).
Proof.
  intros Hres Hraise w3.
  destruct (process_generation_run t0 t1 gid request key w)
    as (result' & o & f' & Hagent & Hfs & Hsave & Hrun).
  rewrite (generate_website_outcome_fixed request t0 t1 w
             (with_status w t0 (generating gid))), Hagent in Hres.
  injection Hres as ->.
  fold w3 in Hfs, Hsave, Hrun.
  destruct (save_generation_result_transport t1 gid result w w3 Hfs)
    as (Ho & Hf' & _).
  rewrite Hsave in Ho, Hf'. simpl in Ho, Hf'.
  rewrite Hraise in Ho. subst o. rewrite <- Hf'. exact Hrun.
Qed.

Lemma save_generation_result_dir (now : Z) (gid : string)
    (result : GenerationResult) (w : World) :
  failure_of (fs w) (site_dir_of gid) = None ->
  site_dir_of gid ∈ dirs (fs (save_generation_result now gid result w).2).
Proof.
  intros Hfail. unfold save_generation_result. cbv zeta.
  rewrite bind_unfold. unfold mkdir at 1. rewrite Hfail. cbv beta.
  match goal with
  | |- _ ∈ dirs (fs (?m ?v).2) =>
      assert (Hconf : confined (site_file gid) (fun _ => false) m);
        [|destruct (Hconf v) as (_ & _ & _ & _ & _ & Hup & _); apply Hup;
          simpl; apply elem_of_union_l, elem_of_singleton; reflexivity]
  end.
  apply confined_bind.
  { destruct (negb _); [|apply confined_ret].
    apply confined_write_text, site_file_intro. auto. }
  intros _. apply confined_bind.
  { destruct (negb _); [|apply confined_ret].
    apply confined_write_text, site_file_intro. auto. }
  intros _. apply confined_bind.
  { destruct (negb _); [|apply confined_ret].
    apply confined_write_text, site_file_intro. auto. }
  intros _. apply confined_write_text, site_file_intro. auto.
Qed.

(** X8.  [save_generation_result] on a healthy file system changes the
    disk only inside the directory of its generation: it creates that
    directory, and every file other than index.html, styles.css, script.js
    and meta.json of that directory is left as it was; Redis, the record
    of endpoint calls and the background tasks are not touched. *)
Theorem save_generation_result_touches_only_its_files (now : Z) (gid : string)
    (result : GenerationResult) (w : World) (p : string) :
  fault (fs w) = None ->
  p <> site_dir_of gid +:+ "/index.html" ->
  p <> site_dir_of gid +:+ "/styles.css" ->
  p <> site_dir_of gid +:+ "/script.js" ->
  p <> site_dir_of gid +:+ "/meta.json" ->
  let w' := (save_generation_result now gid result w).2 in
  files (fs w') !! p = files (fs w) !! p
  /\ dirs (fs w') = {[site_dir_of gid]} ∪ dirs (fs w)
  /\ redis_client w' = redis_client w
  /\ llm_calls w' = llm_calls w
  /\ background_tasks w' = background_tasks w.
Proof.
  intros Hf Hindex Hcss Hjs Hmeta w'. unfold w'.
  pose proof (save_generation_result_confined now gid result w)
    as (Hr & Hl & Hb & _ & Hfiles & Hup & Hdown).
  split; [apply Hfiles, site_file_other; assumption|].
  split; [|auto].
  apply set_eq. intros q. rewrite elem_of_union, elem_of_singleton. split.
  - intros Hin. destruct (decide (q = site_dir_of gid)) as [->|Hne];
      [now left | right].
    apply Hdown; [now apply bool_decide_eq_false_2 | exact Hin].
  - intros [->|Hin]; [|now apply Hup].
    apply save_generation_result_dir, failure_of_healthy, Hf.
Qed.



Lemma status_entry_cache_entry (w : World) (now : Z) (gid : string) :
  status_entry w now gid = cache_entry w now ("status:" +:+ gid).
Proof. reflexivity. Qed.

Lemma saved_index (now : Z) (gid : string) (result : GenerationResult)
    (w : World) (f' : FS) :
  fault (fs w) = None ->
  result_encodable result = true ->
  save_generation_result now gid result w = (Ret tt, set_fs w f') ->
  dirs f' = {[site_dir_of gid]} ∪ dirs (fs w)
  /\ files f' !! (site_dir_of gid +:+ "/index.html") =
       if bool_decide (html_content result = "")
       then files (fs w) !! (site_dir_of gid +:+ "/index.html")
       else Some (Text (html_content result)).
Proof.
  intros Hf Henc Hsave.
  rewrite save_generation_result_run in Hsave by assumption.
  injection Hsave as <-. simpl. split; [reflexivity|].
  rewrite lookup_insert_ne by (apply site_path_ne; discriminate).
  unfold write_if.
  destruct (negb (bool_decide (js_content result = "")));
    [rewrite lookup_insert_ne by (apply site_path_ne; discriminate)|];
    (destruct (negb (bool_decide (css_content result = "")));
     [rewrite lookup_insert_ne by (apply site_path_ne; discriminate)|]);
    (destruct (bool_decide (html_content result = "")); simpl;
     [reflexivity | apply lookup_insert_eq]).
Qed.

Lemma index_ne_site_dir (gid : string) :
  site_dir_of gid +:+ "/index.html" <> site_dir_of gid.
Proof.
  intros Heq. apply (f_equal String.length) in Heq.
  rewrite length_append in Heq. simpl in Heq. lia.
Qed.

Lemma status_entry_failed_run (w3 : World) (r : Redis) (f' : FS) (t1 : Z)
    (s : GenerationStatus) (now : Z) :
  redis_client w3 = Some r ->
  status_entry (with_status (set_fs w3 f') t1 s) now (generation_id s) =
    if (now <? t1 + 3600)%Z then Some (StatusJson s) else None.
Proof.
  intros Hr. rewrite status_entry_cache_entry.
  now apply (cache_entry_with_status_same (set_fs w3 f') r).
Qed.

(** X11.  When the save of the result raises, because the file system
    fails at one of the files or because a payload cannot be encoded, the
    background run returns normally, the status of the generation is the
    error status that carries the message of the exception for the hour
    that follows, and the cache entry of the submission is not written.
    The disk is left as the failed save left it: files of other
    generations are as they were, but files of this generation that were
    written before the failure stay, so that a poll made after the error
    status has expired answers completed when the index.html is among
    them. *)
Theorem process_generation_save_failure (t0 t1 : Z) (gid : string)
    (request : GenerationRequest) (h : string) (w : World) (r : Redis)
    (result : GenerationResult) (e : Exn) :
  redis_client w = Some r ->
  (WebsiteAgent.generate_website request t0 t1 w).1 = Ret result ->
  (save_generation_result t1 gid result w).1 = Raise e ->
  let run := process_generation t0 t1 gid request ("generation:" +:+ h) w in
  run.1 = Ret tt
  /\ (forall now,
        (now < t1 + 3600)%Z ->
        status_entry run.2 now gid =
          Some (StatusJson
                  {| generation_id := gid; status := "error"; progress := 0;
                     message := "Ошибка генерации"; result_url := None;
                     error := Some (exn_str e) |}))
  /\ (forall now,
        cache_entry run.2 now ("generation:" +:+ h) =
          cache_entry w now ("generation:" +:+ h))
  /\ fs run.2 = fs (save_generation_result t1 gid result w).2
  /\ (forall p,
        site_file gid p = false -> files (fs run.2) !! p = files (fs w) !! p)
  /\ (forall now,
        (t1 + 3600 <= now)%Z ->
        path_exists (fs run.2) (site_dir_of gid) = true ->
        path_exists (fs run.2) (site_dir_of gid +:+ "/index.html") = true ->
        get_generation_status now gid run.2 =
          (Ret {| generation_id := gid; status := "completed";
                  progress := 100; message := "Генерация завершена";
                  result_url := Some ("/sites/" +:+ gid +:+ "/index.html");
                  error := None |}, run.2)).
Proof.
  intros Hr Hres Hraise run.
  pose proof (process_generation_failed t0 t1 gid request ("generation:" +:+ h)
                w result e Hres Hraise) as Hrun.
  cbv zeta in Hrun. unfold run. rewrite Hrun. clear Hrun run. simpl.
  set (w3 := with_status
               (log_call (with_status w t0 (generating gid))
                  WebsiteAgent.base_prompt
                  (WebsiteAgent._build_generation_prompt request))
               t1 (optimizing gid)).
  destruct (redis_present_with_status
              (log_call (with_status w t0 (generating gid))
                 WebsiteAgent.base_prompt
                 (WebsiteAgent._build_generation_prompt request))
              t1 (optimizing gid)) as [r3 Hr3].
  { simpl. apply redis_present_with_status. rewrite Hr. eauto. }
  fold w3 in Hr3.
  assert (Hentry : forall now,
    status_entry
      (with_status (set_fs w3 (fs (save_generation_result t1 gid result w).2))
         t1 (failed gid (exn_str e))) now gid =
      if (now <? t1 + 3600)%Z
      then Some (StatusJson (failed gid (exn_str e))) else None).
  { intros now.
    exact (status_entry_failed_run w3 r3 _ t1 (failed gid (exn_str e)) now Hr3). }
  split; [reflexivity|]. split; [|split; [|split; [|split]]].
  - intros now Hnow. rewrite Hentry.
    destruct (Z.ltb_spec now (t1 + 3600)); [reflexivity | lia].
  - intros now.
    rewrite cache_entry_with_status_other
      by (intros Heq; exact (cache_key_ne_status_key h gid (eq_sym Heq))).
    change (cache_entry (set_fs ?x _) now ?k) with (cache_entry x now k).
    unfold w3.
    rewrite cache_entry_with_status_other
      by (intros Heq; exact (cache_key_ne_status_key h gid (eq_sym Heq))).
    change (cache_entry (log_call ?x _ _) now ?k) with (cache_entry x now k).
    now rewrite cache_entry_with_status_other
      by (intros Heq; exact (cache_key_ne_status_key h gid (eq_sym Heq))).
  - now rewrite fs_with_status.
  - intros p Hp. rewrite fs_with_status. simpl.
    now apply (save_generation_result_confined t1 gid result w).
  - intros now Hnow Hdir Hindex.
    apply get_generation_status_file; [|exact Hdir|exact Hindex].
    rewrite Hentry. destruct (Z.ltb_spec now (t1 + 3600)); [lia|reflexivity].
Qed.

Lemma has_surrogate_nonempty (s : string) :
  has_surrogate s = true -> s <> "".
Proof. intros Hs ->. discriminate. Qed.

(** The save of a result whose document cannot be encoded, on a healthy
    file system. *)
Lemma save_generation_result_unencodable_html (now : Z) (gid : string)
    (result : GenerationResult) (w : World) :
  fault (fs w) = None ->
  has_surrogate (html_content result) = true ->
  save_generation_result now gid result w =
    (Raise (Exception (unicode_encode_error (Text (html_content result)))),
     set_fs w {| dirs := {[site_dir_of gid]} ∪ dirs (fs w);
                 files := <[site_dir_of gid +:+ "/index.html" := Text ""]>
                            (files (fs w));
                 fault := None |}).
Proof.
  intros Hf Hs. unfold save_generation_result. cbv zeta.
  rewrite bind_unfold, mkdir_run by exact Hf.
  rewrite bind_unfold.
  rewrite (bool_decide_eq_false_2 (html_content result = ""))
    by (now apply has_surrogate_nonempty).
  change (negb false) with true. cbv iota.
  rewrite write_text_unencodable; [reflexivity | reflexivity |].
  simpl. now rewrite Hs.
Qed.

(** X24.  A reply whose document holds a lone surrogate, which the JSON
    decoder accepts, makes the run fail on a healthy disk: the write of
    index.html raises, the status of the generation is the error status
    with the message of the encoder for the hour that follows, no cache
    entry is written and meta.json is left as it was.  The index.html
    that the failed write leaves is empty but there, so that from the end
    of that hour on a poll answers completed for the generation. *)
Theorem unencodable_document_ends_in_error (t0 t1 : Z) (gid : string)
    (request : GenerationRequest) (h : string) (w : World) (r : Redis)
    (result : GenerationResult) :
  redis_client w = Some r ->
  fault (fs w) = None ->
  (WebsiteAgent.generate_website request t0 t1 w).1 = Ret result ->
  has_surrogate (html_content result) = true ->
  let run := process_generation t0 t1 gid request ("generation:" +:+ h) w in
  (forall now,
      (now < t1 + 3600)%Z ->
      get_generation_status now gid run.2 =
        (Ret {| generation_id := gid; status := "error"; progress := 0;
                message := "Ошибка генерации"; result_url := None;
                error :=
                  Some (unicode_encode_error (Text (html_content result))) |},
         run.2))
  /\ (forall now,
        cache_entry run.2 now ("generation:" +:+ h) =
          cache_entry w now ("generation:" +:+ h))
  /\ files (fs run.2) !! (site_dir_of gid +:+ "/index.html") = Some (Text "")
  /\ files (fs run.2) !! (site_dir_of gid +:+ "/meta.json") =
       files (fs w) !! (site_dir_of gid +:+ "/meta.json")
  /\ (forall now,
        (t1 + 3600 <= now)%Z ->
        get_generation_status now gid run.2 =
          (Ret {| generation_id := gid; status := "completed";
                  progress := 100; message := "Генерация завершена";
                  result_url := Some ("/sites/" +:+ gid +:+ "/index.html");
                  error := None |}, run.2)).
Proof.
  intros Hr Hf Hres Hs run.
  pose proof (save_generation_result_unencodable_html t1 gid result w Hf Hs)
    as Hsave.
  assert (Hraise : (save_generation_result t1 gid result w).1 =
            Raise (Exception
                     (unicode_encode_error (Text (html_content result)))))
    by (now rewrite Hsave).
  destruct (process_generation_save_failure t0 t1 gid request h w r result _
              Hr Hres Hraise)
    as (_ & Hstatus & Hcache & Hfs & _ & Hlate).
  fold run in Hstatus, Hcache, Hfs, Hlate.
  rewrite Hsave in Hfs. simpl in Hfs.
  split; [|split; [exact Hcache|split; [|split]]].
  - intros now Hnow. apply get_generation_status_stored.
    now apply Hstatus.
  - rewrite Hfs. simpl. apply lookup_insert_eq.
  - rewrite Hfs. simpl.
    now rewrite lookup_insert_ne by (apply site_path_ne; discriminate).
  - intros now Hnow. apply Hlate; [exact Hnow| |].
    + unfold path_exists. rewrite Hfs. simpl.
      rewrite bool_decide_eq_true_2
        by (apply elem_of_union_l, elem_of_singleton; reflexivity).
      reflexivity.
    + unfold path_exists. rewrite Hfs. simpl.
      rewrite lookup_insert_eq.
      rewrite (bool_decide_eq_true_2 (is_Some (Some _))) by eauto.
      apply orb_true_r.
Qed.

(** X12.  A background run for one generation ID leaves the status
    entries of every other generation ID as they were, whether the run
    completes or fails. *)
Theorem process_generation_leaves_other_statuses (t0 t1 : Z) (gid : string)
    (request : GenerationRequest) (h : string) (w : World)
    (other : string) (now : Z) :
  other <> gid ->
  status_entry
    (process_generation t0 t1 gid request ("generation:" +:+ h) w).2 now other
  = status_entry w now other.
Proof.
  intros Hne.
  assert (Hkey : forall s,
            generation_id s = gid ->
            "status:" +:+ generation_id s <> "status:" +:+ other).
  { intros s ->. apply status_key_ne. congruence. }
  destruct (process_generation_run t0 t1 gid request ("generation:" +:+ h) w)
    as (result & o & f' & _ & _ & _ & Hrun).
  rewrite !status_entry_cache_entry. rewrite Hrun. simpl.
  destruct o as [u|e].
  - rewrite cache_entry_with_status_other by (now apply Hkey).
    rewrite cache_entry_with_cache_other by apply cache_key_ne_status_key.
    change (cache_entry (set_fs ?x _) now ?k) with (cache_entry x now k).
    rewrite cache_entry_with_status_other by (now apply Hkey).
    change (cache_entry (log_call ?x _ _) now ?k) with (cache_entry x now k).
    now rewrite cache_entry_with_status_other by (now apply Hkey).
  - rewrite cache_entry_with_status_other by (now apply Hkey).
    change (cache_entry (set_fs ?x _) now ?k) with (cache_entry x now k).
    rewrite cache_entry_with_status_other by (now apply Hkey).
    change (cache_entry (log_call ?x _ _) now ?k) with (cache_entry x now k).
    now rewrite cache_entry_with_status_other by (now apply Hkey).
Qed.

(** A poll that finds no status entry after a result was saved. *)
Lemma poll_after_save (saved_at now : Z) (gid : string)
    (result : GenerationResult) (w0 : World) (f' : FS) (w' : World) :
  fault (fs w0) = None ->
  result_encodable result = true ->
  save_generation_result saved_at gid result w0 = (Ret tt, set_fs w0 f') ->
  fs w' = f' ->
  status_entry w' now gid = None ->
  (html_content result <> "" ->
   get_generation_status now gid w' = (Ret (completed gid), w'))
  /\ (html_content result = "" ->
      path_exists (fs w0) (site_dir_of gid +:+ "/index.html") = false ->
      get_generation_status now gid w' =
        (Raise (HTTPException 404 "Генерация не найдена"), w')).
Proof.
  intros Hf Henc Hsave Hfs Hstatus.
  destruct (saved_index saved_at gid result w0 f' Hf Henc Hsave)
    as (Hdirs & Hindex).
  split.
  - intros Hhtml. apply get_generation_status_file; [exact Hstatus| |].
    + unfold path_exists. rewrite Hfs, Hdirs.
      rewrite bool_decide_eq_true_2
        by (apply elem_of_union_l, elem_of_singleton; reflexivity).
      reflexivity.
    + unfold path_exists. rewrite Hfs, Hindex.
      rewrite (bool_decide_eq_false_2 (html_content result = "")) by exact Hhtml.
      rewrite (bool_decide_eq_true_2 (is_Some (Some _))) by eauto.
      apply orb_true_r.
  - intros Hhtml Habsent.
    apply get_generation_status_missing; [exact Hstatus|].
    unfold path_exists in *. apply orb_false_iff in Habsent as [Hd Hfl].
    rewrite Hfs, Hdirs, Hindex.
    rewrite (bool_decide_eq_true_2 (html_content result = "")) by exact Hhtml.
    rewrite Hfl, orb_false_r.
    apply bool_decide_eq_false_2. apply bool_decide_eq_false_1 in Hd.
    intros Hin. apply elem_of_union in Hin as [Hin|Hin]; [|contradiction].
    apply elem_of_singleton in Hin. exact (index_ne_site_dir gid Hin).
Qed.


(** X13.  After a background run on a present Redis and a healthy file
    system, when the result that the generation client returned can be
    encoded, every submission with valid devices whose site name,
    description and style give the cache key of the run is answered from
    the cache for the 24 hours that follow, with a completed status and
    without a change of the world, whatever its theme, devices, flags and
    images are; from the end of the 24 hours on the key holds no
    entry. *)
Theorem finished_run_is_served_from_cache (t0 t1 : Z) (gid : string)
    (request : GenerationRequest) (w : World) (r : Redis)
    (result : GenerationResult) (site_name description style : string) :
  redis_client w = Some r ->
  fault (fs w) = None ->
  (WebsiteAgent.generate_website request t0 t1 w).1 = Ret result ->
  result_encodable result = true ->
  let key :=
    "generation:" +:+ md5_hexdigest (site_name +:+ description +:+ style) in
  let w' := (process_generation t0 t1 gid request key w).2 in
  (forall now theme target_devices seo_enabled multi_language images,
      (now < t1 + 86400)%Z ->
      forallb (fun device =>
                 bool_decide (device ∈ ["mobile"; "tablet"; "desktop"]))
        target_devices = true ->
      cache_entry w' now key =
        Some (CacheJson gid ("/sites/" +:+ gid +:+ "/index.html"))
      /\ (generate_website now site_name description style theme
            target_devices seo_enabled multi_language images w').2 = w'
      /\ exists st,
           (generate_website now site_name description style theme
              target_devices seo_enabled multi_language images w').1 = Ret st
           /\ status st = "completed" /\ progress st = 100%Z)
  /\ (forall now, (t1 + 86400 <= now)%Z -> cache_entry w' now key = None).
Proof.
  intros Hr Hf Hres Henc key w'.
  destruct (process_generation_finished t0 t1 gid request key w result
              Hf Hres Henc) as (f' & _ & _ & Hrun).
  assert (Hentry : forall now,
    cache_entry w' now key =
      if (now <? t1 + 86400)%Z
      then Some (CacheJson gid (site_url gid)) else None).
  { intros now. unfold w'. rewrite Hrun. simpl.
    rewrite cache_entry_with_status_other
      by (intros Heq; exact (cache_key_ne_status_key _ gid (eq_sym Heq))).
    destruct (redis_present_with_status
                (log_call (with_status w t0 (generating gid))
                   WebsiteAgent.base_prompt
                   (WebsiteAgent._build_generation_prompt request))
                t1 (optimizing gid)) as [r3 Hr3].
    { simpl. apply redis_present_with_status. rewrite Hr. eauto. }
    now apply (cache_entry_with_cache_same (set_fs _ f') r3). }
  split.
  - intros now theme target_devices seo_enabled multi_language images Hnow Hdev.
    assert (Hhit : cache_entry w' now key = Some (CacheJson gid (site_url gid))).
    { rewrite Hentry. destruct (Z.ltb_spec now (t1 + 86400)); [reflexivity|lia]. }
    split; [exact Hhit|].
    unfold generate_website, try_except.
    rewrite Hdev. change (negb true) with false. cbv iota zeta.
    rewrite bind_unfold. unfold get_world.
    unfold cache_entry, key in Hhit. rewrite Hhit.
    split; [reflexivity|]. eexists. split; [reflexivity|]. split; reflexivity.
  - intros now Hnow. rewrite Hentry.
    destruct (Z.ltb_spec now (t1 + 86400)); [lia|reflexivity].
Qed.

(** X14.  After a background run on a present Redis and a healthy file
    system, when the result that the generation client returned can be
    encoded, a poll for the generation answers the completed status from
    the status store for one hour.  From then on it answers the same
    completed status from the disk when the HTML payload of the result
    was not empty, and the 404 error when it was empty and no index.html
    of that ID was there before. *)
Theorem finished_generation_polls (t0 t1 : Z) (gid : string)
    (request : GenerationRequest) (key : string) (w : World) (r : Redis)
    (result : GenerationResult) :
  redis_client w = Some r ->
  fault (fs w) = None ->
  (WebsiteAgent.generate_website request t0 t1 w).1 = Ret result ->
  result_encodable result = true ->
  let w' := (process_generation t0 t1 gid request key w).2 in
  let done :=
    {| generation_id := gid; status := "completed"; progress := 100;
       message := "Генерация завершена";
       result_url := Some ("/sites/" +:+ gid +:+ "/index.html");
       error := None |} in
  (forall now,
      (now < t1 + 3600)%Z -> get_generation_status now gid w' = (Ret done, w'))
  /\ (forall now,
        (t1 + 3600 <= now)%Z ->
        html_content result <> "" ->
        get_generation_status now gid w' = (Ret done, w'))
  /\ (forall now,
        (t1 + 3600 <= now)%Z ->
        html_content result = "" ->
        path_exists (fs w) (site_dir_of gid +:+ "/index.html") = false ->
        get_generation_status now gid w' =
          (Raise (HTTPException 404 "Генерация не найдена"), w')).
Proof.
  intros Hr Hf Hres Henc w' done.
  destruct (process_generation_finished t0 t1 gid request key w result
              Hf Hres Henc) as (f' & Hfs & Hsave & Hrun).
  set (w3 := with_status
               (log_call (with_status w t0 (generating gid))
                  WebsiteAgent.base_prompt
                  (WebsiteAgent._build_generation_prompt request))
               t1 (optimizing gid)) in *.
  assert (Hf3 : fault (fs w3) = None) by (now rewrite Hfs).
  assert (Hentry : forall now,
    status_entry w' now gid =
      if (now <? t1 + 3600)%Z then Some (StatusJson (completed gid)) else None).
  { intros now. unfold w'. rewrite Hrun. simpl.
    rewrite status_entry_cache_entry.
    destruct (redis_present_with_cache (set_fs w3 f') t1 key gid) as [r4 Hr4].
    { simpl. unfold w3. apply redis_present_with_status. simpl.
      apply redis_present_with_status. rewrite Hr. eauto. }
    exact (cache_entry_with_status_same _ r4 t1 (completed gid) now Hr4). }
  assert (Hdisk : fs w' = f').
  { unfold w'. rewrite Hrun. simpl. now rewrite fs_with_status, fs_with_cache. }
  split; [|split].
  - intros now Hnow. apply get_generation_status_stored. rewrite Hentry.
    destruct (Z.ltb_spec now (t1 + 3600)); [reflexivity|lia].
  - intros now Hnow Hhtml.
    apply (poll_after_save t1 now gid result w3 f' w' Hf3 Henc Hsave Hdisk);
      [|exact Hhtml].
    rewrite Hentry. destruct (Z.ltb_spec now (t1 + 3600)); [lia|reflexivity].
  - intros now Hnow Hhtml Habsent.
    apply (poll_after_save t1 now gid result w3 f' w' Hf3 Henc Hsave Hdisk);
      [|exact Hhtml|now rewrite Hfs].
    rewrite Hentry. destruct (Z.ltb_spec now (t1 + 3600)); [lia|reflexivity].
Qed.

(** X15.  Without Redis a background run on a healthy file system still
    returns normally, and when the result that the generation client
    returned can be encoded it saves that result: meta.json holds its
    metadata and index.html its document when that is not empty.  Redis
    stays absent, and a poll at any time answers the completed status
    from the disk when the HTML payload of the result was not empty, and
    the 404 error when it was empty and no index.html of that ID was
    there before. *)
Theorem generation_without_redis (t0 t1 : Z) (gid : string)
    (request : GenerationRequest) (key : string) (w : World)
    (result : GenerationResult) :
  redis_client w = None ->
  fault (fs w) = None ->
  (WebsiteAgent.generate_website request t0 t1 w).1 = Ret result ->
  result_encodable result = true ->
  let run := process_generation t0 t1 gid request key w in
  run.1 = Ret tt
  /\ redis_client run.2 = None
  /\ files (fs run.2) !! (site_dir_of gid +:+ "/meta.json") =
       Some (MetaJson
               {| meta_generation_id := gid;
                  meta_site_name := res_site_name result;
                  meta_created_at := t1;
                  meta_generation_time := generation_time result;
                  meta_seo_meta := seo_meta result;
                  meta_images_used := images_used result |})
  /\ files (fs run.2) !! (site_dir_of gid +:+ "/index.html") =
       (if bool_decide (html_content result = "")
        then files (fs w) !! (site_dir_of gid +:+ "/index.html")
        else Some (Text (html_content result)))
  /\ (html_content result <> "" ->
      forall now,
        get_generation_status now gid run.2 =
          (Ret {| generation_id := gid; status := "completed"; progress := 100;
                  message := "Генерация завершена";
                  result_url := Some ("/sites/" +:+ gid +:+ "/index.html");
                  error := None |}, run.2))
  /\ (html_content result = "" ->
      path_exists (fs w) (site_dir_of gid +:+ "/index.html") = false ->
      forall now,
        get_generation_status now gid run.2 =
          (Raise (HTTPException 404 "Генерация не найдена"), run.2)).
Proof.
  intros Hr Hf Hres Henc run.
  destruct (process_generation_finished t0 t1 gid request key w result
              Hf Hres Henc) as (f' & Hfs & Hsave & Hrun).
  set (w3 := with_status
               (log_call (with_status w t0 (generating gid))
                  WebsiteAgent.base_prompt
                  (WebsiteAgent._build_generation_prompt request))
               t1 (optimizing gid)) in *.
  assert (Hf3 : fault (fs w3) = None) by (now rewrite Hfs).
  assert (Hr3 : redis_client w3 = None).
  { unfold w3. rewrite (with_status_none w) by exact Hr.
    now rewrite with_status_none. }
  assert (Hnone : redis_client run.2 = None).
  { unfold run. rewrite Hrun. simpl.
    rewrite with_cache_none by exact Hr3.
    now rewrite with_status_none. }
  assert (Hdisk : fs run.2 = f').
  { unfold run. rewrite Hrun. simpl. now rewrite fs_with_status, fs_with_cache. }
  assert (Hstatus : forall now, status_entry run.2 now gid = None).
  { intros now. unfold status_entry. now rewrite Hnone. }
  destruct (saved_index t1 gid result w3 f' Hf3 Henc Hsave) as (_ & Hindex).
  split; [unfold run; now rewrite Hrun|]. split; [exact Hnone|].
  split.
  { rewrite Hdisk.
    pose proof Hsave as Hsave'.
    rewrite save_generation_result_run in Hsave' by assumption.
    injection Hsave' as <-. simpl. apply lookup_insert_eq. }
  split; [now rewrite Hdisk, Hindex, Hfs|].
  split.
  - intros Hhtml now.
    now apply (poll_after_save t1 now gid result w3 f' run.2 Hf3 Henc Hsave
                 Hdisk).
  - intros Hhtml Habsent now.
    apply (poll_after_save t1 now gid result w3 f' run.2 Hf3 Henc Hsave Hdisk);
      [apply Hstatus | exact Hhtml | now rewrite Hfs].
Qed.

End OrchestratorMore.





(** ** The image processor *)

Section ImageProcessorFacts.
Import PyStr Types ImageProcessor.

(** X16.  [process_upload] raises the 400 error for a file whose content
    type does not begin with image/, and for every other file it returns
    a descriptor whose status is success or error: an exception of the
    processing itself is reported in the descriptor, not raised.  In
    particular it returns a descriptor for each of the three content
    types that the generate handler lets through. *)
Theorem process_upload_raises_only_for_non_images
    (processing : UploadFile -> string + ProcessedInfo)
    (upload_file : UploadFile) :
  (startswith "image/" (content_type upload_file) = false ->
   process_upload processing upload_file =
     Raise (HTTPException 400 "Файл должен быть изображением"))
  /\ (startswith "image/" (content_type upload_file) = true ->
      exists descriptor,
        process_upload processing upload_file = Ret descriptor
        /\ assoc "original_name" descriptor = Some (JStr (filename upload_file))
        /\ (assoc "status" descriptor = Some (JStr "success")
            \/ (assoc "status" descriptor = Some (JStr "error")
                /\ exists e, processing upload_file = inl e
                             /\ assoc "error" descriptor = Some (JStr e))))
  /\ (bool_decide (content_type upload_file ∈
                     ["image/jpeg"; "image/png"; "image/webp"]) = true ->
      exists descriptor, process_upload processing upload_file = Ret descriptor).
Proof.
  assert (Himage :
    startswith "image/" (content_type upload_file) = true ->
    exists descriptor,
      process_upload processing upload_file = Ret descriptor
      /\ assoc "original_name" descriptor = Some (JStr (filename upload_file))
      /\ (assoc "status" descriptor = Some (JStr "success")
          \/ (assoc "status" descriptor = Some (JStr "error")
              /\ exists e, processing upload_file = inl e
                           /\ assoc "error" descriptor = Some (JStr e)))).
  { intros Hs. unfold process_upload. rewrite Hs.
    destruct (processing upload_file) as [e|info] eqn:Hp.
    - eexists. split; [reflexivity|]. split; [reflexivity|].
      right. split; [reflexivity|]. exists e. split; reflexivity.
    - eexists. split; [reflexivity|]. split; [reflexivity|].
      left. reflexivity. }
  split; [|split].
  - intros Hs. unfold process_upload. now rewrite Hs.
  - exact Himage.
  - intros Hin. apply bool_decide_eq_true_1 in Hin.
    destruct Himage as (descriptor & Hd & _); [|eauto].
    apply list_elem_of_In in Hin. simpl in Hin.
    destruct Hin as [<-|[<-|[<-|[]]]]; reflexivity.
Qed.

(** X17.  No descriptor that [process_upload] returns has a member named
    url: the URL of a processed image is under processed_url.  Hence what
    the generation client reads from the descriptors of a request, the
    member url with the empty string as default, is the empty string for
    every image, and with a validator that accepts the empty string the
    list of the images used consists of empty strings. *)
Theorem uploaded_image_urls_are_not_read `{Runtime}
    (processing : UploadFile -> string + ProcessedInfo)
    (uploads : list UploadFile) (descriptors : list (list (string * json))) :
  Forall2 (fun upload_file descriptor =>
             process_upload processing upload_file = Ret descriptor)
    uploads descriptors ->
  pydantic_str (JStr "") = Some "" ->
  Forall (fun descriptor => assoc "url" descriptor = None) descriptors
  /\ Forall2 (fun upload_file descriptor =>
                forall info, processing upload_file = inr info ->
                  assoc "processed_url" descriptor = Some (JStr (info_url info)))
       uploads descriptors
  /\ WebsiteAgent.all_str (map WebsiteAgent.image_url descriptors) =
       Some (map (fun _ => "") descriptors).
Proof.
  intros Hall Hstr. induction Hall as [|f d uploads descriptors Hd Hall IH].
  - repeat split; constructor.
  - destruct IH as (IH1 & IH2 & IH3).
    assert (Hurl : assoc "url" d = None
                   /\ forall info, processing f = inr info ->
                        assoc "processed_url" d = Some (JStr (info_url info))).
    { unfold process_upload in Hd.
      destruct (negb (startswith "image/" (content_type f))); [discriminate|].
      destruct (processing f) as [e|info]; injection Hd as <-.
      - split; [reflexivity|]. discriminate.
      - split; [reflexivity|]. intros info' [= <-]. reflexivity. }
    destruct Hurl as (Hurl & Hprocessed).
    split; [constructor; assumption|]. split; [constructor; assumption|].
    simpl. unfold WebsiteAgent.image_url at 1. rewrite Hurl. simpl.
    now rewrite Hstr, IH3.
Qed.

End ImageProcessorFacts.

(** ** The download handler *)

Section DownloadFacts.
Import PyStr Types Files Observations Main Download.
Context `{Runtime}.

(** The members of an archive are the files below the directory, by
    their relative paths. *)
Lemma archive_of_lookup (site_dir : string) (f : FS) (name : string) :
  archive_of site_dir f !! name = files f !! (site_dir +:+ "/" +:+ name).
Proof.
  rewrite <- append_assoc. unfold archive_of. revert name.
  set (prefix := site_dir +:+ "/").
  apply (map_fold_weak_ind
           (fun (zipf m : gmap string FileContent) =>
              forall name, zipf !! name = m !! (prefix +:+ name))).
  - intros name. now rewrite !lookup_empty.
  - intros path content m zipf Hfresh IH name.
    destruct (startswith prefix path) eqn:Hs.
    + pose proof (startswith_split prefix path Hs) as Hpath.
      destruct (decide (drop (String.length prefix) path = name)) as [<-|Hne].
      * rewrite lookup_insert_eq, <- Hpath. now rewrite lookup_insert_eq.
      * rewrite lookup_insert_ne by exact Hne.
        rewrite lookup_insert_ne; [apply IH|].
        intros Heq. apply Hne. rewrite Hpath in Heq.
        now apply (String.app_inj prefix) in Heq.
    + rewrite lookup_insert_ne; [apply IH|].
      intros ->. now rewrite startswith_refl in Hs.
Qed.

(** X18.  A download for an ID whose site directory does not exist raises
    the 404 error whatever the format.  When the directory exists, every
    format other than zip answers with the path of index.html in that
    directory, whether or not that file exists, and changes nothing. *)
Theorem download_missing_site_and_raw_format (generation_id format : string)
    (d : Disk) :
  (path_exists (disk_fs d) (site_dir_of generation_id) = false ->
   download_website generation_id format d =
     (Raise (HTTPException 404 "Сайт не найден"), d))
  /\ (path_exists (disk_fs d) (site_dir_of generation_id) = true ->
      format <> "zip" ->
      download_website generation_id format d =
        (Ret {| response_path := site_dir_of generation_id +:+ "/index.html";
                response_filename := "index.html";
                response_media_type := None |}, d)).
Proof.
  split.
  - intros Hdir. unfold download_website. cbv zeta. now rewrite Hdir.
  - intros Hdir Hformat. unfold download_website. cbv zeta. rewrite Hdir.
    change (negb true) with false. cbv iota.
    now rewrite bool_decide_eq_false_2 by exact Hformat.
Qed.

(** X19.  The first zip download of a generation whose site directory
    exists, on a healthy disk, answers with the path of the archive and
    stores there an archive whose members are exactly the files below the
    site directory, each under its path relative to that directory; the
    site files and the other archives are left as they were. *)
Theorem download_builds_archive_of_site (generation_id : string) (d : Disk) :
  path_exists (disk_fs d) (site_dir_of generation_id) = true ->
  zip_files d !! zip_path_of generation_id = None ->
  fault (disk_fs d) = None ->
  let served := download_website generation_id "zip" d in
  served.1 =
    Ret {| response_path := zip_path_of generation_id;
           response_filename := "website_" +:+ generation_id +:+ ".zip";
           response_media_type := Some "application/zip" |}
  /\ disk_fs served.2 = disk_fs d
  /\ (forall other,
        other <> zip_path_of generation_id ->
        zip_files served.2 !! other = zip_files d !! other)
  /\ exists archive,
       zip_files served.2 !! zip_path_of generation_id = Some archive
       /\ forall name,
            archive !! name =
              files (disk_fs d) !! (site_dir_of generation_id +:+ "/" +:+ name).
Proof.
  intros Hdir Hzip Hf served. unfold served, download_website. cbv zeta.
  rewrite Hdir. change (negb true) with false. cbv iota.
  rewrite (bool_decide_eq_true_2 ("zip" = "zip")) by reflexivity.
  rewrite Hzip.
  rewrite (bool_decide_eq_false_2 (is_Some None)) by (intros [? ?]; discriminate).
  change (negb false) with true. cbv iota.
  unfold create_zip_archive. rewrite (failure_of_healthy _ _ Hf). simpl.
  split; [reflexivity|]. split; [reflexivity|]. split.
  - intros other Hne. now rewrite lookup_insert_ne.
  - eexists. split; [apply lookup_insert_eq|]. apply archive_of_lookup.
Qed.

(** X20.  An archive that exists is served as it is: a zip download of a
    generation whose archive is there answers with its path and changes
    nothing, whatever the site directory holds by now and whether or not
    the disk can be written.  So after a first download has built the
    archive, a later download still serves the members of the first one
    when the site files have changed in between. *)
Theorem download_serves_existing_archive (generation_id : string) (d : Disk)
    (later : FS) :
  path_exists (disk_fs d) (site_dir_of generation_id) = true ->
  zip_files d !! zip_path_of generation_id = None ->
  fault (disk_fs d) = None ->
  path_exists later (site_dir_of generation_id) = true ->
  let first := download_website generation_id "zip" d in
  let second :=
    download_website generation_id "zip"
      {| disk_fs := later; zip_files := zip_files first.2 |} in
  second.1 = first.1
  /\ second.2 = {| disk_fs := later; zip_files := zip_files first.2 |}
  /\ exists archive,
       zip_files second.2 !! zip_path_of generation_id = Some archive
       /\ forall name,
            archive !! name =
              files (disk_fs d) !! (site_dir_of generation_id +:+ "/" +:+ name).
Proof.
  intros Hdir Hzip Hf Hlater first second.
  assert (Hfirst : first =
    (Ret {| response_path := zip_path_of generation_id;
            response_filename := "website_" +:+ generation_id +:+ ".zip";
            response_media_type := Some "application/zip" |},
     {| disk_fs := disk_fs d;
        zip_files :=
          <[zip_path_of generation_id :=
              archive_of (site_dir_of generation_id) (disk_fs d)]>
            (zip_files d) |})).
  { unfold first, download_website. cbv zeta.
    rewrite Hdir. change (negb true) with false. cbv iota.
    rewrite (bool_decide_eq_true_2 ("zip" = "zip")) by reflexivity.
    rewrite Hzip.
    rewrite (bool_decide_eq_false_2 (is_Some None))
      by (intros [? ?]; discriminate).
    change (negb false) with true. cbv iota.
    unfold create_zip_archive. now rewrite (failure_of_healthy _ _ Hf). }
  assert (Hsecond : second =
    (first.1, {| disk_fs := later; zip_files := zip_files first.2 |})).
  { unfold second, download_website. cbv zeta. simpl disk_fs.
    rewrite Hlater. change (negb true) with false. cbv iota.
    rewrite (bool_decide_eq_true_2 ("zip" = "zip")) by reflexivity.
    rewrite Hfirst. simpl.
    rewrite lookup_insert_eq.
    rewrite (bool_decide_eq_true_2 (is_Some (Some _))) by eauto.
    reflexivity. }
  rewrite Hsecond. split; [reflexivity|]. split; [reflexivity|].
  rewrite Hfirst. simpl. eexists. split; [apply lookup_insert_eq|].
  apply archive_of_lookup.
Qed.

(** X21.  Persisting, on a healthy disk, a result that can be encoded
    and then downloading the generation as zip for the first time gives
    an archive whose member meta.json is the metadata of the result and
    whose member index.html is the HTML payload when that payload is not
    empty; when the payload is empty the member index.html is the file
    that was there before, if any. *)
Theorem persisted_result_is_archived (now : Z) (generation_id : string)
    (result : GenerationResult) (w : World)
    (zips : gmap string (gmap string FileContent)) :
  fault (fs w) = None ->
  result_encodable result = true ->
  zips !! zip_path_of generation_id = None ->
  let saved := (save_generation_result now generation_id result w).2 in
  let served :=
    download_website generation_id "zip"
      {| disk_fs := fs saved; zip_files := zips |} in
  exists archive,
    zip_files served.2 !! zip_path_of generation_id = Some archive
    /\ archive !! "meta.json" =
         Some (MetaJson
                 {| meta_generation_id := generation_id;
                    meta_site_name := res_site_name result;
                    meta_created_at := now;
                    meta_generation_time := generation_time result;
                    meta_seo_meta := seo_meta result;
                    meta_images_used := images_used result |})
    /\ archive !! "index.html" =
         if bool_decide (html_content result = "")
         then files (fs w) !! (site_dir_of generation_id +:+ "/index.html")
         else Some (Text (html_content result)).
Proof.
  intros Hf Henc Hzip saved served.
  pose proof (save_generation_result_run now generation_id result w Hf Henc)
    as Hrun.
  assert (Hsaved : save_generation_result now generation_id result w =
                     (Ret tt, set_fs w (fs saved))).
  { unfold saved. rewrite Hrun. reflexivity. }
  destruct (saved_index now generation_id result w (fs saved) Hf Henc Hsaved)
    as (Hdirs & Hindex).
  assert (Hmeta : files (fs saved) !! (site_dir_of generation_id +:+ "/meta.json")
                  = Some (MetaJson
                            {| meta_generation_id := generation_id;
                               meta_site_name := res_site_name result;
                               meta_created_at := now;
                               meta_generation_time := generation_time result;
                               meta_seo_meta := seo_meta result;
                               meta_images_used := images_used result |})).
  { unfold saved. rewrite Hrun. simpl. apply lookup_insert_eq. }
  assert (Hfault : fault (fs saved) = None).
  { unfold saved. now rewrite Hrun. }
  assert (Hdir : path_exists (fs saved) (site_dir_of generation_id) = true).
  { unfold path_exists. rewrite Hdirs.
    rewrite bool_decide_eq_true_2
      by (apply elem_of_union_l, elem_of_singleton; reflexivity).
    reflexivity. }
  unfold served, download_website. cbv zeta. simpl disk_fs. simpl zip_files.
  rewrite Hdir. change (negb true) with false. cbv iota.
  rewrite Hzip.
  rewrite (bool_decide_eq_false_2 (is_Some None)) by (intros [? ?]; discriminate).
  change (negb false) with true. cbv iota.
  unfold create_zip_archive. simpl disk_fs.
  rewrite (failure_of_healthy _ _ Hfault). simpl.
  eexists. split; [apply lookup_insert_eq|].
  rewrite !archive_of_lookup. split; [exact Hmeta | exact Hindex].
Qed.

End DownloadFacts.


(** ** From submission to poll *)

Section Lifecycle.
Import PyStr Types Files Observations Main.
Context `{Runtime}.

(** What a poll finds in the hour after a background run on a present
    Redis: the terminal status of the run. *)
Lemma process_generation_reports (t0 t1 : Z) (gid : string)
    (request : GenerationRequest) (key : string) (w : World) (r : Redis)
    (later : Z) :
  redis_client w = Some r ->
  (later < t1 + 3600)%Z ->
  exists answer,
    status_entry (process_generation t0 t1 gid request key w).2 later gid =
      Some (StatusJson answer)
    /\ (answer = completed gid \/ exists msg, answer = failed gid msg)
    /\ (fault (fs w) = None ->
        forall result,
          (WebsiteAgent.generate_website request t0 t1 w).1 = Ret result ->
          result_encodable result = true ->
          answer = completed gid)
    /\ llm_calls (process_generation t0 t1 gid request key w).2 =
         llm_calls w
           ++ [(WebsiteAgent.base_prompt,
                WebsiteAgent._build_generation_prompt request)].
Proof.
  intros Hr Hlater.
  destruct (process_generation_run t0 t1 gid request key w)
    as (result & o & f' & Hagent & Hfs & Hsave & Hrun).
  set (w3 := with_status
               (log_call (with_status w t0 (generating gid))
                  WebsiteAgent.base_prompt
                  (WebsiteAgent._build_generation_prompt request))
               t1 (optimizing gid)) in *.
  destruct (redis_present_with_status
              (log_call (with_status w t0 (generating gid))
                 WebsiteAgent.base_prompt
                 (WebsiteAgent._build_generation_prompt request))
              t1 (optimizing gid)) as [r3 Hr3].
  { simpl. apply redis_present_with_status. rewrite Hr. eauto. }
  fold w3 in Hr3.
  assert (Hcalls : forall x t s, llm_calls (with_status x t s) = llm_calls x).
  { intros x t s. unfold with_status. destruct (redis_client x); reflexivity. }
  assert (Hcalls' : forall x t k g,
            llm_calls (with_cache x t k g) = llm_calls x).
  { intros x t k g. unfold with_cache. destruct (redis_client x); reflexivity. }
  assert (Hlog : llm_calls w3 =
            llm_calls w
              ++ [(WebsiteAgent.base_prompt,
                   WebsiteAgent._build_generation_prompt request)]).
  { unfold w3. rewrite Hcalls. simpl. now rewrite Hcalls. }
  rewrite Hrun. simpl.
  destruct o as [u|e].
  - exists (completed gid).
    split.
    { rewrite status_entry_cache_entry.
      destruct (redis_present_with_cache (set_fs w3 f') t1 key gid)
        as [r4 Hr4]; [simpl; rewrite Hr3; eauto|].
      pose proof (cache_entry_with_status_same _ r4 t1 (completed gid) later
                    Hr4) as Hget.
      change (generation_id (completed gid)) with gid in Hget. rewrite Hget.
      destruct (Z.ltb_spec later (t1 + 3600)); [reflexivity | lia]. }
    split; [now left|]. split; [auto|].
    now rewrite Hcalls, Hcalls'.
  - exists (failed gid (exn_str e)).
    split.
    { pose proof (status_entry_failed_run w3 r3 f' t1 (failed gid (exn_str e))
                    later Hr3) as Hget.
      change (generation_id (failed gid (exn_str e))) with gid in Hget.
      rewrite Hget.
      destruct (Z.ltb_spec later (t1 + 3600)); [reflexivity | lia]. }
    split; [right; eauto|]. split; [|now rewrite Hcalls].
    intros Hf result' Hres Henc. exfalso.
    rewrite (generate_website_outcome_fixed request t0 t1 w
               (with_status w t0 (generating gid))), Hagent in Hres.
    injection Hres as ->.
    rewrite save_generation_result_run in Hsave
      by (first [now rewrite Hfs | assumption]).
    discriminate.
Qed.

(** X22.  The ID that a submission answers is the ID under which its
    background task reports: when a submission with valid devices and
    accepted images misses the cache and the one task it schedules is run
    on a present Redis, a poll for the answered ID made within the hour
    after the run answers the terminal status of that ID, completed at
    100 % or error at 0 % with a message, and the run has called the
    completion endpoint once.  The status is the completed one when the
    disk is healthy and the result that the generation client returns
    for the request of the task can be encoded. *)
Theorem submitted_generation_is_reported (now : Z)
    (site_name description style theme : string) (target_devices : list string)
    (seo_enabled multi_language : bool) (images : list UploadFile)
    (w : World) (r : Redis) (t0 t1 later : Z) :
  forallb (fun device => bool_decide (device ∈ ["mobile"; "tablet"; "desktop"]))
    target_devices = true ->
  forallb (fun image =>
             bool_decide (content_type image ∈
                            ["image/jpeg"; "image/png"; "image/webp"]))
    images = true ->
  cache_entry w now
    ("generation:" +:+ md5_hexdigest (site_name +:+ description +:+ style))
    = None ->
  redis_client w = Some r ->
  background_tasks w = [] ->
  (later < t1 + 3600)%Z ->
  let submitted :=
    generate_website now site_name description style theme target_devices
      seo_enabled multi_language images w in
  exists st task answer,
    submitted.1 = Ret st
    /\ background_tasks submitted.2 = [task]
    /\ task_generation_id task = generation_id st
    /\ (get_generation_status later (generation_id st)
          (run_task t0 t1 task submitted.2).2).1 = Ret answer
    /\ generation_id answer = generation_id st
    /\ (status answer = "completed" /\ progress answer = 100%Z
        /\ error answer = None
        \/ status answer = "error" /\ progress answer = 0%Z
           /\ is_Some (error answer))
    /\ (fault (fs w) = None ->
        forall result,
          (WebsiteAgent.generate_website (task_request task) t0 t1 w).1
            = Ret result ->
          result_encodable result = true ->
          status answer = "completed")
    /\ length (llm_calls (run_task t0 t1 task submitted.2).2)
       = S (length (llm_calls w)).
Proof.
  intros Hdev Himages Hmiss Hr Htasks Hlater submitted.
  set (gid := take 16 (sha256_hexdigest
                         (site_name +:+ description +:+ style
                            +:+ float_str now))).
  set (key := "generation:"
                +:+ md5_hexdigest (site_name +:+ description +:+ style)).
  destruct (mapM_process_image_accepted images w Himages)
    as (processed & w1 & Hloop & Hup & _).
  set (request :=
         {| req_site_name := site_name; req_description := description;
            req_style := style; req_theme := theme;
            req_target_devices := target_devices;
            req_seo_enabled := seo_enabled;
            req_multi_language := multi_language;
            req_images := processed |}).
  set (task := {| task_generation_id := gid; task_request := request;
                  task_cache_key := key |}).
  set (w2 := {| redis_client := redis_client w1; fs := fs w1;
                llm_calls := llm_calls w1;
                background_tasks := background_tasks w1 ++ [task] |}).
  assert (Hsub : submitted =
    (Ret {| generation_id := gid; status := "processing"; progress := 0;
            message := "Генерация сайта начата";
            result_url := None; error := None |}, w2)).
  { unfold submitted, generate_website, try_except.
    rewrite Hdev. change (negb true) with false. cbv iota zeta.
    rewrite bind_unfold. unfold get_world.
    unfold cache_entry in Hmiss. rewrite Hmiss.
    rewrite bind_unfold, Hloop. reflexivity. }
  destruct Hup as (Hr1 & Hl1 & Hb1 & Hfault & _).
  assert (Hr2 : redis_client w2 = Some r) by (simpl; congruence).
  destruct (process_generation_reports t0 t1 gid request key w2 r later
              Hr2 Hlater) as (answer & Hentry & Hshape & Hdone & Hcalls).
  rewrite Hsub. simpl.
  exists {| generation_id := gid; status := "processing"; progress := 0;
            message := "Генерация сайта начата";
            result_url := None; error := None |}, task, answer.
  simpl. unfold run_task. simpl.
  split; [reflexivity|].
  split; [now rewrite Hb1, Htasks|].
  split; [reflexivity|].
  split; [now rewrite (get_generation_status_stored later gid _ _ Hentry)|].
  split; [destruct Hshape as [->|[msg ->]]; reflexivity|].
  split.
  { destruct Hshape as [->|[msg ->]]; [left | right]; simpl; eauto. }
  split.
  { intros Hf result Hres Henc.
    rewrite (Hdone (eq_trans Hfault Hf) result); [reflexivity| |exact Henc].
    now rewrite (generate_website_outcome_fixed request t0 t1 w2 w). }
  rewrite Hcalls, length_app. simpl. rewrite Hl1. lia.
Qed.

End Lifecycle.


(** ** What the image processor leaves on disk *)

Section ProcessorEffects.
Import PyStr Types Files Observations ImageProcessor.
Context `{Runtime}.




End ProcessorEffects.


(** ** The later properties at concrete inputs *)

(** X1 at a document with a viewport declaration and a main element. *)
Lemma optimize_html_complete_document_unchanged_witness :
  PyStr.contains "viewport" (PyStr.lower Scenes.complete_html) = true
  /\ PyStr.contains "<img" Scenes.complete_html = false
  /\ PyStr.contains "<main>" Scenes.complete_html = true
  /\ WebsiteAgent._optimize_html Scenes.complete_html Fake.all_devices
     = Scenes.complete_html.
Proof.
  split; [reflexivity|]. split; [reflexivity|]. split; [reflexivity|].
  apply (optimize_html_complete_document_unchanged Scenes.complete_html
           Fake.all_devices); reflexivity.
Defined.

(** X2 at the document of the worked example. *)
Lemma optimize_html_body_gets_main_witness :
  PyStr.contains "<body>" Fake.bakery_html = true
  /\ PyStr.contains "<main>"
       (WebsiteAgent._optimize_html Fake.bakery_html Fake.all_devices) = true.
Proof.
  split; [reflexivity|].
  apply (optimize_html_body_gets_main Fake.bakery_html Fake.all_devices).
  reflexivity.
Defined.

(** X4 at the worked example. *)
Lemma generate_website_wellformed_reply_witness :
  @WebsiteAgent.generate_website (Fake.up "1000.25") Fake.bakery_request
    1001 1006 Fake.empty_world
  = (Types.Ret Scenes.bakery_result,
     Types.log_call Fake.empty_world WebsiteAgent.base_prompt
       (WebsiteAgent._build_generation_prompt Fake.bakery_request)).
Proof.
  apply (@generate_website_wellformed_reply (Fake.up "1000.25")
           Fake.bakery_request 1001 1006 Fake.empty_world "{}" []
           [("html", Types.JStr Fake.bakery_html); ("css", Types.JStr "");
            ("js", Types.JStr "");
            ("seo", Types.JDict [("title", Types.JStr "Bakery")])]
           Fake.bakery_html "" "" [("title", "Bakery")] []);
    reflexivity.
Defined.

(** X5 at the request of the worked example and a reply that decodes to
    the empty object. *)
Lemma generate_website_empty_object_reply_witness :
  @WebsiteAgent.generate_website (Scenes.answering (Types.JDict []))
    Fake.bakery_request 1001 1006 Fake.empty_world
  = (Types.Ret
       {| Types.res_status := "success";
          Types.res_site_name := "Bakery";
          Types.res_generation_id := "";
          Types.html_content := "";
          Types.css_content := WebsiteAgent.base_css +:+ PyStr.nl;
          Types.js_content := "";
          Types.seo_meta := [];
          Types.images_used := [];
          Types.generation_time := 5;
          Types.error_message := "" |},
     Types.log_call Fake.empty_world WebsiteAgent.base_prompt
       (WebsiteAgent._build_generation_prompt Fake.bakery_request)).
Proof.
  apply (@generate_website_empty_object_reply
           (Scenes.answering (Types.JDict [])) Fake.bakery_request 1001 1006
           Fake.empty_world "{}" [] []);
    reflexivity.
Defined.

(** X6 at replies that decode to a list, to an object whose html member
    is a number, and to an object whose css member is a number. *)
Lemma generate_website_misshapen_reply_witness :
  @WebsiteAgent.generate_website (Scenes.answering (Types.JList []))
    Fake.bakery_request 1001 1006 Fake.empty_world
  = (Types.Ret
       (WebsiteAgent.error_result "'list' object has no attribute 'get'" 5),
     Types.log_call Fake.empty_world WebsiteAgent.base_prompt
       (WebsiteAgent._build_generation_prompt Fake.bakery_request))
  /\ @WebsiteAgent.generate_website
       (Scenes.answering (Types.JDict [("html", Types.JInt 3)]))
       Fake.bakery_request 1001 1006 Fake.empty_world
     = (Types.Ret
          (WebsiteAgent.error_result "'int' object has no attribute 'lower'" 5),
        Types.log_call Fake.empty_world WebsiteAgent.base_prompt
          (WebsiteAgent._build_generation_prompt Fake.bakery_request))
  /\ @WebsiteAgent.generate_website
       (Scenes.answering
          (Types.JDict [("html", Types.JStr "<p>Hi</p>");
                        ("css", Types.JInt 3)]))
       Fake.bakery_request 1001 1006 Fake.empty_world
     = (Types.Ret
          (WebsiteAgent.error_result
             ("can only concatenate str (not " +:+ PyStr.dq +:+ "int"
                +:+ PyStr.dq +:+ ") to str") 5),
        Types.log_call Fake.empty_world WebsiteAgent.base_prompt
          (WebsiteAgent._build_generation_prompt Fake.bakery_request)).
Proof.
  split; [|split].
  - apply (@generate_website_misshapen_reply
             (Scenes.answering (Types.JList [])) Fake.bakery_request 1001 1006
             Fake.empty_world "{}" [] (Types.JList []));
      [reflexivity | reflexivity | discriminate].
  - apply (proj1 (proj2
             (@generate_website_misshapen_reply
                (Scenes.answering (Types.JDict [("html", Types.JInt 3)]))
                Fake.bakery_request 1001 1006 Fake.empty_world "{}" []
                (Types.JDict [("html", Types.JInt 3)])
                eq_refl eq_refl))
             [("html", Types.JInt 3)] (Types.JInt 3));
      [reflexivity | reflexivity | discriminate].
  - apply (proj2 (proj2
             (@generate_website_misshapen_reply
                (Scenes.answering
                   (Types.JDict [("html", Types.JStr "<p>Hi</p>");
                                 ("css", Types.JInt 3)]))
                Fake.bakery_request 1001 1006 Fake.empty_world "{}" []
                (Types.JDict [("html", Types.JStr "<p>Hi</p>");
                              ("css", Types.JInt 3)])
                eq_refl eq_refl))
             [("html", Types.JStr "<p>Hi</p>"); ("css", Types.JInt 3)]
             "<p>Hi</p>" (Types.JInt 3));
      [reflexivity | reflexivity | reflexivity | discriminate].
Defined.

(** X7 at a reply without choices and at a reply whose only choice has no
    content. *)
Lemma generate_website_reply_without_text_witness :
  @WebsiteAgent.generate_website Scenes.no_choices Fake.bakery_request
    1001 1006 Fake.empty_world
  = (Types.Ret (WebsiteAgent.error_result "list index out of range" 5),
     Types.log_call Fake.empty_world WebsiteAgent.base_prompt
       (WebsiteAgent._build_generation_prompt Fake.bakery_request))
  /\ @WebsiteAgent.generate_website Scenes.no_content Fake.bakery_request
       1001 1006 Fake.empty_world
     = (Types.Ret
          (WebsiteAgent.error_result
             "'NoneType' object has no attribute 'strip'" 5),
        Types.log_call Fake.empty_world WebsiteAgent.base_prompt
          (WebsiteAgent._build_generation_prompt Fake.bakery_request)).
Proof.
  split.
  - apply (proj1 (@generate_website_reply_without_text Scenes.no_choices
                    Fake.bakery_request 1001 1006 Fake.empty_world)).
    reflexivity.
  - apply (proj2 (@generate_website_reply_without_text Scenes.no_content
                    Fake.bakery_request 1001 1006 Fake.empty_world) []).
    reflexivity.
Defined.

(** X12 at the worked example run in a world that holds the status of
    another generation. *)
Lemma process_generation_leaves_other_statuses_witness :
  "0123456789abcdef" <> "52.0001nredometi"
  /\ Observations.status_entry
       (@Main.process_generation (Fake.up "1000.25") 1001 1006
          "52.0001nredometi" Fake.bakery_request
          ("generation:" +:+ "BakeryA cozy neighborhood bakery sitemodern")
          Fake.polled_world).2 1006 "0123456789abcdef"
     = Observations.status_entry Fake.polled_world 1006 "0123456789abcdef".
Proof.
  split; [discriminate|].
  apply (@process_generation_leaves_other_statuses (Fake.up "1000.25")
           1001 1006 "52.0001nredometi" Fake.bakery_request
           "BakeryA cozy neighborhood bakery sitemodern" Fake.polled_world
           "0123456789abcdef" 1006).
  discriminate.
Defined.

(** X16 at a PDF, at a PNG that is processed, and at a GIF on which the
    processing fails. *)
Lemma process_upload_raises_only_for_non_images_witness :
  (PyStr.startswith "image/" (Types.content_type Scenes.menu_pdf) = false
   /\ ImageProcessor.process_upload Scenes.processing Scenes.menu_pdf
      = Types.Raise (Types.HTTPException 400 "Файл должен быть изображением"))
  /\ (bool_decide (Types.content_type Scenes.logo_png ∈
                     ["image/jpeg"; "image/png"; "image/webp"]) = true
      /\ exists descriptor,
           ImageProcessor.process_upload Scenes.processing Scenes.logo_png
             = Types.Ret descriptor)
  /\ (PyStr.startswith "image/" (Types.content_type Scenes.banner_gif) = true
      /\ exists descriptor,
           ImageProcessor.process_upload Scenes.processing Scenes.banner_gif
             = Types.Ret descriptor
           /\ Types.assoc "original_name" descriptor
              = Some (Types.JStr (Types.filename Scenes.banner_gif))
           /\ (Types.assoc "status" descriptor = Some (Types.JStr "success")
               \/ (Types.assoc "status" descriptor = Some (Types.JStr "error")
                   /\ exists e,
                        Scenes.processing Scenes.banner_gif = inl e
                        /\ Types.assoc "error" descriptor
                           = Some (Types.JStr e)))).
Proof.
  split; [|split].
  - split; [reflexivity|].
    apply (proj1 (process_upload_raises_only_for_non_images Scenes.processing
                    Scenes.menu_pdf)).
    reflexivity.
  - split; [reflexivity|].
    apply (proj2 (proj2 (process_upload_raises_only_for_non_images
                           Scenes.processing Scenes.logo_png))).
    reflexivity.
  - split; [reflexivity|].
    apply (proj1 (proj2 (process_upload_raises_only_for_non_images
                           Scenes.processing Scenes.banner_gif))).
    reflexivity.
Defined.

(** X17 at a request with the two image uploads. *)
Lemma uploaded_image_urls_are_not_read_witness :
  Forall2 (fun upload_file descriptor =>
             ImageProcessor.process_upload Scenes.processing upload_file
               = Types.Ret descriptor)
    [Scenes.logo_png; Scenes.banner_gif]
    [[("status", Types.JStr "success");
      ("original_name", Types.JStr "logo.png");
      ("processed_url", Types.JStr "/uploads/optimized/logo_1a2b3c4d.webp");
      ("size", Types.JList [Types.JInt 640; Types.JInt 480]);
      ("format", Types.JStr "WEBP");
      ("file_size", Types.JInt 20480)];
     [("status", Types.JStr "error");
      ("error", Types.JStr "cannot identify image file");
      ("original_name", Types.JStr "banner.gif")]]
  /\ @WebsiteAgent.all_str (Fake.up "1000.25")
       (map WebsiteAgent.image_url
          [[("status", Types.JStr "success");
            ("original_name", Types.JStr "logo.png");
            ("processed_url",
             Types.JStr "/uploads/optimized/logo_1a2b3c4d.webp");
            ("size", Types.JList [Types.JInt 640; Types.JInt 480]);
            ("format", Types.JStr "WEBP");
            ("file_size", Types.JInt 20480)];
           [("status", Types.JStr "error");
            ("error", Types.JStr "cannot identify image file");
            ("original_name", Types.JStr "banner.gif")]])
     = Some [""; ""].
Proof.
  assert (Hdescriptors :
    Forall2 (fun upload_file descriptor =>
               ImageProcessor.process_upload Scenes.processing upload_file
                 = Types.Ret descriptor)
      [Scenes.logo_png; Scenes.banner_gif]
      [[("status", Types.JStr "success");
        ("original_name", Types.JStr "logo.png");
        ("processed_url", Types.JStr "/uploads/optimized/logo_1a2b3c4d.webp");
        ("size", Types.JList [Types.JInt 640; Types.JInt 480]);
        ("format", Types.JStr "WEBP");
        ("file_size", Types.JInt 20480)];
       [("status", Types.JStr "error");
        ("error", Types.JStr "cannot identify image file");
        ("original_name", Types.JStr "banner.gif")]])
    by (repeat constructor).
  split; [exact Hdescriptors|].
  apply (@uploaded_image_urls_are_not_read (Fake.up "1000.25")
           Scenes.processing _ _ Hdescriptors eq_refl).
Defined.

(** X18 at a generation that was never made, and at a download of the
    generation on disk in the format html. *)
Lemma download_missing_site_and_raw_format_witness :
  (Types.path_exists (Download.disk_fs Scenes.served_disk)
     (Main.site_dir_of "52.0001nredometi") = false
   /\ Download.download_website "52.0001nredometi" "zip" Scenes.served_disk
      = (Types.Raise (Types.HTTPException 404 "Сайт не найден"),
         Scenes.served_disk))
  /\ (Types.path_exists (Download.disk_fs Scenes.served_disk)
        (Main.site_dir_of "0123456789abcdef") = true
      /\ "html" <> "zip"
      /\ Download.download_website "0123456789abcdef" "html" Scenes.served_disk
         = (Types.Ret
              {| Download.response_path :=
                   Main.site_dir_of "0123456789abcdef" +:+ "/index.html";
                 Download.response_filename := "index.html";
                 Download.response_media_type := None |},
            Scenes.served_disk)).
Proof.
  split.
  - split; [reflexivity|].
    apply (proj1 (download_missing_site_and_raw_format "52.0001nredometi"
                    "zip" Scenes.served_disk)).
    reflexivity.
  - split; [reflexivity|]. split; [discriminate|].
    apply (proj2 (download_missing_site_and_raw_format "0123456789abcdef"
                    "html" Scenes.served_disk));
      [reflexivity | discriminate].
Defined.

(** X19 at the first zip download of the generation on disk. *)
Lemma download_builds_archive_of_site_witness :
  Types.path_exists (Download.disk_fs Scenes.served_disk)
    (Main.site_dir_of "0123456789abcdef") = true
  /\ Download.zip_files Scenes.served_disk
       !! Download.zip_path_of "0123456789abcdef" = None
  /\ Types.fault (Download.disk_fs Scenes.served_disk) = None
  /\ let served :=
       Download.download_website "0123456789abcdef" "zip" Scenes.served_disk in
     served.1 =
       Types.Ret
         {| Download.response_path := Download.zip_path_of "0123456789abcdef";
            Download.response_filename :=
              "website_" +:+ "0123456789abcdef" +:+ ".zip";
            Download.response_media_type := Some "application/zip" |}
     /\ Download.disk_fs served.2 = Download.disk_fs Scenes.served_disk
     /\ (forall other,
           other <> Download.zip_path_of "0123456789abcdef" ->
           Download.zip_files served.2 !! other
             = Download.zip_files Scenes.served_disk !! other)
     /\ exists archive,
          Download.zip_files served.2 !! Download.zip_path_of "0123456789abcdef"
            = Some archive
          /\ forall name,
               archive !! name =
                 Types.files (Download.disk_fs Scenes.served_disk)
                   !! (Main.site_dir_of "0123456789abcdef" +:+ "/" +:+ name).
Proof.
  split; [reflexivity|]. split; [reflexivity|]. split; [reflexivity|].
  apply (download_builds_archive_of_site "0123456789abcdef" Scenes.served_disk);
    reflexivity.
Defined.

(** X20 at a second zip download made after the document was edited and
    the disk became read-only: the archive still holds the first
    document. *)
Lemma download_serves_existing_archive_witness :
  Types.path_exists (Download.disk_fs Scenes.served_disk)
    (Main.site_dir_of "0123456789abcdef") = true
  /\ Types.path_exists Scenes.edited_fs (Main.site_dir_of "0123456789abcdef")
     = true
  /\ let first :=
       Download.download_website "0123456789abcdef" "zip" Scenes.served_disk in
     let second :=
       Download.download_website "0123456789abcdef" "zip"
         {| Download.disk_fs := Scenes.edited_fs;
            Download.zip_files := Download.zip_files first.2 |} in
     second.1 = first.1
     /\ second.2 = {| Download.disk_fs := Scenes.edited_fs;
                      Download.zip_files := Download.zip_files first.2 |}
     /\ exists archive,
          Download.zip_files second.2 !! Download.zip_path_of "0123456789abcdef"
            = Some archive
          /\ forall name,
               archive !! name =
                 Types.files (Download.disk_fs Scenes.served_disk)
                   !! (Main.site_dir_of "0123456789abcdef" +:+ "/" +:+ name).
Proof.
  split; [reflexivity|]. split; [reflexivity|].
  apply (download_serves_existing_archive "0123456789abcdef" Scenes.served_disk
           Scenes.edited_fs);
    reflexivity.
Defined.

(** X23 at a reply that is prose. *)
Lemma generate_website_decode_failure_witness :
  @Types.json_loads Scenes.undecodable
    (@Types.str_strip Scenes.undecodable "Here is your site!")
    = inl "Expecting value: line 1 column 1 (char 0)"
  /\ @WebsiteAgent.generate_website Scenes.undecodable Fake.bakery_request
       1001 1006 Fake.empty_world
     = (Types.Ret
          (WebsiteAgent.error_result
             ("Ошибка парсинга JSON ответа: "
                +:+ "Expecting value: line 1 column 1 (char 0)") 5),
        Types.log_call Fake.empty_world WebsiteAgent.base_prompt
          (WebsiteAgent._build_generation_prompt Fake.bakery_request)).
Proof.
  split; [reflexivity|].
  apply (@generate_website_decode_failure Scenes.undecodable
           Fake.bakery_request 1001 1006 Fake.empty_world "Here is your site!"
           [] "Expecting value: line 1 column 1 (char 0)");
    reflexivity.
Defined.


Section ExtrasAtInputs.
Import PyStr Types Files Observations Main ImageProcessor Download.
#[local] Existing Instance Scenes.example_runtime.

(** X8 at the result of the worked example, saved beside the output of
    another generation: the index.html of the other generation is left as
    it was. *)
Lemma save_generation_result_touches_only_its_files_witness :
  fault (fs Fake.served_world) = None
  /\ "generated/sites/0123456789abcdef/index.html"
       <> site_dir_of "52.0001nredometi" +:+ "/index.html"
  /\ let w' := (save_generation_result 1005 "52.0001nredometi"
                  Scenes.bakery_result Fake.served_world).2 in
     files (fs w') !! "generated/sites/0123456789abcdef/index.html"
       = files (fs Fake.served_world)
           !! "generated/sites/0123456789abcdef/index.html"
     /\ dirs (fs w')
        = {[site_dir_of "52.0001nredometi"]} ∪ dirs (fs Fake.served_world)
     /\ redis_client w' = redis_client Fake.served_world
     /\ llm_calls w' = llm_calls Fake.served_world
     /\ background_tasks w' = background_tasks Fake.served_world.
Proof.
  split; [reflexivity|].
  split; [intros Heq; vm_compute in Heq; discriminate Heq|].
  apply (save_generation_result_touches_only_its_files 1005 "52.0001nredometi"
           Scenes.bakery_result Fake.served_world
           "generated/sites/0123456789abcdef/index.html");
    [reflexivity | intros Heq; vm_compute in Heq; discriminate Heq ..].
Defined.


(** X11 at the worked example on a disk that runs full while styles.css
    is written: index.html is there by then. *)
Lemma process_generation_save_failure_witness :
  redis_client Scenes.full_disk_world = Some Fake.empty_redis
  /\ (WebsiteAgent.generate_website Fake.bakery_request 1001 1006
        Scenes.full_disk_world).1 = Ret Scenes.bakery_result
  /\ (save_generation_result 1006 "52.0001nredometi" Scenes.bakery_result
        Scenes.full_disk_world).1
     = Raise (Exception "[Errno 28] No space left on device")
  /\ let run :=
       process_generation 1001 1006 "52.0001nredometi" Fake.bakery_request
         ("generation:" +:+ "BakeryA cozy neighborhood bakery sitemodern")
         Scenes.full_disk_world in
     (forall now,
        (now < 1006 + 3600)%Z ->
        status_entry run.2 now "52.0001nredometi" =
          Some (StatusJson
                  {| generation_id := "52.0001nredometi"; status := "error";
                     progress := 0; message := "Ошибка генерации";
                     result_url := None;
                     error := Some "[Errno 28] No space left on device" |}))
     /\ (forall now,
           cache_entry run.2 now
             ("generation:" +:+ "BakeryA cozy neighborhood bakery sitemodern") =
           cache_entry Scenes.full_disk_world now
             ("generation:" +:+ "BakeryA cozy neighborhood bakery sitemodern"))
     /\ get_generation_status 9000 "52.0001nredometi" run.2
        = (Ret (completed "52.0001nredometi"), run.2).
Proof.
  split; [reflexivity|]. split; [reflexivity|]. split; [reflexivity|].
  destruct (process_generation_save_failure 1001 1006 "52.0001nredometi"
              Fake.bakery_request "BakeryA cozy neighborhood bakery sitemodern"
              Scenes.full_disk_world Fake.empty_redis Scenes.bakery_result
              (Exception "[Errno 28] No space left on device")
              ltac:(reflexivity) ltac:(reflexivity) ltac:(reflexivity))
    as (_ & Hstatus & Hcache & _ & _ & Hlate).
  split; [exact Hstatus|]. split; [exact Hcache|].
  apply (Hlate 9000%Z); [lia | reflexivity | reflexivity].
Defined.

(** X13 at the worked example: a second submission one hour after the run,
    with another theme and for mobile only, is answered from the cache. *)
Lemma finished_run_is_served_from_cache_witness :
  redis_client Fake.empty_world = Some Fake.empty_redis
  /\ fault (fs Fake.empty_world) = None
  /\ (WebsiteAgent.generate_website Fake.bakery_request 1001 1006
        Fake.empty_world).1 = Ret Scenes.bakery_result
  /\ result_encodable Scenes.bakery_result = true
  /\ let key :=
       "generation:"
         +:+ md5_hexdigest
               ("Bakery" +:+ "A cozy neighborhood bakery site" +:+ "modern") in
     let w' :=
       (process_generation 1001 1006 "52.0001nredometi" Fake.bakery_request
          key Fake.empty_world).2 in
     (cache_entry w' 4606 key
      = Some (CacheJson "52.0001nredometi"
                ("/sites/" +:+ "52.0001nredometi" +:+ "/index.html"))
      /\ (generate_website 4606 "Bakery" "A cozy neighborhood bakery site"
            "modern" "dark" ["mobile"] false true [Scenes.menu_pdf] w').2 = w'
      /\ exists st,
           (generate_website 4606 "Bakery" "A cozy neighborhood bakery site"
              "modern" "dark" ["mobile"] false true [Scenes.menu_pdf] w').1
             = Ret st
           /\ status st = "completed" /\ progress st = 100%Z)
     /\ cache_entry w' 87406 key = None.
Proof.
  split; [reflexivity|]. split; [reflexivity|]. split; [reflexivity|].
  split; [reflexivity|].
  pose proof (finished_run_is_served_from_cache 1001 1006
                "52.0001nredometi" Fake.bakery_request Fake.empty_world
                Fake.empty_redis Scenes.bakery_result "Bakery"
                "A cozy neighborhood bakery site" "modern"
                ltac:(reflexivity) ltac:(reflexivity) ltac:(reflexivity) ltac:(reflexivity)) as [Hhit Hgone].
  split.
  - apply (Hhit 4606%Z "dark" ["mobile"] false true [Scenes.menu_pdf]);
      [lia | reflexivity].
  - apply (Hgone 87406%Z). lia.
Defined.

(** X14 at the worked example, whose document is not empty, and at the
    worked example with an unreachable endpoint, whose document is
    empty. *)
Lemma finished_generation_polls_witness :
  ((WebsiteAgent.generate_website Fake.bakery_request 1001 1006
      Fake.empty_world).1 = Ret Scenes.bakery_result
   /\ result_encodable Scenes.bakery_result = true
   /\ html_content Scenes.bakery_result <> ""
   /\ let w' :=
        (process_generation 1001 1006 "52.0001nredometi" Fake.bakery_request
           "generation:BakeryA cozy neighborhood bakery sitemodern"
           Fake.empty_world).2 in
      get_generation_status 2000 "52.0001nredometi" w'
        = (Ret (completed "52.0001nredometi"), w')
      /\ get_generation_status 9000 "52.0001nredometi" w'
         = (Ret (completed "52.0001nredometi"), w'))
  /\ ((@WebsiteAgent.generate_website (Fake.down "1000.25") Fake.bakery_request
         1001 1006 Fake.empty_world).1
      = Ret (WebsiteAgent.error_result "Connection error." 5)
      /\ result_encodable (WebsiteAgent.error_result "Connection error." 5)
         = true
      /\ path_exists (fs Fake.empty_world)
           (site_dir_of "52.0001nredometi" +:+ "/index.html") = false
      /\ let w' :=
           (@process_generation (Fake.down "1000.25") 1001 1006
              "52.0001nredometi" Fake.bakery_request
              "generation:BakeryA cozy neighborhood bakery sitemodern"
              Fake.empty_world).2 in
         @get_generation_status (Fake.down "1000.25") 2000
           "52.0001nredometi" w'
           = (Ret (completed "52.0001nredometi"), w')
         /\ @get_generation_status (Fake.down "1000.25") 9000
              "52.0001nredometi" w'
            = (Raise (HTTPException 404 "Генерация не найдена"), w')).
Proof.
  split.
  - split; [reflexivity|]. split; [reflexivity|].
    split; [intros Heq; vm_compute in Heq; discriminate Heq|].
    pose proof (finished_generation_polls 1001 1006
                  "52.0001nredometi" Fake.bakery_request
                  "generation:BakeryA cozy neighborhood bakery sitemodern"
                  Fake.empty_world Fake.empty_redis Scenes.bakery_result
                  ltac:(reflexivity) ltac:(reflexivity) ltac:(reflexivity) ltac:(reflexivity)) as (Hhour & Hdisk & _).
    split.
    + apply (Hhour 2000%Z). lia.
    + apply (Hdisk 9000%Z); [lia|].
      intros Heq; vm_compute in Heq; discriminate Heq.
  - split; [reflexivity|]. split; [reflexivity|]. split; [reflexivity|].
    pose proof (@finished_generation_polls (Fake.down "1000.25") 1001 1006
                  "52.0001nredometi" Fake.bakery_request
                  "generation:BakeryA cozy neighborhood bakery sitemodern"
                  Fake.empty_world Fake.empty_redis
                  (WebsiteAgent.error_result "Connection error." 5)
                  ltac:(reflexivity) ltac:(reflexivity) ltac:(reflexivity) ltac:(reflexivity)) as (Hhour & _ & Hgone).
    split.
    + apply (Hhour 2000%Z). lia.
    + apply (Hgone 9000%Z); [lia | reflexivity | reflexivity].
Defined.

(** X15 at the worked example in a world without Redis. *)
Lemma generation_without_redis_witness :
  redis_client Scenes.no_redis_world = None
  /\ fault (fs Scenes.no_redis_world) = None
  /\ (WebsiteAgent.generate_website Fake.bakery_request 1001 1006
        Scenes.no_redis_world).1 = Ret Scenes.bakery_result
  /\ result_encodable Scenes.bakery_result = true
  /\ let run :=
       process_generation 1001 1006 "52.0001nredometi" Fake.bakery_request
         "generation:BakeryA cozy neighborhood bakery sitemodern"
         Scenes.no_redis_world in
     run.1 = Ret tt
     /\ redis_client run.2 = None
     /\ files (fs run.2) !! (site_dir_of "52.0001nredometi" +:+ "/index.html")
        = Some (Text (html_content Scenes.bakery_result))
     /\ get_generation_status 1007 "52.0001nredometi" run.2
        = (Ret (completed "52.0001nredometi"), run.2).
Proof.
  split; [reflexivity|]. split; [reflexivity|]. split; [reflexivity|].
  split; [reflexivity|].
  pose proof (generation_without_redis 1001 1006
                "52.0001nredometi" Fake.bakery_request
                "generation:BakeryA cozy neighborhood bakery sitemodern"
                Scenes.no_redis_world Scenes.bakery_result
                ltac:(reflexivity) ltac:(reflexivity) ltac:(reflexivity) ltac:(reflexivity))
    as (Hret & Hredis & _ & Hindex & Hdisk & _).
  split; [exact Hret|]. split; [exact Hredis|].
  split; [exact Hindex|].
  apply Hdisk. intros Heq; vm_compute in Heq; discriminate Heq.
Defined.

(** X21 at the result of the worked example saved into an empty world. *)
Lemma persisted_result_is_archived_witness :
  fault (fs Fake.empty_world) = None
  /\ result_encodable Scenes.bakery_result = true
  /\ (∅ : gmap string (gmap string FileContent))
       !! zip_path_of "52.0001nredometi" = None
  /\ let saved :=
       (save_generation_result 1006 "52.0001nredometi"
          Scenes.bakery_result Fake.empty_world).2 in
     let served :=
       download_website "52.0001nredometi" "zip"
         {| disk_fs := fs saved; zip_files := ∅ |} in
     exists archive,
       zip_files served.2 !! zip_path_of "52.0001nredometi" = Some archive
       /\ archive !! "meta.json" =
            Some (MetaJson
                    {| meta_generation_id := "52.0001nredometi";
                       meta_site_name := res_site_name Scenes.bakery_result;
                       meta_created_at := 1006;
                       meta_generation_time :=
                         generation_time Scenes.bakery_result;
                       meta_seo_meta := seo_meta Scenes.bakery_result;
                       meta_images_used := images_used Scenes.bakery_result |})
       /\ archive !! "index.html" =
            if bool_decide (html_content Scenes.bakery_result = "")
            then files (fs Fake.empty_world)
                   !! (site_dir_of "52.0001nredometi" +:+ "/index.html")
            else Some (Text (html_content Scenes.bakery_result)).
Proof.
  split; [reflexivity|]. split; [reflexivity|]. split; [reflexivity|].
  apply (persisted_result_is_archived 1006 "52.0001nredometi"
           Scenes.bakery_result Fake.empty_world ∅);
    reflexivity.
Defined.

(** X22 at the worked example with the logo as its image: submitted at
    the instant 1000, run from 1001 to 1006, polled at 2000. *)
Lemma submitted_generation_is_reported_witness :
  cache_entry Fake.empty_world 1000
    ("generation:"
       +:+ md5_hexdigest
             ("Bakery" +:+ "A cozy neighborhood bakery site" +:+ "modern"))
    = None
  /\ redis_client Fake.empty_world = Some Fake.empty_redis
  /\ background_tasks Fake.empty_world = []
  /\ let submitted :=
       generate_website 1000 "Bakery" "A cozy neighborhood bakery site"
         "modern" "light" Fake.all_devices true false [Scenes.logo_png]
         Fake.empty_world in
     exists st task answer,
       submitted.1 = Ret st
       /\ background_tasks submitted.2 = [task]
       /\ task_generation_id task = generation_id st
       /\ (get_generation_status 2000 (generation_id st)
             (run_task 1001 1006 task submitted.2).2).1 = Ret answer
       /\ generation_id answer = generation_id st
       /\ (status answer = "completed" /\ progress answer = 100%Z
           /\ error answer = None
           \/ status answer = "error" /\ progress answer = 0%Z
              /\ is_Some (error answer))
       /\ (fault (fs Fake.empty_world) = None ->
           forall result,
             (WebsiteAgent.generate_website (task_request task) 1001 1006
                Fake.empty_world).1 = Ret result ->
             result_encodable result = true ->
             status answer = "completed")
       /\ length (llm_calls (run_task 1001 1006 task submitted.2).2)
          = S (length (llm_calls Fake.empty_world)).
Proof.
  split; [reflexivity|]. split; [reflexivity|]. split; [reflexivity|].
  apply (submitted_generation_is_reported 1000
           "Bakery" "A cozy neighborhood bakery site" "modern" "light"
           Fake.all_devices true false [Scenes.logo_png] Fake.empty_world
           Fake.empty_redis 1001 1006 2000);
    reflexivity.
Defined.

(** X24 at the worked example with a lone surrogate behind the image tag
    of the reply. *)
Lemma unencodable_document_ends_in_error_witness :
  (@WebsiteAgent.generate_website Scenes.surrogate_up Fake.bakery_request
     1001 1006 Fake.empty_world).1 = Ret Scenes.surrogate_result
  /\ has_surrogate (html_content Scenes.surrogate_result) = true
  /\ let run :=
       @process_generation Scenes.surrogate_up 1001 1006 "52.0001nredometi"
         Fake.bakery_request
         ("generation:" +:+ "BakeryA cozy neighborhood bakery sitemodern")
         Fake.empty_world in
     (@get_generation_status Scenes.surrogate_up 2000 "52.0001nredometi" run.2).1
       = Ret {| generation_id := "52.0001nredometi"; status := "error";
                progress := 0; message := "Ошибка генерации";
                result_url := None;
                error :=
                  Some (@unicode_encode_error Scenes.surrogate_up
                          (Text (html_content Scenes.surrogate_result))) |}
     /\ files (fs run.2) !! (site_dir_of "52.0001nredometi" +:+ "/index.html")
        = Some (Text "")
     /\ files (fs run.2) !! (site_dir_of "52.0001nredometi" +:+ "/meta.json")
        = None
     /\ (@get_generation_status Scenes.surrogate_up 9000 "52.0001nredometi"
           run.2).1
        = Ret (completed "52.0001nredometi").
Proof.
  split; [reflexivity|]. split; [reflexivity|].
  destruct (@unencodable_document_ends_in_error Scenes.surrogate_up 1001 1006
              "52.0001nredometi" Fake.bakery_request
              "BakeryA cozy neighborhood bakery sitemodern" Fake.empty_world
              Fake.empty_redis Scenes.surrogate_result
              ltac:(reflexivity) ltac:(reflexivity) ltac:(reflexivity) ltac:(reflexivity))
    as (Hhour & _ & Hindex & Hmeta & Hlate).
  split; [rewrite (Hhour 2000%Z) by lia; reflexivity|].
  split; [exact Hindex|]. split; [exact Hmeta|].
  rewrite (Hlate 9000%Z) by lia. reflexivity.
Defined.


End ExtrasAtInputs.

